(** * kmz-cleaner: a shallow embedding of [kmz-cleaner.py]

    The script unpacks ZIP bundles into a scratch folder, walks the KMZ
    archives found there, reads a handful of fields out of each [doc.kml],
    renders a minimal replacement document and zips it with the overlay image
    into [processed_kmz/].

    The functions of the script are embedded one by one ([extract_zip],
    [extract_kmz], [parse_kml], [create_clean_kml], [repackage_kmz],
    [process_files] and the module-level set-up) as computations over a
    world that holds the disk, the console and the open log file, and that
    may end in a Python exception.

    Modelling choices, all about the environment of the script:
    - text is a sequence of 8-bit characters ([string]); the UTF-8 encoding
      applied by [open(..., "w", encoding="UTF-8")] and undone by the XML
      reader is not represented, and [str.lower] acts on ASCII letters;
    - the disk is one finite map from absolute POSIX path strings to nodes;
      a directory exists through an explicit marker or because some entry
      lives below it; [os.listdir] answers in the order of the map; paths
      are compared as strings, [.] and [..] components are not resolved.
      The file system and [zipfile] do resolve them, so the general
      theorems about an archive in the loop and about whole runs are stated
      for names on which the two readings agree: archives whose extraction
      folder has a name of its own ([proper_stem]), whose members are plain
      files at the top level ([plain_archive], [plain_bundles]) and whose
      image reference is one plain name ([plain_name]);
    - a file is either raw text or a zip archive given by its member list
      (names and contents; time stamps and compression are not represented);
      on extraction and on packing a name only loses its leading slashes;
    - [xml.etree.ElementTree.parse] is modelled by a reader for the part of
      XML 1.0 that KML overlays use (declaration, comments, processing
      instructions, elements, attributes, namespace declarations, character
      data, predefined entities, character references in the 8-bit range);
      DOCTYPE declarations and CDATA sections are reported as parse errors;
    - console output is a list of message constructors. *)

From Stdlib Require Import String Ascii List Bool Arith Lia.
Import ListNotations.
#[local] Set Warnings "-register-all".
Open Scope string_scope.

(* ===================================================================== *)
(** ** Python and POSIX string helpers *)
(* ===================================================================== *)

Definition nl : string := String (ascii_of_nat 10) EmptyString.

Definition is_slash (c : ascii) : bool := Ascii.eqb c "/"%char.

(** [str.startswith] *)
Fixpoint startswith (p s : string) : bool :=
  match p, s with
  | EmptyString, _ => true
  | String a p', String b s' => Ascii.eqb a b && startswith p' s'
  | String _ _, EmptyString => false
  end.

(** [s[n:]] *)
Fixpoint drop (n : nat) (s : string) : string :=
  match n, s with
  | O, _ => s
  | S n', String _ s' => drop n' s'
  | S _, EmptyString => EmptyString
  end.

(** [str.endswith] *)
Definition endswith (s suffix : string) : bool :=
  (String.length suffix <=? String.length s)%nat
  && String.eqb (drop (String.length s - String.length suffix) s) suffix.

(** [str.lower] on the ASCII letters. *)
Definition lower_char (c : ascii) : ascii :=
  let n := nat_of_ascii c in
  if ((65 <=? n) && (n <=? 90))%nat then ascii_of_nat (n + 32) else c.

Fixpoint lower (s : string) : string :=
  match s with
  | EmptyString => EmptyString
  | String c s' => String (lower_char c) (lower s')
  end.

(** [s.replace(old, new)] for a non-empty [old]: left to right, occurrences
    do not overlap.  [skip] counts the characters of a matched occurrence that
    are still to be dropped. *)
Fixpoint replace_from (old new : string) (skip : nat) (s : string) : string :=
  match s with
  | EmptyString => EmptyString
  | String c s' =>
      match skip with
      | S k => replace_from old new k s'
      | O =>
          if startswith old s
          then new ++ replace_from old new (String.length old - 1) s'
          else String c (replace_from old new 0 s')
      end
  end.

Definition replace (old new s : string) : string := replace_from old new 0 s.

(** [s.rstrip("/")] *)
Fixpoint rstrip_slashes (s : string) : string :=
  match s with
  | EmptyString => EmptyString
  | String c s' =>
      match rstrip_slashes s' with
      | EmptyString => if is_slash c then EmptyString else String c EmptyString
      | r => String c r
      end
  end.

(** [s.lstrip("/")] *)
Fixpoint lstrip_slashes (s : string) : string :=
  match s with
  | String c s' => if is_slash c then lstrip_slashes s' else s
  | EmptyString => EmptyString
  end.

Fixpoint all_slashes (s : string) : bool :=
  match s with
  | EmptyString => true
  | String c s' => is_slash c && all_slashes s'
  end.

Fixpoint last_char (s : string) : option ascii :=
  match s with
  | EmptyString => None
  | String c EmptyString => Some c
  | String _ s' => last_char s'
  end.

(** [posixpath.join(a, b)] *)
Definition path_join (a b : string) : string :=
  if startswith "/" b then b
  else match last_char a with
       | None => b
       | Some c => if is_slash c then a ++ b else a ++ "/" ++ b
       end.

(** [p[:p.rfind("/") + 1]] *)
Fixpoint head_of (p : string) : string :=
  match p with
  | EmptyString => EmptyString
  | String c r =>
      match head_of r with
      | EmptyString => if is_slash c then "/" else EmptyString
      | h => String c h
      end
  end.

(** [posixpath.dirname] *)
Definition dirname (p : string) : string :=
  let head := head_of p in
  if all_slashes head then head else rstrip_slashes head.

(** The first component of a relative path. *)
Fixpoint first_component (s : string) : string :=
  match s with
  | EmptyString => EmptyString
  | String c s' => if is_slash c then EmptyString else String c (first_component s')
  end.

(** Truthiness of an optional Python string: [None] and [""] are falsy. *)
Definition truthy (v : option string) : bool :=
  match v with
  | Some (String _ _) => true
  | _ => false
  end.

(** [str(v)] as an f-string placeholder renders it. *)
Definition fmt (v : option string) : string :=
  match v with
  | Some s => s
  | None => "None"
  end.

(* ===================================================================== *)
(** ** The disk *)
(* ===================================================================== *)

(** A regular file: raw text, or a zip archive seen as its list of members
    (internal name, content) in directory order. *)
Inductive file : Type :=
| Data (text : string)
| Zip (members : list (string * file)).

Inductive node : Type :=
| File (f : file)
| Dir.

Definition store := list (string * node).

Fixpoint lookup (p : string) (d : store) : option node :=
  match d with
  | [] => None
  | (k, v) :: d' => if String.eqb k p then Some v else lookup p d'
  end.

Fixpoint insert (p : string) (v : node) (d : store) : store :=
  match d with
  | [] => [(p, v)]
  | (k, x) :: d' => if String.eqb k p then (k, v) :: d' else (k, x) :: insert p v d'
  end.

(** [k] lies strictly below directory [p] ([p] without trailing slash). *)
Definition below (p k : string) : bool := startswith (p ++ "/") k.

(** [k] is [p] or lies below it. *)
Definition within (p k : string) : bool := String.eqb k p || below p k.

Definition remove_tree (p : string) (d : store) : store :=
  filter (fun kv => negb (within p (fst kv))) d.

Definition has_below (p : string) (d : store) : bool :=
  existsb (fun kv => below p (fst kv)) d.

(** [os.path.isdir] *)
Definition isdir (p : string) (d : store) : bool :=
  let q := rstrip_slashes p in
  match lookup q d with
  | Some Dir => true
  | Some (File _) => false
  | None => has_below q d
  end.

(** [os.path.isfile] for a path without trailing slash. *)
Definition isfile (p : string) (d : store) : bool :=
  match lookup p d with
  | Some (File _) => true
  | _ => false
  end.

(** [os.path.exists] *)
Definition path_exists (p : string) (d : store) : bool :=
  isfile p d || isdir p d.

Fixpoint dedup (seen : list string) (l : list string) : list string :=
  match l with
  | [] => []
  | x :: l' =>
      if existsb (String.eqb x) seen then dedup seen l'
      else x :: dedup (x :: seen) l'
  end.

(** The names [os.listdir(p)] returns for a directory [p]. *)
Definition children (p : string) (d : store) : list string :=
  let q := rstrip_slashes p ++ "/" in
  dedup []
    (flat_map (fun kv =>
                 if startswith q (fst kv)
                 then [first_component (drop (String.length q) (fst kv))]
                 else []) d).

(* ===================================================================== *)
(** ** Element trees and the ElementPath queries the script uses *)
(* ===================================================================== *)

(** [xml.etree.ElementTree.Element]: the tag in Clark notation
    ([{uri}local]), the text before the first child ([None] when there is
    none), and the children.  Attributes and tails are never read by the
    script. *)
Inductive Element : Type :=
| Elem (tag : string) (text : option string) (kids : list Element).

Definition tag_of (e : Element) : string := let 'Elem t _ _ := e in t.
Definition text_of (e : Element) : option string := let 'Elem _ x _ := e in x.
Definition kids_of (e : Element) : list Element := let 'Elem _ _ ks := e in ks.

(** [Element.iter()]: the element and all its descendants in document order. *)
Fixpoint iter (e : Element) : list Element :=
  match e with
  | Elem _ _ ks => e :: flat_map iter ks
  end.

Definition descendants (e : Element) : list Element := flat_map iter (kids_of e).

Definition has_tag (t : string) (e : Element) : bool := String.eqb (tag_of e) t.

(** [e.find(".//t")] *)
Definition find_desc (t : string) (e : Element) : option Element :=
  find (has_tag t) (descendants e).

(** [e.find("t")] *)
Definition find_child (t : string) (e : Element) : option Element :=
  find (has_tag t) (kids_of e).

(** [e.find(".//t1/t2")] *)
Definition find_desc_child (t1 t2 : string) (e : Element) : option Element :=
  hd_error
    (flat_map (fun i => filter (has_tag t2) (kids_of i))
              (filter (has_tag t1) (descendants e))).

(** The local part of a Clark-notation tag. *)
Fixpoint after_brace (s : string) : string :=
  match s with
  | EmptyString => EmptyString
  | String c s' => if Ascii.eqb c "}"%char then s' else after_brace s'
  end.

Definition local_name (t : string) : string :=
  if startswith "{" t then after_brace t else t.

(** How many elements of the tree have local name [n]. *)
Definition count_local (n : string) (e : Element) : nat :=
  List.length (filter (fun x => String.eqb (local_name (tag_of x)) n) (iter e)).

(* ===================================================================== *)
(** ** A model of the XML reader behind [ET.parse] *)
(* ===================================================================== *)

Definition code (c : ascii) : nat := nat_of_ascii c.

Definition is_space (c : ascii) : bool :=
  let n := code c in
  ((n =? 32) || (n =? 9) || (n =? 10) || (n =? 13))%nat.

Definition is_digit (c : ascii) : bool :=
  let n := code c in ((48 <=? n) && (n <=? 57))%nat.

Definition is_letter (c : ascii) : bool :=
  let n := code c in
  (((65 <=? n) && (n <=? 90)) || ((97 <=? n) && (n <=? 122)))%nat.

Definition is_name_start (c : ascii) : bool :=
  is_letter c || Ascii.eqb c "_"%char || Ascii.eqb c ":"%char || (128 <=? code c)%nat.

Definition is_name_char (c : ascii) : bool :=
  is_name_start c || is_digit c || Ascii.eqb c "-"%char || Ascii.eqb c "."%char.

(** Characters XML 1.0 forbids in a document: the C0 controls other than
    tab, line feed and carriage return. *)
Definition is_forbidden (c : ascii) : bool :=
  let n := code c in
  ((n <? 32) && negb ((n =? 9) || (n =? 10) || (n =? 13)))%nat.

Definition dquote : ascii := ascii_of_nat 34.

Definition is_quote (c : ascii) : bool := Ascii.eqb c dquote || Ascii.eqb c "'"%char.

Definition snoc (s : string) (c : ascii) : string := s ++ String c EmptyString.

Fixpoint all_chars (p : ascii -> bool) (s : string) : bool :=
  match s with
  | EmptyString => true
  | String c r => p c && all_chars p r
  end.

(** *** References *)

Definition digit_val (c : ascii) : option nat :=
  if is_digit c then Some (code c - 48) else None.

Definition hex_val (c : ascii) : option nat :=
  let n := code c in
  if is_digit c then Some (n - 48)
  else if ((97 <=? n) && (n <=? 102))%nat then Some (n - 87)
  else if ((65 <=? n) && (n <=? 70))%nat then Some (n - 55)
  else None.

(** A numeral in the given base; [None] when empty, malformed, or beyond the
    8-bit alphabet of the model. *)
Fixpoint number (base : nat) (val : ascii -> option nat) (acc : option nat)
  (s : string) : option nat :=
  match s with
  | EmptyString => acc
  | String c r =>
      match val c with
      | None => None
      | Some d =>
          let n := base * match acc with Some a => a | None => 0 end + d in
          if (255 <? n)%nat then None else number base val (Some n) r
      end
  end.

Definition char_of_code (n : option nat) : option ascii :=
  match n with
  | Some k => if is_forbidden (ascii_of_nat k) then None else Some (ascii_of_nat k)
  | None => None
  end.

(** What [&name;] stands for. *)
Definition entity (name : string) : option ascii :=
  match name with
  | "amp" => Some "&"%char
  | "lt" => Some "<"%char
  | "gt" => Some ">"%char
  | "quot" => Some dquote
  | "apos" => Some "'"%char
  | String "#" (String "x" h) => char_of_code (number 16 hex_val None h)
  | String "#" d => char_of_code (number 10 digit_val None d)
  | _ => None
  end.

(** Expands the references of a run of character data or of an attribute
    value; [ref] holds the name being read after an ampersand. *)
Fixpoint decode_refs (ref : option string) (s : string) : option string :=
  match s with
  | EmptyString =>
      match ref with
      | None => Some EmptyString
      | Some _ => None
      end
  | String c r =>
      match ref with
      | None =>
          if Ascii.eqb c "&"%char then decode_refs (Some EmptyString) r
          else option_map (String c) (decode_refs None r)
      | Some n =>
          if Ascii.eqb c ";"%char then
            match entity n with
            | Some ch => option_map (String ch) (decode_refs None r)
            | None => None
            end
          else decode_refs (Some (snoc n c)) r
      end
  end.

(** *** The scanner *)

Inductive token : Type :=
| TText (data : string) (blank : bool)
                           (* character data with its references expanded,
                              and whether it was written as white space only *)
| TStart (body : string)   (* what stands between < and > of a start tag *)
| TEnd (body : string)     (* what stands between </ and > *)
| TPI (body : string)      (* what stands between <? and ?> *)
| TBad.                    (* not well-formed from here on *)

Inductive mode : Type :=
| MText (acc : string) (brackets : nat) (cr : bool)
| MLt
| MStart (acc : string) (quote : option ascii)
| MEnd (acc : string)
| MPI (acc : string) (qmark : bool)
| MBang1
| MBang2
| MComment (dashes : nat).

(** A run of character data as the reader reports it; an undefined or
    malformed reference in it is an error. *)
Definition text_token (raw : string) : token :=
  match decode_refs None raw with
  | Some s => TText s (all_chars is_space raw)
  | None => TBad
  end.

(** The scanner: one character at a time.  In character data a carriage
    return becomes a line feed (and swallows a line feed right after it), and
    the sequence ]]> is refused. *)
Fixpoint lex (m : mode) (s : string) : list token :=
  match s with
  | EmptyString =>
      match m with
      | MText acc _ _ => [text_token acc]
      | _ => [TBad]
      end
  | String c s' =>
      match m with
      | MText acc br cr =>
          if Ascii.eqb c "<"%char then text_token acc :: lex MLt s'
          else if is_forbidden c then [TBad]
          else if Ascii.eqb c "]"%char then lex (MText (snoc acc c) (S br) false) s'
          else if Ascii.eqb c ">"%char then
            if (2 <=? br)%nat then [TBad] else lex (MText (snoc acc c) 0 false) s'
          else if (code c =? 13)%nat then
            lex (MText (snoc acc (ascii_of_nat 10)) 0 true) s'
          else if (code c =? 10)%nat && cr then lex (MText acc 0 false) s'
          else lex (MText (snoc acc c) 0 false) s'
      | MLt =>
          if Ascii.eqb c "/"%char then lex (MEnd "") s'
          else if Ascii.eqb c "?"%char then lex (MPI "" false) s'
          else if Ascii.eqb c "!"%char then lex MBang1 s'
          else if is_name_start c then lex (MStart (String c "") None) s'
          else [TBad]
      | MStart acc None =>
          if Ascii.eqb c ">"%char then TStart acc :: lex (MText "" 0 false) s'
          else if Ascii.eqb c "<"%char then [TBad]
          else if is_forbidden c then [TBad]
          else if is_quote c
               then lex (MStart (snoc acc c) (Some c)) s'
          else lex (MStart (snoc acc c) None) s'
      | MStart acc (Some q) =>
          if Ascii.eqb c "<"%char then [TBad]
          else if is_forbidden c then [TBad]
          else if Ascii.eqb c q then lex (MStart (snoc acc c) None) s'
          else lex (MStart (snoc acc c) (Some q)) s'
      | MEnd acc =>
          if Ascii.eqb c ">"%char then TEnd acc :: lex (MText "" 0 false) s'
          else if is_name_char c || is_space c then lex (MEnd (snoc acc c)) s'
          else [TBad]
      | MPI acc qm =>
          if Ascii.eqb c ">"%char && qm then TPI acc :: lex (MText "" 0 false) s'
          else if is_forbidden c then [TBad]
          else if Ascii.eqb c "?"%char
               then lex (MPI (if qm then snoc acc "?"%char else acc) true) s'
          else lex (MPI (snoc (if qm then snoc acc "?"%char else acc) c) false) s'
      | MBang1 => if Ascii.eqb c "-"%char then lex MBang2 s' else [TBad]
      | MBang2 => if Ascii.eqb c "-"%char then lex (MComment 0) s' else [TBad]
      | MComment 2 =>
          if Ascii.eqb c ">"%char then lex (MText "" 0 false) s' else [TBad]
      | MComment d =>
          if is_forbidden c then [TBad]
          else if Ascii.eqb c "-"%char then lex (MComment (S d)) s'
          else lex (MComment 0) s'
      end
  end.

(** *** Start tags and namespaces *)

Fixpoint span (p : ascii -> bool) (s : string) : string * string :=
  match s with
  | EmptyString => (EmptyString, EmptyString)
  | String c r =>
      if p c then let (a, b) := span p r in (String c a, b)
      else (EmptyString, s)
  end.

Definition skip_ws (s : string) : string := snd (span is_space s).

Definition is_empty (s : string) : bool :=
  match s with
  | EmptyString => true
  | _ => false
  end.

(** The attribute list of a start tag and whether the tag closes itself. *)
Fixpoint parse_attrs (fuel : nat) (s : string)
  : option (list (string * string) * bool) :=
  match fuel with
  | O => None
  | S fuel' =>
      let (ws, s1) := span is_space s in
      match s1 with
      | EmptyString => Some ([], false)
      | String c r =>
          if Ascii.eqb c "/"%char then
            if is_empty r then Some ([], true) else None
          else if is_empty ws || negb (is_name_start c) then None
          else
            let (n, r1) := span is_name_char s1 in
            match skip_ws r1 with
            | String e r2 =>
                if Ascii.eqb e "="%char then
                  match skip_ws r2 with
                  | String q r3 =>
                      if is_quote q then
                        let (v, r4) := span (fun x => negb (Ascii.eqb x q)) r3 in
                        match r4 with
                        | String _ r5 =>
                            match decode_refs None v, parse_attrs fuel' r5 with
                            | Some v', Some (rest, sc) => Some ((n, v') :: rest, sc)
                            | _, _ => None
                            end
                        | EmptyString => None
                        end
                      else None
                  | EmptyString => None
                  end
                else None
            | EmptyString => None
            end
      end
  end.

Fixpoint has_dup (names : list string) : bool :=
  match names with
  | [] => false
  | n :: ns => existsb (String.eqb n) ns || has_dup ns
  end.

(** Qualified name, attributes, self-closing flag. *)
Definition parse_start_tag (body : string)
  : option (string * list (string * string) * bool) :=
  let (n, r) := span is_name_char body in
  match parse_attrs (S (String.length r)) r with
  | Some (attrs, sc) =>
      if is_empty n || has_dup (map fst attrs) then None else Some (n, attrs, sc)
  | None => None
  end.

Definition nsenv := list (string * string).

Fixpoint ns_lookup (p : string) (env : nsenv) : option string :=
  match env with
  | [] => None
  | (k, u) :: env' => if String.eqb k p then Some u else ns_lookup p env'
  end.

(** The scope after the [xmlns] and [xmlns:p] attributes of a start tag. *)
Fixpoint declare (attrs : list (string * string)) (env : nsenv) : nsenv :=
  match attrs with
  | [] => env
  | (n, v) :: rest =>
      let env' := declare rest env in
      if String.eqb n "xmlns" then (EmptyString, v) :: env'
      else if startswith "xmlns:" n then (drop 6 n, v) :: env'
      else env'
  end.

Definition not_colon (c : ascii) : bool := negb (Ascii.eqb c ":"%char).

(** The Clark-notation tag of a qualified element name. *)
Definition resolve (env : nsenv) (q : string) : option string :=
  let (a, b) := span not_colon q in
  match b with
  | EmptyString =>
      match ns_lookup EmptyString env with
      | Some (String c u) => Some ("{" ++ String c u ++ "}" ++ a)
      | _ => Some a
      end
  | String _ l =>
      if is_empty a || is_empty l || negb (all_chars not_colon l) then None
      else match ns_lookup a env with
           | Some u => Some ("{" ++ u ++ "}" ++ l)
           | None => None
           end
  end.

(** *** Building the tree *)

(** An element whose end tag has not been read yet. *)
Record frame : Type := {
  f_qname : string;          (* the name as written, to match the end tag *)
  f_tag : string;            (* the name in Clark notation *)
  f_env : nsenv;             (* namespaces in scope inside the element *)
  f_text : string;           (* character data before the first child *)
  f_kids : list Element      (* children read so far, last one first *)
}.

Definition add_kid (e : Element) (f : frame) : frame :=
  {| f_qname := f_qname f; f_tag := f_tag f; f_env := f_env f;
     f_text := f_text f; f_kids := e :: f_kids f |}.

Definition add_text (s : string) (f : frame) : frame :=
  match f_kids f with
  | [] => {| f_qname := f_qname f; f_tag := f_tag f; f_env := f_env f;
             f_text := f_text f ++ s; f_kids := [] |}
  | _ :: _ => f
  end.

Definition close_frame (f : frame) : Element :=
  Elem (f_tag f)
       (if is_empty (f_text f) then None else Some (f_text f))
       (rev (f_kids f)).

(** Hands a finished element to its parent, or makes it the document
    element when there is none yet. *)
Definition attach (e : Element) (stack : list frame) (root : option Element)
  : option (list frame * option Element) :=
  match stack, root with
  | f :: stack', _ => Some (add_kid e f :: stack', root)
  | [], None => Some ([], Some e)
  | [], Some _ => None
  end.

Definition scope_of (stack : list frame) : nsenv :=
  match stack with
  | f :: _ => f_env f
  | [] => []
  end.

Definition pi_target (body : string) : string := fst (span is_name_char body).

(** What reading one token does to the stack of open elements and to the
    document element. *)
Definition build_step (t : token) (st : list frame * option Element)
  : option (list frame * option Element) :=
  let (stack, root) := st in
  match t with
  | TBad => None
  | TPI body => if is_empty (pi_target body) then None else Some st
  | TText s blank =>
      match stack with
      | [] => if blank then Some st else None
      | f :: stack' => Some (add_text s f :: stack', root)
      end
  | TStart body =>
      match parse_start_tag body with
      | None => None
      | Some (qn, attrs, selfclosing) =>
          let env := declare attrs (scope_of stack) in
          match resolve env qn with
          | None => None
          | Some tag =>
              if selfclosing then attach (Elem tag None []) stack root
              else
                match stack, root with
                | [], Some _ => None
                | _, _ =>
                    Some ({| f_qname := qn; f_tag := tag; f_env := env;
                             f_text := EmptyString; f_kids := [] |} :: stack,
                          root)
                end
          end
      end
  | TEnd body =>
      match stack with
      | [] => None
      | f :: stack' =>
          let (qn, ws) := span is_name_char body in
          if String.eqb qn (f_qname f) && all_chars is_space ws
          then attach (close_frame f) stack' root
          else None
      end
  end.

Fixpoint build_all (toks : list token) (st : list frame * option Element)
  : option (list frame * option Element) :=
  match toks with
  | [] => Some st
  | t :: rest =>
      match build_step t st with
      | Some st' => build_all rest st'
      | None => None
      end
  end.

(** The tree of a token sequence: every element must have been closed and
    there must be a document element. *)
Definition build (toks : list token) : option Element :=
  match build_all toks ([], None) with
  | Some ([], root) => root
  | _ => None
  end.

Definition is_xml_target (t : token) : bool :=
  match t with
  | TPI body => String.eqb (lower (pi_target body)) "xml"
  | _ => false
  end.

(** The XML declaration may only open the document, and no other
    processing instruction may use its name. *)
Definition decl_ok (toks : list token) : bool :=
  match toks with
  | TText EmptyString _ :: TPI body :: rest =>
      (String.eqb (pi_target body) "xml" || negb (is_xml_target (TPI body)))
      && negb (existsb is_xml_target rest)
  | _ => negb (existsb is_xml_target toks)
  end.

(** The element tree of a document text, [None] when the text is not
    well-formed. *)
Definition xml_parse (s : string) : option Element :=
  let toks := lex (MText EmptyString 0 false) s in
  if decl_ok toks then build toks else None.

(* ===================================================================== *)
(** ** The world the script runs in *)
(* ===================================================================== *)

Inductive exn : Type :=
| ParseError
| AttributeError
| TypeError
| BadZipFile
| FileNotFoundError
| FileExistsError
| IsADirectoryError
| NotADirectoryError.

Inductive result (A : Type) : Type :=
| Ok (a : A)
| Raise (e : exn).

Arguments Ok {A} a.
Arguments Raise {A} e.

(** The [print] calls of the script, one constructor per message. *)
Inductive msg : Type :=
| LookingIn (folder : string)
| ExtractingZip (zip_file : string)
| CheckingIn (folder : string)
| FoundInTemp (name : string)
| Processing (kmz_file : string)
| NoKmlFile (kmz_file : string)
| NoGroundOverlay (kml_path : string)
| MissingImage (image_href : string) (doc_name : option string)
| SkippingMissingData (kmz_file : string)
| Parsed (doc_name : option string)
| Processed (kmz_file output_kmz_path : string)
| CleanedUp.

(** [SCRIPT_FOLDER] is where the script lives; [log_buffer] is what has been
    written through the open log file object and reaches the disk when the
    [with] block closes it. *)
Record world : Type := {
  SCRIPT_FOLDER : string;
  disk : store;
  console : list msg;
  log_buffer : string
}.

Definition OUTPUT_FOLDER (w : world) : string :=
  path_join (SCRIPT_FOLDER w) "processed_kmz".

Definition TEMP_FOLDER (w : world) : string :=
  path_join (SCRIPT_FOLDER w) "temp_extract".

Definition set_disk (d : store) (w : world) : world :=
  {| SCRIPT_FOLDER := SCRIPT_FOLDER w; disk := d;
     console := console w; log_buffer := log_buffer w |}.

Definition set_log (b : string) (w : world) : world :=
  {| SCRIPT_FOLDER := SCRIPT_FOLDER w; disk := disk w;
     console := console w; log_buffer := b |}.

(** Computations that read and change the world and may raise. *)
Definition M (A : Type) : Type := world -> world * result A.

Definition ret {A : Type} (a : A) : M A := fun w => (w, Ok a).

Definition raise {A : Type} (e : exn) : M A := fun w => (w, Raise e).

Definition bind {A B : Type} (c : M A) (k : A -> M B) : M B :=
  fun w =>
    match c w with
    | (w', Ok a) => k a w'
    | (w', Raise e) => (w', Raise e)
    end.

Notation "x <- c ;; k" := (bind c (fun x => k))
  (at level 61, c at next level, right associativity).
Notation "c ;; k" := (bind c (fun _ => k))
  (at level 61, right associativity).

(** A [for] loop; a [continue] in the Python body is the body returning. *)
Fixpoint for_each {A : Type} (l : list A) (body : A -> M unit) : M unit :=
  match l with
  | [] => ret tt
  | x :: l' => body x ;; for_each l' body
  end.

Definition print (m : msg) : M unit :=
  fun w => ({| SCRIPT_FOLDER := SCRIPT_FOLDER w; disk := disk w;
               console := console w ++ [m]; log_buffer := log_buffer w |}, Ok tt).

Definition get_world : M world := fun w => (w, Ok w).

(** [os.path.exists] *)
Definition os_path_exists (p : string) : M bool :=
  fun w => (w, Ok (path_exists p (disk w))).

(** [os.listdir] *)
Definition os_listdir (p : string) : M (list string) :=
  fun w =>
    if isdir p (disk w) then (w, Ok (children p (disk w)))
    else if isfile p (disk w) then (w, Raise NotADirectoryError)
    else (w, Raise FileNotFoundError).

(** [os.makedirs(p, exist_ok=True)] *)
Definition os_makedirs (p : string) : M unit :=
  fun w =>
    let q := rstrip_slashes p in
    match lookup q (disk w) with
    | Some (File _) => (w, Raise FileExistsError)
    | Some Dir => (w, Ok tt)
    | None =>
        if has_below q (disk w) then (w, Ok tt)
        else (set_disk (insert q Dir (disk w)) w, Ok tt)
    end.

(** [shutil.rmtree] *)
Definition shutil_rmtree (p : string) : M unit :=
  fun w =>
    let q := rstrip_slashes p in
    if isdir q (disk w) then (set_disk (remove_tree q (disk w)) w, Ok tt)
    else if isfile q (disk w) then (w, Raise NotADirectoryError)
    else (w, Raise FileNotFoundError).

(** Creating or truncating a regular file and giving it a content. *)
Definition write_file (p : string) (f : file) : M unit :=
  fun w =>
    if isdir p (disk w) then (w, Raise IsADirectoryError)
    else if negb (isdir (dirname p) (disk w)) then (w, Raise FileNotFoundError)
    else (set_disk (insert p (File f) (disk w)) w, Ok tt).

(** Reading a regular file. *)
Definition read_file (p : string) : M file :=
  fun w =>
    match lookup p (disk w) with
    | Some (File f) => (w, Ok f)
    | Some Dir => (w, Raise IsADirectoryError)
    | None =>
        if isdir p (disk w) then (w, Raise IsADirectoryError)
        else (w, Raise FileNotFoundError)
    end.

(** [zipfile.ZipFile(p, "r")]: the member list of an archive. *)
Definition zip_open (p : string) : M (list (string * file)) :=
  f <- read_file p ;;
  match f with
  | Zip members => ret members
  | Data _ => raise BadZipFile
  end.

(** [ZipFile.extractall(dest)]: members are written one after the other
    below [dest], their names without leading slashes; a member whose name
    ends in a slash is a directory.  Folders on the way are created as
    needed, which the disk model gives for free. *)
Definition extract_member (dest : string) (m : string * file) : M unit :=
  let target := path_join dest (lstrip_slashes (fst m)) in
  if endswith (fst m) "/" then os_makedirs target
  else fun w =>
         if isdir target (disk w) then (w, Raise IsADirectoryError)
         else (set_disk (insert target (File (snd m)) (disk w)) w, Ok tt).

Definition extractall (members : list (string * file)) (dest : string) : M unit :=
  for_each members (extract_member dest).

(** [zipfile.ZipFile(p, "w", ZIP_DEFLATED)]: a fresh, empty archive. *)
Definition zip_create (p : string) : M unit := write_file p (Zip []).

(** [ZipFile.write(src, arcname)] on the archive at [p]: the entry is named
    [arcname] without leading slashes; a directory is stored as an empty
    entry whose name ends in a slash. *)
Definition zip_write (p src arcname : string) : M unit :=
  fun w =>
    let entry :=
      match lookup src (disk w) with
      | Some (File f) => Some (lstrip_slashes arcname, f)
      | Some Dir => Some (lstrip_slashes arcname ++ "/", Data EmptyString)
      | None =>
          if isdir src (disk w)
          then Some (lstrip_slashes arcname ++ "/", Data EmptyString)
          else None
      end in
    match entry, lookup p (disk w) with
    | Some e, Some (File (Zip members)) =>
        (set_disk (insert p (File (Zip (members ++ [e]))) (disk w)) w, Ok tt)
    | _, _ => (w, Raise FileNotFoundError)
    end.

(** [ET.parse(p).getroot()] *)
Definition ET_parse (p : string) : M Element :=
  f <- read_file p ;;
  match f with
  | Data s =>
      match xml_parse s with
      | Some e => ret e
      | None => raise ParseError
      end
  | Zip _ => raise ParseError
  end.

(** [log.write] on the open log file object. *)
Definition log_write (s : string) : M unit :=
  fun w => (set_log (log_buffer w ++ s) w, Ok tt).

(* ===================================================================== *)
(** ** The script *)
(* ===================================================================== *)

Definition kml (local : string) : string :=
  "{http://www.opengis.net/kml/2.2}" ++ local.

Definition coords : Type :=
  (option string * option string * option string * option string)%type.

(** Module level: both folders are wiped and created afresh. *)
Definition setup : M unit :=
  w <- get_world ;;
  out_there <- os_path_exists (OUTPUT_FOLDER w) ;;
  (if out_there then shutil_rmtree (OUTPUT_FOLDER w) else ret tt) ;;
  os_makedirs (OUTPUT_FOLDER w) ;;
  temp_there <- os_path_exists (TEMP_FOLDER w) ;;
  (if temp_there then shutil_rmtree (TEMP_FOLDER w) else ret tt) ;;
  os_makedirs (TEMP_FOLDER w).

Definition extract_zip (zip_path : string) : M unit :=
  w <- get_world ;;
  zip_ref <- zip_open zip_path ;;
  extractall zip_ref (TEMP_FOLDER w).

Definition extract_kmz (kmz_path extract_to : string) : M unit :=
  kmz <- zip_open kmz_path ;;
  extractall kmz extract_to.

(** [e.text] where [e] is the result of a [find]: an [AttributeError] when
    the element was not found. *)
Definition text_attr (e : option Element) : M (option string) :=
  match e with
  | Some x => ret (text_of x)
  | None => raise AttributeError
  end.

Definition parse_kml (kml_path : string)
  : M (option string * option string * option coords) :=
  root <- ET_parse kml_path ;;
  doc_name <- text_attr (find_desc (kml "name") root) ;;
  match find_desc (kml "GroundOverlay") root with
  | None =>
      print (NoGroundOverlay kml_path) ;;
      ret (None, None, None)
  | Some ground_overlay =>
      image_href <- text_attr (find_desc_child (kml "Icon") (kml "href") ground_overlay) ;;
      match image_href with
      | None => raise TypeError
      | Some href =>
          let image_path := path_join (dirname kml_path) href in
          there <- os_path_exists image_path ;;
          if negb there then
            print (MissingImage href doc_name) ;;
            ret (None, None, None)
          else
            match find_desc (kml "LatLonBox") ground_overlay with
            | None => raise AttributeError
            | Some latlonbox =>
                north <- text_attr (find_child (kml "north") latlonbox) ;;
                south <- text_attr (find_child (kml "south") latlonbox) ;;
                east <- text_attr (find_child (kml "east") latlonbox) ;;
                west <- text_attr (find_child (kml "west") latlonbox) ;;
                ret (doc_name, image_href, Some (north, south, east, west))
            end
      end
  end.

Definition q : string := String dquote EmptyString.

(** The f-string of [create_clean_kml], placeholders already rendered. *)
Definition kml_text (doc_name image_href north south east west : string) : string :=
  "<?xml version=" ++ q ++ "1.0" ++ q ++ " encoding=" ++ q ++ "UTF-8" ++ q ++ "?>" ++ nl ++
  "<kml xmlns=" ++ q ++ "http://www.opengis.net/kml/2.2" ++ q ++ ">" ++ nl ++
  "<Document>" ++ nl ++
  "    <name>" ++ doc_name ++ "</name>" ++ nl ++
  "    <open>1</open>" ++ nl ++
  nl ++
  "    <GroundOverlay>" ++ nl ++
  "        <name>Map</name>" ++ nl ++
  "        <drawOrder>100</drawOrder>  <!-- Forces overlay to stay visible on Android -->" ++ nl ++
  "        <Icon>" ++ nl ++
  "            <href>" ++ image_href ++ "</href>" ++ nl ++
  "        </Icon>" ++ nl ++
  "        <LatLonBox>" ++ nl ++
  "            <north>" ++ north ++ "</north>" ++ nl ++
  "            <south>" ++ south ++ "</south>" ++ nl ++
  "            <east>" ++ east ++ "</east>" ++ nl ++
  "            <west>" ++ west ++ "</west>" ++ nl ++
  "        </LatLonBox>" ++ nl ++
  "        <Lod>" ++ nl ++
  "            <minLodPixels>64</minLodPixels>" ++ nl ++
  "            <maxLodPixels>-1</maxLodPixels>" ++ nl ++
  "        </Lod>" ++ nl ++
  "    </GroundOverlay>" ++ nl ++
  nl ++
  "</Document>" ++ nl ++
  "</kml>".

Definition kml_content (doc_name image_href : option string) (c : coords) : string :=
  let '(north, south, east, west) := c in
  kml_text (fmt doc_name) (fmt image_href) (fmt north) (fmt south) (fmt east) (fmt west).

Definition create_clean_kml (output_kml : string)
  (doc_name image_href : option string) (coordinates : option coords) : M unit :=
  match coordinates with
  | None => raise TypeError
  | Some c => write_file output_kml (Data (kml_content doc_name image_href c))
  end.

Definition repackage_kmz (temp_folder output_kmz : string)
  (image_file : option string) : M unit :=
  zip_create output_kmz ;;
  zip_write output_kmz (path_join temp_folder "cleaned.kml") "doc.kml" ;;
  match image_file with
  | None => raise TypeError
  | Some name => zip_write output_kmz (path_join temp_folder name) name
  end.

Definition log_header : string := "Processed KMZ Files:" ++ nl.

Definition log_line (kmz_file output_kmz_path : string) : string :=
  kmz_file ++ " -> " ++ output_kmz_path ++ nl.

(** Step 1 of [process_files], the body of its first loop. *)
Definition step_zip (zip_file : string) : M unit :=
  w <- get_world ;;
  if endswith (lower zip_file) ".zip" then
    let zip_path := path_join (SCRIPT_FOLDER w) zip_file in
    print (ExtractingZip zip_file) ;;
    extract_zip zip_path
  else ret tt.

(** Step 2 of [process_files], the body of its second loop, in two halves.
    First the archive is unpacked into a scratch folder of its own ... *)
Definition unpack_kmz (kmz_file : string) : M string :=
  w <- get_world ;;
  let kmz_path := path_join (TEMP_FOLDER w) kmz_file in
  let kmz_extract_folder := path_join (TEMP_FOLDER w) (replace ".kmz" "" kmz_file) in
  os_makedirs kmz_extract_folder ;;
  print (Processing kmz_file) ;;
  extract_kmz kmz_path kmz_extract_folder ;;
  ret kmz_extract_folder.

(** ... then its document is located, parsed, rewritten and repackaged. *)
Definition convert_kmz (kmz_file kmz_extract_folder : string) : M unit :=
  w <- get_world ;;
  let kml_path := path_join kmz_extract_folder "doc.kml" in
  kml_there <- os_path_exists kml_path ;;
  if negb kml_there then
    print (NoKmlFile kmz_file) ;;
    shutil_rmtree kmz_extract_folder
  else
    parsed <- parse_kml kml_path ;;
    let '(doc_name, image_href, coordinates) := parsed in
    if negb (truthy doc_name) || negb (truthy image_href) then
      print (SkippingMissingData kmz_file) ;;
      shutil_rmtree kmz_extract_folder
    else
      print (Parsed doc_name) ;;
      let cleaned_kml_path := path_join kmz_extract_folder "cleaned.kml" in
      create_clean_kml cleaned_kml_path doc_name image_href coordinates ;;
      let output_kmz_path := path_join (OUTPUT_FOLDER w) kmz_file in
      repackage_kmz kmz_extract_folder output_kmz_path image_href ;;
      print (Processed kmz_file output_kmz_path) ;;
      log_write (log_line kmz_file output_kmz_path) ;;
      shutil_rmtree kmz_extract_folder.

Definition step_kmz (kmz_file : string) : M unit :=
  print (FoundInTemp kmz_file) ;;
  if endswith (lower kmz_file) ".kmz" then
    kmz_extract_folder <- unpack_kmz kmz_file ;;
    convert_kmz kmz_file kmz_extract_folder
  else ret tt.

(** The body of the [with open(log_file, "w") as log] block. *)
Definition with_log_body : M unit :=
  w <- get_world ;;
  log_write log_header ;;
  print (LookingIn (SCRIPT_FOLDER w)) ;;
  zips <- os_listdir (SCRIPT_FOLDER w) ;;
  for_each zips step_zip ;;
  print (CheckingIn (TEMP_FOLDER w)) ;;
  kmzs <- os_listdir (TEMP_FOLDER w) ;;
  for_each kmzs step_kmz.

(** The clean-up after the block: everything below the scratch folder is
    deleted bottom-up, then the folder itself; failures would only be
    reported, and none occurs on the modelled disk. *)
Definition cleanup : M unit :=
  w <- get_world ;;
  temp_there <- os_path_exists (TEMP_FOLDER w) ;;
  if temp_there then
    (fun w' =>
       if isdir (TEMP_FOLDER w) (disk w') then
         (set_disk (insert (TEMP_FOLDER w) Dir
                      (filter (fun kv => negb (below (TEMP_FOLDER w) (fst kv)))
                              (disk w'))) w', Ok tt)
       else (w', Ok tt)) ;;
    (fun w' =>
       match shutil_rmtree (TEMP_FOLDER w) w' with
       | (w'', Ok _) => print CleanedUp w''
       | (w'', Raise _) => (w'', Ok tt)
       end)
  else ret tt.

Definition log_path (w : world) : string :=
  path_join (OUTPUT_FOLDER w) "processed_kmz_log.txt".

(** Leaving the [with] block, normally or through an exception, closes the
    log file: what was written through it is then on the disk. *)
Definition close_log (w : world) : world :=
  set_disk (insert (log_path w) (File (Data (log_buffer w))) (disk w)) w.

Definition process_files : M unit :=
  fun w =>
    match write_file (log_path w) (Data EmptyString) (set_log EmptyString w) with
    | (w0, Raise e) => (w0, Raise e)
    | (w0, Ok _) =>
        match with_log_body w0 with
        | (w1, Raise e) => (close_log w1, Raise e)
        | (w1, Ok _) => cleanup (close_log w1)
        end
    end.

(** Running the script: the module-level statements, then [process_files]. *)
Definition main : M unit := setup ;; process_files.

(** The world of a fresh process started in [folder] on disk [d]. *)
Definition fresh (folder : string) (d : store) : world :=
  {| SCRIPT_FOLDER := folder; disk := d; console := []; log_buffer := EmptyString |}.

Definition run (folder : string) (d : store) : world * result unit :=
  main (fresh folder d).

(* ===================================================================== *)
(** ** The shape of a synthesized document *)
(* ===================================================================== *)

(** The literal stretches of the template between its six placeholders; each
    of the later ones starts right after the [<] that ends a placeholder. *)
Definition seg_head : string :=
  "<?xml version=" ++ q ++ "1.0" ++ q ++ " encoding=" ++ q ++ "UTF-8" ++ q ++ "?>" ++ nl ++
  "<kml xmlns=" ++ q ++ "http://www.opengis.net/kml/2.2" ++ q ++ ">" ++ nl ++
  "<Document>" ++ nl ++
  "    <name>".

Definition seg_name_href : string :=
  "/name>" ++ nl ++
  "    <open>1</open>" ++ nl ++
  nl ++
  "    <GroundOverlay>" ++ nl ++
  "        <name>Map</name>" ++ nl ++
  "        <drawOrder>100</drawOrder>  <!-- Forces overlay to stay visible on Android -->" ++ nl ++
  "        <Icon>" ++ nl ++
  "            <href>".

Definition seg_href_north : string :=
  "/href>" ++ nl ++
  "        </Icon>" ++ nl ++
  "        <LatLonBox>" ++ nl ++
  "            <north>".

Definition seg_north_south : string := "/north>" ++ nl ++ "            <south>".
Definition seg_south_east : string := "/south>" ++ nl ++ "            <east>".
Definition seg_east_west : string := "/east>" ++ nl ++ "            <west>".

Definition seg_tail : string :=
  "/west>" ++ nl ++
  "        </LatLonBox>" ++ nl ++
  "        <Lod>" ++ nl ++
  "            <minLodPixels>64</minLodPixels>" ++ nl ++
  "            <maxLodPixels>-1</maxLodPixels>" ++ nl ++
  "        </Lod>" ++ nl ++
  "    </GroundOverlay>" ++ nl ++
  nl ++
  "</Document>" ++ nl ++
  "</kml>".

Definition lt (rest : string) : string := String "<"%char rest.

(** What the scanner makes of each stretch. *)
Definition toks_head : list token :=
  Eval vm_compute in removelast (lex (MText EmptyString 0 false) seg_head).
Definition toks_name_href : list token :=
  Eval vm_compute in removelast (lex MLt seg_name_href).
Definition toks_href_north : list token :=
  Eval vm_compute in removelast (lex MLt seg_href_north).
Definition toks_north_south : list token :=
  Eval vm_compute in removelast (lex MLt seg_north_south).
Definition toks_south_east : list token :=
  Eval vm_compute in removelast (lex MLt seg_south_east).
Definition toks_east_west : list token :=
  Eval vm_compute in removelast (lex MLt seg_east_west).
Definition toks_tail : list token :=
  Eval vm_compute in lex MLt seg_tail.

(** The tokens of a synthesized document whose placeholders scanned as the
    given six text tokens. *)
Definition kml_tokens (a b c d e f : token) : list token :=
  toks_head ++ a :: toks_name_href ++ b :: toks_href_north ++ c ::
  toks_north_south ++ d :: toks_south_east ++ e :: toks_east_west ++ f :: toks_tail.

Definition txt (s : string) : option string :=
  if is_empty s then None else Some s.

Definition leaf (name s : string) : Element := Elem (kml name) (txt s) [].

(** The element tree of a synthesized document, given the character data of
    its six placeholders. *)
Definition latlonbox_tree (north south east west : string) : Element :=
  Elem (kml "LatLonBox") (Some (nl ++ "            "))
    [leaf "north" north; leaf "south" south; leaf "east" east; leaf "west" west].

Definition overlay_tree (image_href north south east west : string) : Element :=
  Elem (kml "GroundOverlay") (Some (nl ++ "        "))
    [leaf "name" "Map";
     leaf "drawOrder" "100";
     Elem (kml "Icon") (Some (nl ++ "            ")) [leaf "href" image_href];
     latlonbox_tree north south east west;
     Elem (kml "Lod") (Some (nl ++ "            "))
       [leaf "minLodPixels" "64"; leaf "maxLodPixels" "-1"]].

Definition kml_tree (doc_name image_href north south east west : string) : Element :=
  Elem (kml "kml") (Some nl)
    [Elem (kml "Document") (Some (nl ++ "    "))
       [leaf "name" doc_name;
        leaf "open" "1";
        overlay_tree image_href north south east west]].

(** *** Text that survives being written into the template *)

Definition not_lt (c : ascii) : bool := negb (Ascii.eqb c "<"%char).

(** No [<] anywhere: the text cannot open or close a tag. *)
Definition markup_free (s : string) : bool := all_chars not_lt s.

(** Characters that are character data as they stand: no [<], no [&], no
    carriage return (the reader turns it into a line feed), none of the
    forbidden control characters. *)
Definition plain_char (c : ascii) : bool :=
  not_lt c && negb (Ascii.eqb c "&"%char) && negb (is_forbidden c)
  && negb (code c =? 13)%nat.

(** The text does not contain ]]> ; [br] counts the closing brackets right
    before it. *)
Fixpoint cdata_end_free (br : nat) (s : string) : bool :=
  match s with
  | EmptyString => true
  | String c s' =>
      if Ascii.eqb c "]"%char then cdata_end_free (S br) s'
      else if Ascii.eqb c ">"%char then (br <? 2)%nat && cdata_end_free 0 s'
      else cdata_end_free 0 s'
  end.

(** Text that is character data as it stands. *)
Definition plain_text (s : string) : bool :=
  all_chars plain_char s && cdata_end_free 0 s.

(** Non-empty text that the reader hands back exactly as written. *)
Definition verbatim (s : string) : bool :=
  negb (is_empty s) && plain_text s.

(* ===================================================================== *)
(** ** Sample inputs *)
(* ===================================================================== *)

(** An overlay document as the script expects it, the overlay archive that
    carries it with its image, and a disk folder to run the script in. *)
Definition sample_kml : string :=
  kml_text "Topo A" "overlay.png" "45.0" "44.0" "-120.0" "-121.0".

Definition sample_kmz : file :=
  Zip [("doc.kml", Data sample_kml); ("overlay.png", Data "PNG image bytes")].

Definition sample_coords : coords :=
  (Some "45.0", Some "44.0", Some "-120.0", Some "-121.0").

(** A world with one existing folder and nothing in it. *)
Definition folder_world (folder : string) : world :=
  fresh "/work" [(folder, Dir)].

(** A world whose folder [/t] holds the overlay image. *)
Definition image_world : world :=
  fresh "/work" [("/t", Dir); ("/t/overlay.png", File (Data "PNG image bytes"))].

(** A disk with the script and the given files next to it in [/work]. *)
Definition work_disk (files : list (string * file)) : store :=
  ("/work/kmz-cleaner.py", File (Data "import os")) ::
  map (fun nf => (path_join "/work" (fst nf), File (snd nf))) files.

Definition kml_open : string :=
  "<kml xmlns=" ++ q ++ "http://www.opengis.net/kml/2.2" ++ q ++ "><Document>".

Definition kml_close : string := "</Document></kml>".

Definition box_xml : string :=
  "<LatLonBox><north>45.0</north><south>44.0</south>" ++
  "<east>-120.0</east><west>-121.0</west></LatLonBox>".

(** Well-formed overlay documents that lack, in turn, the document name, the
    image reference and one bounding coordinate. *)
Definition no_name_kml : string :=
  kml_open ++ "<GroundOverlay><Icon><href>overlay.png</href></Icon>" ++
  box_xml ++ "</GroundOverlay>" ++ kml_close.

Definition no_href_kml : string :=
  kml_open ++ "<name>Topo A</name><GroundOverlay><Icon></Icon>" ++
  box_xml ++ "</GroundOverlay>" ++ kml_close.

Definition no_north_kml : string :=
  kml_open ++ "<name>Topo A</name><GroundOverlay><Icon><href>overlay.png</href></Icon>" ++
  "<LatLonBox><south>44.0</south><east>-120.0</east><west>-121.0</west></LatLonBox>" ++
  "</GroundOverlay>" ++ kml_close.

Definition kmz_of (doc : string) : file :=
  Zip [("doc.kml", Data doc); ("overlay.png", Data "PNG image bytes")].

(** An archive whose document is cut off in the middle. *)
Definition broken_kmz : file := kmz_of (kml_open ++ "<name>Topo A</name>").

(** An archive whose document names an image that is not in it. *)
Definition imageless_kmz : file := Zip [("doc.kml", Data sample_kml)].

(** The same, with a document that has no name element either. *)
Definition nameless_imageless_kmz : file := Zip [("doc.kml", Data no_name_kml)].

(** An archive whose overlay image goes by the name the script uses for its
    own scratch document. *)
Definition clash_kml : string :=
  kml_text "Topo A" "cleaned.kml" "45.0" "44.0" "-120.0" "-121.0".

Definition clash_kmz : file :=
  Zip [("doc.kml", Data clash_kml); ("cleaned.kml", Data "PNG image bytes")].

(** A world whose folder [/t] holds the given document and its image. *)
Definition doc_world (doc : string) : world :=
  fresh "/work"
    [("/t", Dir);
     ("/t/overlay.png", File (Data "PNG image bytes"));
     ("/t/doc.kml", File (Data doc))].

(** The working folder with one bundle of overlay archives in it. *)
Definition bundle_disk (archives : list (string * file)) : store :=
  work_disk [("bundle.zip", Zip archives)].

(** A well-formed document without ground overlay, and one whose name
    element is empty, with the trees the reader makes of them. *)
Definition no_overlay_kml : string := kml_open ++ "<name>Topo A</name>" ++ kml_close.

Definition no_overlay_tree : Element :=
  Elem (kml "kml") None [Elem (kml "Document") None [leaf "name" "Topo A"]].

Definition empty_name_kml : string :=
  kml_open ++ "<name></name><GroundOverlay><Icon><href>overlay.png</href></Icon>" ++
  box_xml ++ "</GroundOverlay>" ++ kml_close.

Definition box_tree : Element :=
  Elem (kml "LatLonBox") None
    [leaf "north" "45.0"; leaf "south" "44.0"; leaf "east" "-120.0"; leaf "west" "-121.0"].

Definition plain_overlay_tree : Element :=
  Elem (kml "GroundOverlay") None
    [Elem (kml "Icon") None [leaf "href" "overlay.png"]; box_tree].

Definition empty_name_tree : Element :=
  Elem (kml "kml") None
    [Elem (kml "Document") None [Elem (kml "name") None []; plain_overlay_tree]].

(** An archive without any document in it. *)
Definition undocumented_kmz : file := Zip [("overlay.png", Data "PNG image bytes")].

(** The working folder with a bundle in it and with what an earlier run
    left behind. *)
Definition used_disk : store :=
  (bundle_disk [("a.kmz", sample_kmz)] ++
   [("/work/processed_kmz", Dir);
    ("/work/processed_kmz/old.kmz", File (Zip []));
    ("/work/temp_extract/old/doc.kml", File (Data "old"))])%list.

(* ===================================================================== *)
(** ** Vocabulary for the properties of the driver *)
(* ===================================================================== *)

(** What [path_join] puts in front of a relative name. *)
Definition dir_prefix (a : string) : string :=
  match last_char a with
  | None => EmptyString
  | Some c => if is_slash c then a else a ++ "/"
  end.

(** A plain file name, as [os.listdir] returns them: no slash in it. *)
Definition not_slash (c : ascii) : bool := negb (is_slash c).

Definition file_name (s : string) : bool := all_chars not_slash s.

(** The log lines that go with the conversions announced on the console. *)
Fixpoint logged (ms : list msg) : string :=
  match ms with
  | [] => EmptyString
  | Processed kmz_file output_kmz_path :: rest =>
      log_line kmz_file output_kmz_path ++ logged rest
  | _ :: rest => logged rest
  end.

Definition announces_conversion (m : msg) : bool :=
  match m with
  | Processed _ _ => true
  | _ => false
  end.

(** [quiet w w']: from [w] to [w'] nothing was logged and no conversion
    was announced. *)
Definition quiet (w w' : world) : Prop :=
  SCRIPT_FOLDER w' = SCRIPT_FOLDER w /\
  log_buffer w' = log_buffer w /\
  logged (console w') = logged (console w).

(** [in_step w w']: from [w] to [w'] the log grew by exactly the lines of
    the conversions announced. *)
Definition in_step (w w' : world) : Prop :=
  SCRIPT_FOLDER w' = SCRIPT_FOLDER w /\
  exists extra : string,
    log_buffer w' = log_buffer w ++ extra /\
    logged (console w') = logged (console w) ++ extra.

(** Every outcome of the computation, normal or exceptional, is related to
    the world it started in. *)
Definition respects (R : world -> world -> Prop) {A : Type} (c : M A) : Prop :=
  forall (w w' : world) (r : result A), c w = (w', r) -> R w w'.

(** The computation changes the disk below [area] only. *)
Definition confined (area : string) {A : Type} (c : M A) : Prop :=
  forall (w w' : world) (r : result A),
    c w = (w', r) ->
    forall p : string, startswith area p = false ->
      lookup p (disk w') = lookup p (disk w).

(** The world in the middle of a run: both folders are there and the
    given archives have been taken out of their bundle. *)
Definition scratch_world (archives : list (string * file)) : world :=
  fresh "/work"
    (("/work/processed_kmz", Dir) :: ("/work/temp_extract", Dir) ::
     map (fun nf => (path_join "/work/temp_extract" (fst nf), File (snd nf))) archives).

(** The moves a part of the script makes on the disk: a regular file is
    written at a path that [files] allows, a folder is made at a path that
    [dirs] allows, or entries are deleted, all of them at paths that [dirs]
    allows. *)
Inductive disk_move (files dirs : string -> bool) : store -> store -> Prop :=
| move_file (k : string) (f : file) (d : store) :
    files k = true -> disk_move files dirs d (insert k (File f) d)
| move_dir (k : string) (d : store) :
    dirs k = true -> disk_move files dirs d (insert k Dir d)
| move_delete (g : string -> bool) (d : store) :
    (forall p, g p = false -> dirs p = true) ->
    disk_move files dirs d (filter (fun kv => g (fst kv)) d).

Inductive disk_moves (files dirs : string -> bool) : store -> store -> Prop :=
| moves_done (d : store) : disk_moves files dirs d d
| moves_more (d1 d2 d3 : store) :
    disk_moves files dirs d1 d2 -> disk_move files dirs d2 d3 ->
    disk_moves files dirs d1 d3.

(** Where [process_files] writes regular files: strictly below the scratch
    folder or strictly below the output folder. *)
Definition file_area (home : world) (k : string) : bool :=
  below (TEMP_FOLDER home) k || below (OUTPUT_FOLDER home) k.

(** Where [process_files] makes and deletes folders: in the scratch folder. *)
Definition scratch_area (home : world) (k : string) : bool :=
  within (TEMP_FOLDER home) k.

(** [moving files dirs home w w']: from [w] to [w'] the script, living
    where it lives in [home], has stayed where it is and has made only
    moves that [files] and [dirs] allow. *)
Definition moving (files dirs : string -> bool) (home w w' : world) : Prop :=
  SCRIPT_FOLDER w = SCRIPT_FOLDER home ->
  SCRIPT_FOLDER w' = SCRIPT_FOLDER home /\
  disk_moves files dirs (disk w) (disk w').

(** The module-level statements write no regular file; they delete and make
    folders in the output folder and in the scratch folder. *)
Definition no_files (k : string) : bool := false.

Definition wipe_area (home : world) (k : string) : bool :=
  within (OUTPUT_FOLDER home) k || within (TEMP_FOLDER home) k.

(** The part of the disk that is neither in the output folder nor in the
    scratch folder. *)
Definition elsewhere (w : world) (k : string) : bool :=
  negb (within (OUTPUT_FOLDER w) k) && negb (within (TEMP_FOLDER w) k).

Definition on (g : string -> bool) (kv : string * node) : bool := g (fst kv).

(** What the module-level statements make of a disk on which neither folder
    is a regular file: both folders empty, and the rest as it was. *)
Definition set_up (w : world) (d : store) : store :=
  (filter (on (elsewhere w)) d ++ [(OUTPUT_FOLDER w, Dir); (TEMP_FOLDER w, Dir)])%list.

(** An output archive as [repackage_kmz] leaves it: exactly two entries, the
    first of them a document named [doc.kml]. *)
Definition packed (v : option node) : bool :=
  match v with
  | Some (File (Zip [(name, Data _); _])) => String.eqb name "doc.kml"
  | _ => false
  end.

(** [announcing ok w w']: from [w] to [w'] the script has stayed where it is
    and every conversion it has announced on the console satisfies [ok]. *)
Definition announcing (ok : string -> string -> Prop) (w w' : world) : Prop :=
  SCRIPT_FOLDER w' = SCRIPT_FOLDER w /\
  exists ms : list msg,
    console w' = (console w ++ ms)%list /\
    forall k p, In (Processed k p) ms -> ok k p.

(** No conversion is announced at all. *)
Definition silent : world -> world -> Prop := announcing (fun _ _ => False).

(** A plain name: one path component (no slash and no NUL character in
    it), not empty and neither of the two names, [.] and [..], that every
    folder answers to.  These are the names [os.listdir] returns and the
    names of the files at the top level of an archive; for them joining as
    strings and resolving on the file system give the same path. *)
Definition not_nul (c : ascii) : bool := negb (code c =? 0)%nat.

Definition plain_name (n : string) : bool :=
  file_name n && all_chars not_nul n && negb (is_empty n) &&
  negb (String.eqb n ".") && negb (String.eqb n "..").

(** The members of an archive are plain files at its top level. *)
Definition plain_members (members : list (string * file)) : bool :=
  forallb (fun m => plain_name (fst m)) members.

(** The extraction folder of [kmz_file], named
    [kmz_file.replace(".kmz", "")], has a plain name: it is a folder of its
    own inside [temp_extract], not [temp_extract] itself (as for [.kmz] and
    [..kmz]) nor the working folder (as for [...kmz]). *)
Definition proper_stem (kmz_file : string) : bool :=
  plain_name (replace ".kmz" "" kmz_file).

(** [kmz_file] in [temp_extract] is a zip archive of plain files. *)
Definition plain_archive (kmz_file : string) (w : world) : bool :=
  match lookup (path_join (TEMP_FOLDER w) kmz_file) (disk w) with
  | Some (File (Zip members)) => plain_members members
  | _ => false
  end.

(** The members of a bundle are plain files, each with an extraction folder
    of its own, and those that are archives hold plain files. *)
Definition plain_bundle (members : list (string * file)) : bool :=
  forallb (fun m =>
             plain_name (fst m) && proper_stem (fst m) &&
             match snd m with
             | Zip inner => plain_members inner
             | Data _ => true
             end) members.

(** Every bundle in [folder], that is every zip archive there whose name
    ends in [.zip], is such a bundle. *)
Definition plain_bundles (folder : string) (d : store) : bool :=
  forallb (fun z =>
             negb (endswith (lower z) ".zip") ||
             match lookup (path_join folder z) d with
             | Some (File (Zip members)) => plain_bundle members
             | _ => true
             end) (children folder d).

(* ===================================================================== *)
(** ** Facts about strings and paths *)
(* ===================================================================== *)

Lemma append_assoc (a b c : string) : (a ++ b) ++ c = a ++ (b ++ c).
Proof. induction a as [|x a IH]; simpl; [reflexivity | now rewrite IH]. Qed.

Lemma append_empty_r (a : string) : a ++ "" = a.
Proof. induction a as [|x a IH]; simpl; [reflexivity | now rewrite IH]. Qed.

Lemma snoc_append (a : string) (c : ascii) (s : string) :
  snoc a c ++ s = a ++ String c s.
Proof. unfold snoc. now rewrite append_assoc. Qed.

Lemma startswith_refl_app (a b : string) : startswith a (a ++ b) = true.
Proof.
  induction a as [|x a IH]; simpl; [reflexivity|].
  now rewrite Ascii.eqb_refl, IH.
Qed.

Lemma startswith_app_cancel (a b c : string) :
  startswith (a ++ b) (a ++ c) = startswith b c.
Proof.
  induction a as [|x a IH]; simpl; [reflexivity|].
  now rewrite Ascii.eqb_refl, IH.
Qed.

Lemma startswith_split (p s : string) :
  startswith p s = true -> exists r, s = p ++ r.
Proof.
  revert s. induction p as [|x p IH]; intros s H.
  - now exists s.
  - destruct s as [|y s]; [discriminate|].
    simpl in H. apply andb_true_iff in H as [Hxy Hp].
    apply Ascii.eqb_eq in Hxy. subst y.
    destruct (IH s Hp) as [r ->]. now exists r.
Qed.

Lemma startswith_app_l (a b s : string) :
  startswith (a ++ b) s = true -> startswith a s = true.
Proof.
  intros H. apply startswith_split in H as [r ->].
  rewrite append_assoc. apply startswith_refl_app.
Qed.

Lemma startswith_trans (a b s : string) :
  startswith a b = true -> startswith b s = true -> startswith a s = true.
Proof.
  intros Hab Hbs.
  apply startswith_split in Hab as [r ->].
  now apply startswith_app_l in Hbs.
Qed.

Lemma eqb_app_cancel (a b c : string) :
  String.eqb (a ++ b) (a ++ c) = String.eqb b c.
Proof.
  induction a as [|x a IH]; simpl; [reflexivity|].
  now rewrite Ascii.eqb_refl.
Qed.

Lemma last_char_app_cons (a : string) (c : ascii) (b : string) :
  last_char (a ++ String c b) = last_char (String c b).
Proof.
  induction a as [|x a IH]; [reflexivity|].
  change (String x a ++ String c b) with (String x (a ++ String c b)).
  cbn [last_char]. rewrite IH.
  destruct (a ++ String c b) eqn:E; [|reflexivity].
  destruct a; discriminate.
Qed.

Lemma path_join_relative (a n : string) :
  startswith "/" n = false -> path_join a n = dir_prefix a ++ n.
Proof.
  intros Hn. unfold path_join, dir_prefix. rewrite Hn.
  destruct (last_char a) as [c|]; [|reflexivity].
  destruct (is_slash c); [reflexivity|]. now rewrite append_assoc.
Qed.

Lemma rstrip_slashes_app (a b : string) :
  rstrip_slashes (a ++ b) =
  match rstrip_slashes b with
  | EmptyString => rstrip_slashes a
  | r => a ++ r
  end.
Proof.
  induction a as [|x a IH].
  - simpl. now destruct (rstrip_slashes b).
  - change (String x a ++ b) with (String x (a ++ b)).
    cbn [rstrip_slashes]. rewrite IH.
    destruct (rstrip_slashes b) as [|y r] eqn:E; [reflexivity|].
    simpl. now destruct (a ++ String y r) eqn:E'; [destruct a; discriminate|].
Qed.

Lemma rstrip_slashes_idem (s : string) :
  rstrip_slashes (rstrip_slashes s) = rstrip_slashes s.
Proof.
  induction s as [|c s IH]; [reflexivity|].
  cbn [rstrip_slashes].
  destruct (rstrip_slashes s) as [|y r] eqn:E.
  - destruct (is_slash c) eqn:Ec; [reflexivity|]. simpl. now rewrite Ec.
  - cbn [rstrip_slashes]. cbn [rstrip_slashes] in IH. rewrite IH. reflexivity.
Qed.

(* ===================================================================== *)
(** ** Facts about the XML reader on synthesized documents *)
(* ===================================================================== *)

Lemma kml_text_segments (a b c d e f : string) :
  kml_text a b c d e f =
  seg_head ++ a ++ lt (seg_name_href ++ b ++ lt (seg_href_north ++ c ++
    lt (seg_north_south ++ d ++ lt (seg_south_east ++ e ++
      lt (seg_east_west ++ f ++ lt seg_tail))))).
Proof. reflexivity. Qed.

Lemma lex_head (X : string) :
  lex (MText "" 0 false) (seg_head ++ X) = (toks_head ++ lex (MText "" 0 false) X)%list.
Proof. reflexivity. Qed.

Lemma lex_name_href (X : string) :
  lex MLt (seg_name_href ++ X) = (toks_name_href ++ lex (MText "" 0 false) X)%list.
Proof. reflexivity. Qed.

Lemma lex_href_north (X : string) :
  lex MLt (seg_href_north ++ X) = (toks_href_north ++ lex (MText "" 0 false) X)%list.
Proof. reflexivity. Qed.

Lemma lex_north_south (X : string) :
  lex MLt (seg_north_south ++ X) = (toks_north_south ++ lex (MText "" 0 false) X)%list.
Proof. reflexivity. Qed.

Lemma lex_south_east (X : string) :
  lex MLt (seg_south_east ++ X) = (toks_south_east ++ lex (MText "" 0 false) X)%list.
Proof. reflexivity. Qed.

Lemma lex_east_west (X : string) :
  lex MLt (seg_east_west ++ X) = (toks_east_west ++ lex (MText "" 0 false) X)%list.
Proof. reflexivity. Qed.

Lemma lex_tail : lex MLt seg_tail = toks_tail.
Proof. reflexivity. Qed.

(** Whatever character data the six placeholders hold, the tokens of the
    template build the same tree around them. *)
Lemma build_kml_tokens (a b c d e f : string) (ba bb bc bd be bf : bool) :
  let toks := kml_tokens (TText a ba) (TText b bb) (TText c bc)
                         (TText d bd) (TText e be) (TText f bf) in
  (if decl_ok toks then build toks else None) = Some (kml_tree a b c d e f).
Proof. reflexivity. Qed.

Lemma plain_char_inv (c : ascii) :
  plain_char c = true ->
  Ascii.eqb c "<"%char = false /\ Ascii.eqb c "&"%char = false /\
  is_forbidden c = false /\ (code c =? 13)%nat = false.
Proof.
  unfold plain_char, not_lt. intros H.
  repeat (apply andb_true_iff in H as [H ?]).
  repeat split; now apply negb_true_iff.
Qed.

(** Plain character data is scanned as one run, unchanged. *)
Lemma lex_field_plain : forall (s acc : string) (br : nat) (rest : string),
  all_chars plain_char s = true ->
  cdata_end_free br s = true ->
  lex (MText acc br false) (s ++ lt rest) = text_token (acc ++ s) :: lex MLt rest.
Proof.
  induction s as [|c s IH]; intros acc br rest Hp Hc.
  - simpl. now rewrite append_empty_r.
  - simpl in Hp. apply andb_true_iff in Hp as [Hch Hp].
    destruct (plain_char_inv c Hch) as (Hlt & _ & Hforb & Hcr).
    cbn [append lex cdata_end_free] in *.
    rewrite Hlt, Hforb.
    destruct (Ascii.eqb c "]"%char).
    + rewrite IH by assumption. now rewrite snoc_append.
    + destruct (Ascii.eqb c ">"%char).
      * apply andb_true_iff in Hc as [Hbr Hc].
        apply Nat.ltb_lt in Hbr.
        replace (2 <=? br)%nat with false by (symmetry; apply Nat.leb_gt; lia).
        rewrite IH by assumption. now rewrite snoc_append.
      * rewrite Hcr, andb_false_r.
        rewrite IH by assumption. now rewrite snoc_append.
Qed.

Lemma decode_plain : forall s : string,
  all_chars plain_char s = true -> decode_refs None s = Some s.
Proof.
  induction s as [|c s IH]; intros Hp; [reflexivity|].
  simpl in Hp. apply andb_true_iff in Hp as [Hch Hp].
  destruct (plain_char_inv c Hch) as (_ & Hamp & _).
  cbn [decode_refs]. rewrite Hamp, (IH Hp). reflexivity.
Qed.

Lemma text_token_plain (s : string) :
  all_chars plain_char s = true ->
  text_token s = TText s (all_chars is_space s).
Proof. intros Hp. unfold text_token. now rewrite decode_plain. Qed.

Lemma text_token_cases (raw : string) :
  text_token raw = TBad \/ exists d b, text_token raw = TText d b.
Proof.
  unfold text_token. destruct (decode_refs None raw); [right | left]; eauto.
Qed.

(** Text without [<] is scanned as one run of character data, whatever it
    holds otherwise, or makes the document ill-formed. *)
Lemma lex_field_markup_free : forall (s acc : string) (br : nat) (cr : bool) (rest : string),
  markup_free s = true ->
  (exists d b, lex (MText acc br cr) (s ++ lt rest) = TText d b :: lex MLt rest)
  \/ (exists post, lex (MText acc br cr) (s ++ lt rest) = TBad :: post).
Proof.
  induction s as [|c s IH]; intros acc br cr rest Hm.
  - simpl. destruct (text_token_cases acc) as [-> | (d & b & ->)]; eauto.
  - simpl in Hm. apply andb_true_iff in Hm as [Hc Hm].
    apply negb_true_iff in Hc.
    cbn [append lex]. rewrite Hc.
    destruct (is_forbidden c); [right; eauto|].
    destruct (Ascii.eqb c "]"%char); [now apply IH|].
    destruct (Ascii.eqb c ">"%char).
    { destruct (2 <=? br)%nat; [right; eauto | now apply IH]. }
    destruct (code c =? 13)%nat; [now apply IH|].
    destruct ((code c =? 10)%nat && cr); now apply IH.
Qed.

Lemma build_all_bad : forall (toks : list token) (st : list frame * option Element),
  In TBad toks -> build_all toks st = None.
Proof.
  induction toks as [|t toks IH]; intros st Hin; [contradiction|].
  destruct Hin as [-> | Hin].
  - simpl. now destruct st.
  - simpl. destruct (build_step t st); [now apply IH | reflexivity].
Qed.

Lemma parse_bad (s : string) :
  In TBad (lex (MText "" 0 false) s) -> xml_parse s = None.
Proof.
  intros Hin. unfold xml_parse, build.
  rewrite (build_all_bad _ _ Hin). now destruct (decl_ok _).
Qed.

Ltac spot_bad :=
  repeat (apply in_or_app; right; first [ now left | right ]); now left.

(** A synthesized document whose placeholders hold no [<] either is not
    well-formed or has exactly the template's tree. *)
Lemma parse_markup_free (a b c d e f : string) :
  markup_free a = true -> markup_free b = true -> markup_free c = true ->
  markup_free d = true -> markup_free e = true -> markup_free f = true ->
  xml_parse (kml_text a b c d e f) = None \/
  exists a' b' c' d' e' f',
    xml_parse (kml_text a b c d e f) = Some (kml_tree a' b' c' d' e' f').
Proof.
  intros Ha Hb Hc Hd He Hf.
  pose proof (kml_text_segments a b c d e f) as Hseg.
  assert (Hlex :
    In TBad (lex (MText "" 0 false) (kml_text a b c d e f)) \/
    exists a' b' c' d' e' f' ba bb bc bd be bf,
      lex (MText "" 0 false) (kml_text a b c d e f) =
      kml_tokens (TText a' ba) (TText b' bb) (TText c' bc)
                 (TText d' bd) (TText e' be) (TText f' bf)).
  { rewrite Hseg, lex_head.
    destruct (lex_field_markup_free a "" 0 false
                (seg_name_href ++ b ++ lt (seg_href_north ++ c ++
                   lt (seg_north_south ++ d ++ lt (seg_south_east ++ e ++
                     lt (seg_east_west ++ f ++ lt seg_tail))))) Ha)
      as [(a' & ba & ->) | (post & ->)]; [|left; spot_bad].
    rewrite lex_name_href.
    destruct (lex_field_markup_free b "" 0 false
                (seg_href_north ++ c ++
                   lt (seg_north_south ++ d ++ lt (seg_south_east ++ e ++
                     lt (seg_east_west ++ f ++ lt seg_tail)))) Hb)
      as [(b' & bb & ->) | (post & ->)]; [|left; spot_bad].
    rewrite lex_href_north.
    destruct (lex_field_markup_free c "" 0 false
                (seg_north_south ++ d ++ lt (seg_south_east ++ e ++
                     lt (seg_east_west ++ f ++ lt seg_tail))) Hc)
      as [(c' & bc & ->) | (post & ->)]; [|left; spot_bad].
    rewrite lex_north_south.
    destruct (lex_field_markup_free d "" 0 false
                (seg_south_east ++ e ++ lt (seg_east_west ++ f ++ lt seg_tail)) Hd)
      as [(d' & bd & ->) | (post & ->)]; [|left; spot_bad].
    rewrite lex_south_east.
    destruct (lex_field_markup_free e "" 0 false
                (seg_east_west ++ f ++ lt seg_tail) He)
      as [(e' & be & ->) | (post & ->)]; [|left; spot_bad].
    rewrite lex_east_west.
    destruct (lex_field_markup_free f "" 0 false seg_tail Hf)
      as [(f' & bf & ->) | (post & ->)]; [|left; spot_bad].
    rewrite lex_tail. right. now exists a', b', c', d', e', f', ba, bb, bc, bd, be, bf. }
  destruct Hlex as [Hbad | (a' & b' & c' & d' & e' & f' & ba & bb & bc & bd & be & bf & Hlex)].
  - left. now apply parse_bad.
  - right. exists a', b', c', d', e', f'.
    unfold xml_parse. rewrite Hlex. apply build_kml_tokens.
Qed.

(** A synthesized document whose placeholders hold plain character data
    parses to the template's tree with that very data in it. *)
Lemma parse_plain (a b c d e f : string) :
  all_chars plain_char a = true -> cdata_end_free 0 a = true ->
  all_chars plain_char b = true -> cdata_end_free 0 b = true ->
  all_chars plain_char c = true -> cdata_end_free 0 c = true ->
  all_chars plain_char d = true -> cdata_end_free 0 d = true ->
  all_chars plain_char e = true -> cdata_end_free 0 e = true ->
  all_chars plain_char f = true -> cdata_end_free 0 f = true ->
  xml_parse (kml_text a b c d e f) = Some (kml_tree a b c d e f).
Proof.
  intros Ha Ha' Hb Hb' Hc Hc' Hd Hd' He He' Hf Hf'.
  unfold xml_parse.
  rewrite kml_text_segments, lex_head.
  rewrite (lex_field_plain a "" 0 _ Ha Ha'), lex_name_href.
  rewrite (lex_field_plain b "" 0 _ Hb Hb'), lex_href_north.
  rewrite (lex_field_plain c "" 0 _ Hc Hc'), lex_north_south.
  rewrite (lex_field_plain d "" 0 _ Hd Hd'), lex_south_east.
  rewrite (lex_field_plain e "" 0 _ He He'), lex_east_west.
  rewrite (lex_field_plain f "" 0 _ Hf Hf'), lex_tail.
  cbn [append].
  rewrite !text_token_plain by assumption.
  apply build_kml_tokens.
Qed.

(* ===================================================================== *)
(** ** Facts about the disk *)
(* ===================================================================== *)

Lemma lookup_insert (p : string) (v : node) (d : store) :
  lookup p (insert p v d) = Some v.
Proof.
  induction d as [|[k x] d IH]; simpl.
  - now rewrite String.eqb_refl.
  - destruct (String.eqb k p) eqn:E; simpl; rewrite E; [reflexivity | exact IH].
Qed.

Lemma lookup_insert_ne (p p' : string) (v : node) (d : store) :
  p <> p' -> lookup p' (insert p v d) = lookup p' d.
Proof.
  intros Hne. induction d as [|[k x] d IH]; simpl.
  - destruct (String.eqb p p') eqn:E; [|reflexivity].
    apply String.eqb_eq in E. contradiction.
  - destruct (String.eqb k p) eqn:E; simpl.
    + apply String.eqb_eq in E. subst k.
      destruct (String.eqb p p') eqn:E'; [|reflexivity].
      apply String.eqb_eq in E'. contradiction.
    + destruct (String.eqb k p'); [reflexivity | exact IH].
Qed.

(** What a successful [write_file] leaves behind. *)
Lemma write_file_ok (p : string) (f : file) (w w' : world) :
  write_file p f w = (w', Ok tt) ->
  w' = set_disk (insert p (File f) (disk w)) w.
Proof.
  unfold write_file. intros H.
  destruct (isdir p (disk w)); [discriminate|].
  destruct (negb (isdir (dirname p) (disk w))); [discriminate|].
  now inversion H.
Qed.

Lemma create_clean_kml_ok (p : string) (doc_name image_href : option string)
  (coordinates : option coords) (w w' : world) :
  create_clean_kml p doc_name image_href coordinates w = (w', Ok tt) ->
  exists c, coordinates = Some c /\
    w' = set_disk (insert p (File (Data (kml_content doc_name image_href c))) (disk w)) w.
Proof.
  unfold create_clean_kml. destruct coordinates as [c|]; [|discriminate].
  intros H. exists c. split; [reflexivity|]. now apply write_file_ok.
Qed.

(* ===================================================================== *)
(** ** The synthesizer *)
(* ===================================================================== *)

(** C7. The document synthesizer is deterministic: whatever the state of the
    world and whatever file it is asked to write, two invocations on the same
    record that complete leave byte-identical document text behind, namely
    the template filled with the record's fields. *)
Theorem create_clean_kml_deterministic :
  forall (doc_name image_href : option string) (coordinates : option coords)
         (p1 p2 : string) (w1 w2 w1' w2' : world),
    create_clean_kml p1 doc_name image_href coordinates w1 = (w1', Ok tt) ->
    create_clean_kml p2 doc_name image_href coordinates w2 = (w2', Ok tt) ->
    exists text : string,
      lookup p1 (disk w1') = Some (File (Data text)) /\
      lookup p2 (disk w2') = Some (File (Data text)).
Proof.
  intros doc_name image_href coordinates p1 p2 w1 w2 w1' w2' H1 H2.
  apply create_clean_kml_ok in H1 as (c1 & Hc1 & ->).
  apply create_clean_kml_ok in H2 as (c2 & Hc2 & ->).
  assert (c1 = c2) by congruence. subst c2.
  exists (kml_content doc_name image_href c1).
  simpl. now rewrite !lookup_insert.
Qed.

(** The sample record written into two different folders. *)
Lemma create_clean_kml_deterministic_witness :
  exists text : string,
    lookup "/t/cleaned.kml"
      (disk (fst (create_clean_kml "/t/cleaned.kml" (Some "Topo A") (Some "overlay.png")
                    (Some sample_coords) (folder_world "/t"))))
    = Some (File (Data text)) /\
    lookup "/u/doc.kml"
      (disk (fst (create_clean_kml "/u/doc.kml" (Some "Topo A") (Some "overlay.png")
                    (Some sample_coords) (folder_world "/u"))))
    = Some (File (Data text)).
Proof.
  eapply (create_clean_kml_deterministic (Some "Topo A") (Some "overlay.png")
            (Some sample_coords) "/t/cleaned.kml" "/u/doc.kml"
            (folder_world "/t") (folder_world "/u"));
    reflexivity.
Defined.

Lemma txt_nonempty (s : string) : is_empty s = false -> txt s = Some s.
Proof. unfold txt. now intros ->. Qed.

Lemma verbatim_inv (s : string) :
  verbatim s = true ->
  is_empty s = false /\ all_chars plain_char s = true /\ cdata_end_free 0 s = true.
Proof.
  unfold verbatim, plain_text. intros H.
  apply andb_true_iff in H as [He H]. apply andb_true_iff in H as [Hp Hc].
  apply negb_true_iff in He. auto.
Qed.

Lemma plain_text_inv (s : string) :
  plain_text s = true ->
  all_chars plain_char s = true /\ cdata_end_free 0 s = true.
Proof. unfold plain_text. intros H. now apply andb_true_iff in H. Qed.

Lemma plain_is_markup_free (s : string) :
  all_chars plain_char s = true -> markup_free s = true.
Proof.
  unfold markup_free. induction s as [|c s IH]; [reflexivity|].
  simpl. intros H. apply andb_true_iff in H as [Hc Hs].
  unfold plain_char in Hc. repeat (apply andb_true_iff in Hc as [Hc ?]).
  rewrite Hc. now apply IH.
Qed.

Lemma ET_parse_data (p text : string) (e : Element) (w : world) :
  lookup p (disk w) = Some (File (Data text)) ->
  xml_parse text = Some e ->
  ET_parse p w = (w, Ok e).
Proof.
  intros Hl Hp. unfold ET_parse, bind, read_file. now rewrite Hl, Hp.
Qed.

Lemma ET_parse_malformed (p text : string) (w : world) :
  lookup p (disk w) = Some (File (Data text)) ->
  xml_parse text = None ->
  ET_parse p w = (w, Raise ParseError).
Proof.
  intros Hl Hp. unfold ET_parse, bind, read_file. now rewrite Hl, Hp.
Qed.

(** The queries of [parse_kml] on the tree of a synthesized document. *)
Lemma find_name_in_kml_tree (a b c d e f : string) :
  find_desc (kml "name") (kml_tree a b c d e f) = Some (leaf "name" a).
Proof. reflexivity. Qed.

Lemma find_overlay_in_kml_tree (a b c d e f : string) :
  find_desc (kml "GroundOverlay") (kml_tree a b c d e f) = Some (overlay_tree b c d e f).
Proof. reflexivity. Qed.

Lemma find_href_in_overlay_tree (b c d e f : string) :
  find_desc_child (kml "Icon") (kml "href") (overlay_tree b c d e f) = Some (leaf "href" b).
Proof. reflexivity. Qed.

Lemma find_box_in_overlay_tree (b c d e f : string) :
  find_desc (kml "LatLonBox") (overlay_tree b c d e f) = Some (latlonbox_tree c d e f).
Proof. reflexivity. Qed.

Lemma find_edges_in_latlonbox_tree (c d e f : string) :
  find_child (kml "north") (latlonbox_tree c d e f) = Some (leaf "north" c) /\
  find_child (kml "south") (latlonbox_tree c d e f) = Some (leaf "south" d) /\
  find_child (kml "east") (latlonbox_tree c d e f) = Some (leaf "east" e) /\
  find_child (kml "west") (latlonbox_tree c d e f) = Some (leaf "west" f).
Proof. repeat split. Qed.

(** What [parse_kml] returns on a document that parses to the tree of a
    synthesized document, when the image it names is there. *)
Lemma parse_kml_on_kml_tree (p text a b c d e f : string) (w : world) :
  lookup p (disk w) = Some (File (Data text)) ->
  xml_parse text = Some (kml_tree a b c d e f) ->
  is_empty b = false ->
  path_exists (path_join (dirname p) b) (disk w) = true ->
  parse_kml p w = (w, Ok (txt a, Some b, Some (txt c, txt d, txt e, txt f))).
Proof.
  intros Hl Hp Hb Hex.
  destruct (find_edges_in_latlonbox_tree c d e f) as (Hn & Hs & He & Hw).
  unfold parse_kml, bind.
  rewrite (ET_parse_data p text _ w Hl Hp).
  rewrite find_name_in_kml_tree, find_overlay_in_kml_tree.
  cbv beta iota delta [text_attr ret].
  rewrite find_href_in_overlay_tree.
  cbv beta iota delta [text_of leaf bind].
  rewrite (txt_nonempty b Hb).
  cbv beta iota delta [os_path_exists].
  rewrite Hex.
  cbv beta iota delta [negb].
  rewrite find_box_in_overlay_tree, Hn, Hs, He, Hw.
  reflexivity.
Qed.

(** C4 (amended). For every overlay record whose display name, image
    reference and four coordinates contain no [<], the synthesized document,
    when parsed, contains no Region element and no NetworkLink element; and
    it does parse when those fields are plain character data. *)
Theorem synthesized_document_has_no_region_or_network_link :
  forall (doc_name image_href north south east west : option string),
    markup_free (fmt doc_name) = true ->
    markup_free (fmt image_href) = true ->
    markup_free (fmt north) = true ->
    markup_free (fmt south) = true ->
    markup_free (fmt east) = true ->
    markup_free (fmt west) = true ->
    (forall t : Element,
       xml_parse (kml_content doc_name image_href (north, south, east, west)) = Some t ->
       count_local "Region" t = 0 /\ count_local "NetworkLink" t = 0) /\
    (plain_text (fmt doc_name) = true ->
     plain_text (fmt image_href) = true ->
     plain_text (fmt north) = true ->
     plain_text (fmt south) = true ->
     plain_text (fmt east) = true ->
     plain_text (fmt west) = true ->
     exists t : Element,
       xml_parse (kml_content doc_name image_href (north, south, east, west)) = Some t).
Proof.
  intros doc_name image_href north south east west Ha Hb Hc Hd He Hf.
  unfold kml_content. split.
  - intros t Hparse.
    destruct (parse_markup_free _ _ _ _ _ _ Ha Hb Hc Hd He Hf)
      as [Hnone | (a & b & c & d & e & f & Hsome)].
    + congruence.
    + assert (t = kml_tree a b c d e f) by congruence.
      subst t. split; reflexivity.
  - intros Pa Pb Pc Pd Pe Pf.
    apply plain_text_inv in Pa as (Pa1 & Pa2). apply plain_text_inv in Pb as (Pb1 & Pb2).
    apply plain_text_inv in Pc as (Pc1 & Pc2). apply plain_text_inv in Pd as (Pd1 & Pd2).
    apply plain_text_inv in Pe as (Pe1 & Pe2). apply plain_text_inv in Pf as (Pf1 & Pf2).
    eexists. now apply parse_plain.
Qed.

(** The sample record: its document parses and holds neither element. *)
Lemma synthesized_document_has_no_region_or_network_link_witness :
  (forall t : Element,
     xml_parse (kml_content (Some "Topo A") (Some "overlay.png")
                  (Some "45.0", Some "44.0", Some "-120.0", Some "-121.0")) = Some t ->
     count_local "Region" t = 0 /\ count_local "NetworkLink" t = 0) /\
  (exists t : Element,
     xml_parse (kml_content (Some "Topo A") (Some "overlay.png")
                  (Some "45.0", Some "44.0", Some "-120.0", Some "-121.0")) = Some t).
Proof.
  destruct (synthesized_document_has_no_region_or_network_link
              (Some "Topo A") (Some "overlay.png")
              (Some "45.0") (Some "44.0") (Some "-120.0") (Some "-121.0")
              eq_refl eq_refl eq_refl eq_refl eq_refl eq_refl) as [Hnone Hparses].
  split; [exact Hnone | apply Hparses; reflexivity].
Defined.

(** C4 as stated fails: the display name is copied into the template as it
    is, so a name that spells a tag becomes an element of the synthesized
    document.  Such a name is what [parse_kml] returns for an input whose
    name element holds the escaped text. *)
Lemma display_name_injects_region :
  parse_kml "/t/doc.kml"
    (fresh "/work"
       [("/t", Dir);
        ("/t/overlay.png", File (Data "PNG image bytes"));
        ("/t/doc.kml",
         File (Data (kml_text "&lt;Region/&gt;" "overlay.png"
                              "45.0" "44.0" "-120.0" "-121.0")))])
  = (fresh "/work"
       [("/t", Dir);
        ("/t/overlay.png", File (Data "PNG image bytes"));
        ("/t/doc.kml",
         File (Data (kml_text "&lt;Region/&gt;" "overlay.png"
                              "45.0" "44.0" "-120.0" "-121.0")))],
     Ok (Some "<Region/>", Some "overlay.png", Some sample_coords))
  /\ exists t : Element,
       xml_parse (kml_content (Some "<Region/>") (Some "overlay.png") sample_coords)
       = Some t
       /\ count_local "Region" t = 1.
Proof.
  split; [vm_compute; reflexivity|].
  eexists. split.
  - vm_compute. reflexivity.
  - vm_compute. reflexivity.
Qed.

(** C5 (amended). For every overlay record whose six fields are non-empty
    plain character data (no [<], no [&], no carriage return or forbidden
    control character, no ]]>), writing the synthesized document and
    extracting from it again, with the image in place, returns the display
    name, the image reference and the four coordinates unchanged. *)
Theorem synthesize_then_extract_roundtrip :
  forall (doc_name image_href north south east west output_kml : string)
         (w w1 : world),
    verbatim doc_name = true ->
    verbatim image_href = true ->
    verbatim north = true ->
    verbatim south = true ->
    verbatim east = true ->
    verbatim west = true ->
    create_clean_kml output_kml (Some doc_name) (Some image_href)
      (Some (Some north, Some south, Some east, Some west)) w = (w1, Ok tt) ->
    path_exists (path_join (dirname output_kml) image_href) (disk w1) = true ->
    parse_kml output_kml w1
    = (w1, Ok (Some doc_name, Some image_href,
               Some (Some north, Some south, Some east, Some west))).
Proof.
  intros a b c d e f p w w1 Ha Hb Hc Hd He Hf Hcreate Himage.
  apply verbatim_inv in Ha as (Ha0 & Ha1 & Ha2).
  apply verbatim_inv in Hb as (Hb0 & Hb1 & Hb2).
  apply verbatim_inv in Hc as (Hc0 & Hc1 & Hc2).
  apply verbatim_inv in Hd as (Hd0 & Hd1 & Hd2).
  apply verbatim_inv in He as (He0 & He1 & He2).
  apply verbatim_inv in Hf as (Hf0 & Hf1 & Hf2).
  apply create_clean_kml_ok in Hcreate as (co & Hco & Hw1).
  injection Hco as <-.
  assert (Hlook : lookup p (disk w1) = Some (File (Data (kml_text a b c d e f)))).
  { rewrite Hw1. cbn [disk set_disk]. apply lookup_insert. }
  pose proof (parse_plain a b c d e f Ha1 Ha2 Hb1 Hb2 Hc1 Hc2 Hd1 Hd2 He1 He2 Hf1 Hf2) as Hparse.
  pose proof (parse_kml_on_kml_tree p _ a b c d e f w1 Hlook Hparse Hb0 Himage) as H.
  rewrite (txt_nonempty a Ha0), (txt_nonempty c Hc0), (txt_nonempty d Hd0),
    (txt_nonempty e He0), (txt_nonempty f Hf0) in H.
  exact H.
Qed.

(** The sample record, written next to its image and read back. *)
Lemma synthesize_then_extract_roundtrip_witness :
  parse_kml "/t/cleaned.kml"
    (fst (create_clean_kml "/t/cleaned.kml" (Some "Topo A") (Some "overlay.png")
            (Some sample_coords) image_world))
  = (fst (create_clean_kml "/t/cleaned.kml" (Some "Topo A") (Some "overlay.png")
            (Some sample_coords) image_world),
     Ok (Some "Topo A", Some "overlay.png", Some sample_coords)).
Proof.
  apply (synthesize_then_extract_roundtrip
           "Topo A" "overlay.png" "45.0" "44.0" "-120.0" "-121.0"
           "/t/cleaned.kml" image_world);
    reflexivity.
Defined.

(** C5 as stated fails: nothing is escaped, so a display name with an
    ampersand yields a document the extractor cannot read back. *)
Lemma ampersand_breaks_roundtrip :
  exists w1 : world,
    create_clean_kml "/t/cleaned.kml" (Some "Smith & Jones") (Some "overlay.png")
      (Some sample_coords) image_world = (w1, Ok tt)
    /\ parse_kml "/t/cleaned.kml" w1 = (w1, Raise ParseError).
Proof.
  eexists. split.
  - vm_compute. reflexivity.
  - vm_compute. reflexivity.
Qed.

(* ===================================================================== *)
(** ** The driver on sample inputs *)
(* ===================================================================== *)

(** The scenario of the specification with the overlay archive shipped in a
    bundle: it is converted and logged. *)
Lemma bundled_kmz_is_processed :
  let r := run "/work" (bundle_disk [("sample.kmz", sample_kmz)]) in
  snd r = Ok tt /\
  lookup "/work/processed_kmz/sample.kmz" (disk (fst r))
  = Some (File (Zip [("doc.kml", Data sample_kml);
                     ("overlay.png", Data "PNG image bytes")])) /\
  lookup "/work/processed_kmz/processed_kmz_log.txt" (disk (fst r))
  = Some (File (Data (log_header ++
                      log_line "sample.kmz" "/work/processed_kmz/sample.kmz"))).
Proof. vm_compute. repeat split. Qed.

(** C1, evaluated at its failing input.  The same archive placed in the
    working folder itself is never looked at: the second loop lists the
    scratch folder only, so the run ends with no output archive and a log
    that holds the header alone. *)
Theorem kmz_in_working_folder_is_not_processed :
  let r := run "/work" (work_disk [("sample.kmz", sample_kmz)]) in
  snd r = Ok tt /\
  lookup "/work/processed_kmz/sample.kmz" (disk (fst r)) = None /\
  lookup "/work/processed_kmz/processed_kmz_log.txt" (disk (fst r))
  = Some (File (Data log_header)) /\
  console (fst r) = [LookingIn "/work"; CheckingIn "/work/temp_extract"; CleanedUp].
Proof. vm_compute. repeat split. Qed.

(** C3, evaluated at its failing inputs.  Each of the three documents is
    well-formed, yet extraction raises [AttributeError] instead of returning
    the skip triple, and in a run the error ends the run before the next
    archive is reached. *)
Theorem missing_fields_raise :
  xml_parse no_name_kml <> None /\
  xml_parse no_href_kml <> None /\
  xml_parse no_north_kml <> None /\
  snd (parse_kml "/t/doc.kml" (doc_world no_name_kml)) = Raise AttributeError /\
  snd (parse_kml "/t/doc.kml" (doc_world no_href_kml)) = Raise AttributeError /\
  snd (parse_kml "/t/doc.kml" (doc_world no_north_kml)) = Raise AttributeError /\
  (let r := run "/work" (bundle_disk [("a.kmz", kmz_of no_name_kml);
                                      ("b.kmz", sample_kmz)]) in
   snd r = Raise AttributeError /\
   lookup "/work/processed_kmz/b.kmz" (disk (fst r)) = None).
Proof. vm_compute. repeat split; discriminate. Qed.

(** C9, evaluated at its failing input.  The document of the archive
    references an image that is not in the archive and has no name element.
    Extraction raises [AttributeError] at the name, before it comes to the
    check on the image: the run ends with that error and the item is not
    skipped.  With a name element in the document the same archive is
    skipped and the run completes. *)
Theorem missing_image_without_name_raises :
  xml_parse no_name_kml <> None /\
  (let r := run "/work" (bundle_disk [("a.kmz", nameless_imageless_kmz)]) in
   snd r = Raise AttributeError /\
   lookup "/work/temp_extract/a/overlay.png" (disk (fst r)) = None /\
   console (fst r)
   = [LookingIn "/work"; ExtractingZip "bundle.zip"; CheckingIn "/work/temp_extract";
      FoundInTemp "a.kmz"; Processing "a.kmz"]) /\
  (let r := run "/work" (bundle_disk [("a.kmz", imageless_kmz)]) in
   snd r = Ok tt /\
   console (fst r)
   = [LookingIn "/work"; ExtractingZip "bundle.zip"; CheckingIn "/work/temp_extract";
      FoundInTemp "a.kmz"; Processing "a.kmz";
      MissingImage "overlay.png" (Some "Topo A"); SkippingMissingData "a.kmz";
      CleanedUp]).
Proof. vm_compute. repeat split; discriminate. Qed.

(** C8, evaluated at its failing input.  The scratch document is written
    into the extraction folder under the name [cleaned.kml]; an overlay image
    of that name is overwritten before it is packed, and the output archive
    holds the synthesized document twice and no image. *)
Theorem image_named_cleaned_kml_is_lost :
  let r := run "/work" (bundle_disk [("a.kmz", clash_kmz)]) in
  snd r = Ok tt /\
  lookup "/work/processed_kmz/a.kmz" (disk (fst r))
  = Some (File (Zip [("doc.kml", Data clash_kml);
                     ("cleaned.kml", Data clash_kml)])).
Proof. vm_compute. repeat split. Qed.

(** C2 as stated fails: a document that is not well-formed ends the whole
    run with [ParseError]; the archive after it, which is converted when it
    comes alone, is left unprocessed. *)
Lemma malformed_document_stops_the_run :
  (let r := run "/work" (bundle_disk [("broken.kmz", broken_kmz);
                                      ("inner.kmz", sample_kmz)]) in
   snd r = Raise ParseError /\
   lookup "/work/processed_kmz/inner.kmz" (disk (fst r)) = None) /\
  (let r := run "/work" (bundle_disk [("inner.kmz", sample_kmz)]) in
   snd r = Ok tt /\
   lookup "/work/processed_kmz/inner.kmz" (disk (fst r)) <> None).
Proof. vm_compute. repeat split; discriminate. Qed.

(* ===================================================================== *)
(** ** What the parts of the script may do to the log and the console *)
(* ===================================================================== *)

Lemma logged_app (a b : list msg) : logged (a ++ b) = logged a ++ logged b.
Proof.
  induction a as [|m a IH]; [reflexivity|].
  destruct m; simpl; try exact IH.
  now rewrite IH, append_assoc.
Qed.

Lemma logged_silent (ms : list msg) :
  (forall k p, ~ In (Processed k p) ms) -> logged ms = "".
Proof.
  induction ms as [|m ms IH]; intros H; [reflexivity|].
  destruct m; simpl; try (apply IH; intros k p Hin; apply (H k p); now right).
  exfalso. apply (H kmz_file output_kmz_path). now left.
Qed.

(** Breaks the defining equation [H] of a primitive into its outcomes. *)
Ltac outcomes H :=
  repeat match type of H with
         | (if ?b then _ else _) = _ => destruct b
         | match ?x with _ => _ end = _ => destruct x
         | (let (_, _) := ?x in _) = _ => destruct x
         end;
  try (injection H as <- <-).

Section Effects.

Variable R : world -> world -> Prop.
Hypothesis R_refl : forall w, R w w.
Hypothesis R_trans : forall w1 w2 w3, R w1 w2 -> R w2 w3 -> R w1 w3.
Hypothesis R_disk : forall w d, R w (set_disk d w).
Hypothesis R_print :
  forall w m, announces_conversion m = false -> R w (fst (print m w)).

Lemma respects_ret {A : Type} (a : A) : respects R (ret a).
Proof. intros w w' r H. injection H as <- <-. apply R_refl. Qed.

Lemma respects_raise {A : Type} (e : exn) : respects R (@raise A e).
Proof. intros w w' r H. injection H as <- <-. apply R_refl. Qed.

Lemma respects_bind {A B : Type} (c : M A) (k : A -> M B) :
  respects R c -> (forall a, respects R (k a)) -> respects R (bind c k).
Proof.
  intros Hc Hk w w' r H. unfold bind in H.
  destruct (c w) as [w1 [a|e]] eqn:E.
  - apply (R_trans _ w1); [exact (Hc _ _ _ E) | exact (Hk a _ _ _ H)].
  - injection H as <- <-. exact (Hc _ _ _ E).
Qed.

Lemma respects_for_each {A : Type} (l : list A) (body : A -> M unit) :
  (forall x, respects R (body x)) -> respects R (for_each l body).
Proof.
  intros Hb. induction l as [|x l IH]; simpl.
  - apply respects_ret.
  - apply respects_bind; [apply Hb | intros _; exact IH].
Qed.

Lemma respects_print (m : msg) :
  announces_conversion m = false -> respects R (print m).
Proof.
  intros Hm w w' r H. pose proof (R_print w m Hm) as HR.
  unfold print in *. injection H as <- <-. exact HR.
Qed.

Lemma respects_get_world : respects R get_world.
Proof. intros w w' r H. injection H as <- <-. apply R_refl. Qed.

Lemma respects_os_path_exists (p : string) : respects R (os_path_exists p).
Proof. intros w w' r H. injection H as <- <-. apply R_refl. Qed.

Lemma respects_os_listdir (p : string) : respects R (os_listdir p).
Proof. intros w w' r H. unfold os_listdir in H. outcomes H; apply R_refl. Qed.

Lemma respects_os_makedirs (p : string) : respects R (os_makedirs p).
Proof.
  intros w w' r H. unfold os_makedirs in H.
  outcomes H; first [apply R_refl | apply R_disk].
Qed.

Lemma respects_shutil_rmtree (p : string) : respects R (shutil_rmtree p).
Proof.
  intros w w' r H. unfold shutil_rmtree in H.
  outcomes H; first [apply R_refl | apply R_disk].
Qed.

Lemma respects_write_file (p : string) (f : file) : respects R (write_file p f).
Proof.
  intros w w' r H. unfold write_file in H.
  outcomes H; first [apply R_refl | apply R_disk].
Qed.

Lemma respects_read_file (p : string) : respects R (read_file p).
Proof. intros w w' r H. unfold read_file in H. outcomes H; apply R_refl. Qed.

Lemma respects_zip_open (p : string) : respects R (zip_open p).
Proof.
  apply respects_bind; [apply respects_read_file|].
  intros [text|members]; [apply respects_raise | apply respects_ret].
Qed.

Lemma respects_extract_member (dest : string) (m : string * file) :
  respects R (extract_member dest m).
Proof.
  unfold extract_member.
  destruct (endswith (fst m) "/"); [apply respects_os_makedirs|].
  intros w w' r H. outcomes H; first [apply R_refl | apply R_disk].
Qed.

Lemma respects_extractall (members : list (string * file)) (dest : string) :
  respects R (extractall members dest).
Proof. apply respects_for_each. intros m. apply respects_extract_member. Qed.

Lemma respects_zip_write (p src arcname : string) :
  respects R (zip_write p src arcname).
Proof.
  intros w w' r H. unfold zip_write in H.
  outcomes H; first [apply R_refl | apply R_disk].
Qed.

Lemma respects_ET_parse (p : string) : respects R (ET_parse p).
Proof.
  apply respects_bind; [apply respects_read_file|].
  intros [text|members]; [|apply respects_raise].
  destruct (xml_parse text); [apply respects_ret | apply respects_raise].
Qed.

Lemma respects_text_attr (e : option Element) : respects R (text_attr e).
Proof. destruct e; [apply respects_ret | apply respects_raise]. Qed.

(** Works through a computation built from the parts above. *)
Ltac effects :=
  repeat first
    [ apply respects_ret
    | apply respects_raise
    | apply respects_get_world
    | apply respects_os_path_exists
    | apply respects_os_listdir
    | apply respects_os_makedirs
    | apply respects_shutil_rmtree
    | apply respects_write_file
    | apply respects_zip_open
    | apply respects_extractall
    | apply respects_zip_write
    | apply respects_ET_parse
    | apply respects_text_attr
    | apply respects_print; reflexivity
    | apply respects_bind; [|intro]
    | match goal with
      | |- respects R (if ?b then _ else _) => destruct b
      | |- respects R (match ?x with _ => _ end) => destruct x
      end ].

Lemma respects_setup : respects R setup.
Proof. unfold setup. effects. Qed.

Lemma respects_extract_zip (zip_path : string) : respects R (extract_zip zip_path).
Proof. unfold extract_zip. effects. Qed.

Lemma respects_extract_kmz (kmz_path extract_to : string) :
  respects R (extract_kmz kmz_path extract_to).
Proof. unfold extract_kmz. effects. Qed.

Lemma respects_parse_kml (kml_path : string) : respects R (parse_kml kml_path).
Proof. unfold parse_kml. effects. Qed.

Lemma respects_create_clean_kml (output_kml : string)
  (doc_name image_href : option string) (coordinates : option coords) :
  respects R (create_clean_kml output_kml doc_name image_href coordinates).
Proof. unfold create_clean_kml. effects. Qed.

Lemma respects_repackage_kmz (temp_folder output_kmz : string)
  (image_file : option string) :
  respects R (repackage_kmz temp_folder output_kmz image_file).
Proof. unfold repackage_kmz, zip_create. effects. Qed.

Lemma respects_step_zip (zip_file : string) : respects R (step_zip zip_file).
Proof. unfold step_zip. effects. Qed.

Lemma respects_unpack_kmz (kmz_file : string) : respects R (unpack_kmz kmz_file).
Proof. unfold unpack_kmz. effects. Qed.

(** The one place where the log is written in the loop: the line goes with
    the announcement just before it. *)
Hypothesis R_logged :
  forall w k p,
    R w (fst (log_write (log_line k p) (fst (print (Processed k p) w)))).

Lemma respects_convert_kmz (kmz_file kmz_extract_folder : string) :
  respects R (convert_kmz kmz_file kmz_extract_folder).
Proof.
  unfold convert_kmz.
  apply respects_bind; [apply respects_get_world | intros w0].
  apply respects_bind; [apply respects_os_path_exists | intros kml_there].
  destruct (negb kml_there); [effects|].
  apply respects_bind; [apply respects_parse_kml | intros [[doc_name image_href] coordinates]].
  destruct (negb (truthy doc_name) || negb (truthy image_href)); [effects|].
  apply respects_bind; [apply respects_print; reflexivity | intros _].
  apply respects_bind; [apply respects_create_clean_kml | intros _].
  apply respects_bind; [apply respects_repackage_kmz | intros _].
  intros w w' r H. unfold bind at 1 2 in H. cbn [print log_write] in H.
  pose proof (R_logged w kmz_file (path_join (OUTPUT_FOLDER w0) kmz_file)) as HR.
  cbn [print log_write fst] in HR.
  eapply R_trans; [exact HR|].
  exact (respects_shutil_rmtree _ _ _ _ H).
Qed.

Lemma respects_step_kmz (kmz_file : string) : respects R (step_kmz kmz_file).
Proof.
  unfold step_kmz.
  apply respects_bind; [apply respects_print; reflexivity | intros _].
  destruct (endswith (lower kmz_file) ".kmz"); [|apply respects_ret].
  apply respects_bind; [apply respects_unpack_kmz | intros folder].
  apply respects_convert_kmz.
Qed.

End Effects.

Lemma quiet_refl (w : world) : quiet w w.
Proof. now repeat split. Qed.

Lemma quiet_trans (w1 w2 w3 : world) : quiet w1 w2 -> quiet w2 w3 -> quiet w1 w3.
Proof. intros (A1 & B1 & C1) (A2 & B2 & C2). repeat split; congruence. Qed.

Lemma quiet_disk (w : world) (d : store) : quiet w (set_disk d w).
Proof. now repeat split. Qed.

Lemma quiet_print (w : world) (m : msg) :
  announces_conversion m = false -> quiet w (fst (print m w)).
Proof.
  intros Hm. repeat split. simpl. rewrite logged_app.
  destruct m; try discriminate; simpl; apply append_empty_r.
Qed.

Lemma quiet_in_step (w w' : world) : quiet w w' -> in_step w w'.
Proof.
  intros (A & B & C). split; [exact A|]. exists "".
  now rewrite !append_empty_r.
Qed.

Lemma in_step_refl (w : world) : in_step w w.
Proof. apply quiet_in_step, quiet_refl. Qed.

Lemma in_step_trans (w1 w2 w3 : world) :
  in_step w1 w2 -> in_step w2 w3 -> in_step w1 w3.
Proof.
  intros (A1 & x & B1 & C1) (A2 & y & B2 & C2).
  split; [congruence|]. exists (x ++ y).
  now rewrite B2, C2, B1, C1, !append_assoc.
Qed.

Lemma in_step_disk (w : world) (d : store) : in_step w (set_disk d w).
Proof. apply quiet_in_step, quiet_disk. Qed.

Lemma in_step_print (w : world) (m : msg) :
  announces_conversion m = false -> in_step w (fst (print m w)).
Proof. intros Hm. now apply quiet_in_step, quiet_print. Qed.

Lemma in_step_logged (w : world) (k p : string) :
  in_step w (fst (log_write (log_line k p) (fst (print (Processed k p) w)))).
Proof.
  split; [reflexivity|]. exists (log_line k p). split; [reflexivity|].
  simpl. rewrite logged_app. simpl. now rewrite append_empty_r.
Qed.

Ltac by_quiet :=
  first [ exact quiet_refl | exact quiet_trans | exact quiet_disk | exact quiet_print ].

Ltac by_in_step :=
  first [ exact in_step_refl | exact in_step_trans | exact in_step_disk
        | exact in_step_print | exact in_step_logged ].

Lemma setup_quiet : respects quiet setup.
Proof. apply respects_setup; by_quiet. Qed.

Lemma unpack_kmz_quiet (kmz_file : string) : respects quiet (unpack_kmz kmz_file).
Proof. apply respects_unpack_kmz; by_quiet. Qed.

Lemma parse_kml_quiet (kml_path : string) : respects quiet (parse_kml kml_path).
Proof. apply respects_parse_kml; by_quiet. Qed.

Lemma step_zip_in_step (zip_file : string) : respects in_step (step_zip zip_file).
Proof. apply respects_step_zip; by_in_step. Qed.

Lemma step_kmz_in_step (kmz_file : string) : respects in_step (step_kmz kmz_file).
Proof. apply respects_step_kmz; by_in_step. Qed.

(** Inside the [with] block the header is written first, and from then on
    the log grows with the conversions announced. *)
Lemma with_log_body_log (w w1 : world) (r : result unit) :
  with_log_body w = (w1, r) ->
  SCRIPT_FOLDER w1 = SCRIPT_FOLDER w /\
  exists extra : string,
    log_buffer w1 = log_buffer w ++ log_header ++ extra /\
    logged (console w1) = logged (console w) ++ extra.
Proof.
  unfold with_log_body. unfold bind at 1 2. cbn [get_world log_write].
  intros H.
  assert (Hstep : in_step (set_log (log_buffer w ++ log_header) w) w1).
  { revert H. generalize (set_log (log_buffer w ++ log_header) w). intros v H.
    revert v w1 r H. change (respects in_step
      (print (LookingIn (SCRIPT_FOLDER w)) ;;
       zips <- os_listdir (SCRIPT_FOLDER w) ;;
       for_each zips step_zip ;;
       print (CheckingIn (TEMP_FOLDER w)) ;;
       kmzs <- os_listdir (TEMP_FOLDER w) ;;
       for_each kmzs step_kmz)).
    apply respects_bind; [by_in_step | apply respects_print; [by_in_step | reflexivity] | intros _].
    apply respects_bind; [by_in_step | apply respects_os_listdir; by_in_step | intros zips].
    apply respects_bind; [by_in_step | | intros _].
    { apply respects_for_each; [by_in_step | by_in_step | apply step_zip_in_step]. }
    apply respects_bind; [by_in_step | apply respects_print; [by_in_step | reflexivity] | intros _].
    apply respects_bind; [by_in_step | apply respects_os_listdir; by_in_step | intros kmzs].
    apply respects_for_each; [by_in_step | by_in_step | apply step_kmz_in_step]. }
  destruct Hstep as (A & extra & B & C). cbn [set_log SCRIPT_FOLDER log_buffer console] in *.
  split; [exact A|]. exists extra. now rewrite B, C, append_assoc.
Qed.

(* ===================================================================== *)
(** ** Where on the disk the script works *)
(* ===================================================================== *)

Lemma startswith_refl (a : string) : startswith a a = true.
Proof. rewrite <- (append_empty_r a) at 2. apply startswith_refl_app. Qed.

Lemma lookup_filter_keep (f : string -> bool) (d : store) (p : string) :
  f p = true -> lookup p (filter (fun kv => f (fst kv)) d) = lookup p d.
Proof.
  intros Hp. induction d as [|[k v] d IH]; [reflexivity|].
  simpl. destruct (f k) eqn:Ek; simpl.
  - now rewrite IH.
  - destruct (String.eqb k p) eqn:E; [|exact IH].
    apply String.eqb_eq in E. congruence.
Qed.

(** A path outside [area] is neither a folder inside [area] nor below one. *)
Lemma outside_not_within (area q p : string) :
  startswith area q = true -> startswith area p = false -> within q p = false.
Proof.
  intros Hq Hp. unfold within, below.
  destruct (String.eqb p q) eqn:E.
  - apply String.eqb_eq in E. congruence.
  - simpl. destruct (startswith (q ++ "/") p) eqn:E'; [|reflexivity].
    apply startswith_app_l in E'.
    rewrite (startswith_trans _ _ _ Hq E') in Hp. discriminate.
Qed.

Lemma lookup_remove_tree_outside (area q p : string) (d : store) :
  startswith area q = true -> startswith area p = false ->
  lookup p (remove_tree q d) = lookup p d.
Proof.
  intros Hq Hp. unfold remove_tree.
  apply (lookup_filter_keep (fun k => negb (within q k))).
  now rewrite (outside_not_within area q p).
Qed.

Lemma lookup_insert_outside (area k p : string) (v : node) (d : store) :
  startswith area k = true -> startswith area p = false ->
  lookup p (insert k v d) = lookup p d.
Proof. intros Hk Hp. apply lookup_insert_ne. congruence. Qed.

Lemma TEMP_FOLDER_eq (w : world) :
  TEMP_FOLDER w = dir_prefix (SCRIPT_FOLDER w) ++ "temp_extract".
Proof. now apply path_join_relative. Qed.

Lemma OUTPUT_FOLDER_eq (w : world) :
  OUTPUT_FOLDER w = dir_prefix (SCRIPT_FOLDER w) ++ "processed_kmz".
Proof. now apply path_join_relative. Qed.

Lemma rstrip_TEMP_FOLDER (w : world) :
  rstrip_slashes (TEMP_FOLDER w) = TEMP_FOLDER w.
Proof. rewrite TEMP_FOLDER_eq. now rewrite rstrip_slashes_app. Qed.

(** Nothing in the output folder lies in the scratch folder. *)
Lemma output_outside_temp (w : world) (p : string) :
  startswith (OUTPUT_FOLDER w) p = true -> startswith (TEMP_FOLDER w) p = false.
Proof.
  rewrite OUTPUT_FOLDER_eq, TEMP_FOLDER_eq. intros H.
  apply startswith_split in H as [r ->].
  now rewrite append_assoc, startswith_app_cancel.
Qed.

Lemma last_char_cons (c : ascii) (b : string) : last_char (String c b) <> None.
Proof.
  revert c. induction b as [|x b IH]; intros c; [discriminate|].
  change (last_char (String c (String x b))) with (last_char (String x b)).
  apply IH.
Qed.

Lemma dir_prefix_app_cons (a : string) (c : ascii) (b : string) :
  dir_prefix (a ++ String c b) =
  if is_slash (match last_char (String c b) with Some x => x | None => c end)
  then a ++ String c b else (a ++ String c b) ++ "/".
Proof.
  unfold dir_prefix. rewrite last_char_app_cons.
  destruct (last_char (String c b)) eqn:E; [reflexivity|].
  now apply last_char_cons in E.
Qed.

Lemma log_path_eq (w : world) :
  log_path w = OUTPUT_FOLDER w ++ "/processed_kmz_log.txt".
Proof.
  unfold log_path.
  rewrite (path_join_relative (OUTPUT_FOLDER w) "processed_kmz_log.txt" eq_refl).
  rewrite OUTPUT_FOLDER_eq, dir_prefix_app_cons. simpl.
  now rewrite append_assoc.
Qed.

Lemma log_path_in_output (w : world) : startswith (OUTPUT_FOLDER w) (log_path w) = true.
Proof. rewrite log_path_eq. apply startswith_refl_app. Qed.

Lemma below_within (q p : string) : below q p = true -> within q p = true.
Proof. unfold within. intros ->. apply orb_true_r. Qed.

(** The clean-up touches the scratch folder only. *)
Lemma cleanup_confined (w w' : world) (r : result unit) :
  cleanup w = (w', r) ->
  quiet w w' /\
  forall p, startswith (TEMP_FOLDER w) p = false ->
    lookup p (disk w') = lookup p (disk w).
Proof.
  unfold cleanup. unfold bind at 1 2. cbn [get_world os_path_exists].
  destruct (path_exists (TEMP_FOLDER w) (disk w)).
  2:{ intros H. injection H as <- <-. split; [apply quiet_refl | reflexivity]. }
  unfold bind.
  destruct (isdir (TEMP_FOLDER w) (disk w)) eqn:Edir.
  - set (d1 := insert (TEMP_FOLDER w) Dir
                 (filter (fun kv => negb (below (TEMP_FOLDER w) (fst kv))) (disk w))).
    assert (Hd1 : forall p, startswith (TEMP_FOLDER w) p = false ->
                    lookup p d1 = lookup p (disk w)).
    { intros p Hp. unfold d1.
      rewrite (lookup_insert_outside (TEMP_FOLDER w)); auto using startswith_refl.
      apply (lookup_filter_keep (fun k => negb (below (TEMP_FOLDER w) k))).
      destruct (below (TEMP_FOLDER w) p) eqn:Eb; [|reflexivity].
      apply below_within in Eb.
      rewrite (outside_not_within (TEMP_FOLDER w) (TEMP_FOLDER w) p) in Eb;
        auto using startswith_refl. }
    unfold shutil_rmtree. cbn [disk set_disk]. rewrite rstrip_TEMP_FOLDER.
    destruct (isdir (TEMP_FOLDER w) d1).
    + intros H. injection H as <- <-. split.
      * repeat split. cbn. rewrite logged_app. apply append_empty_r.
      * intros p Hp. cbn.
        rewrite (lookup_remove_tree_outside (TEMP_FOLDER w));
          auto using startswith_refl.
    + destruct (isfile (TEMP_FOLDER w) d1); intros H; injection H as <- <-;
        (split; [now repeat split | exact Hd1]).
  - unfold shutil_rmtree. rewrite rstrip_TEMP_FOLDER, Edir.
    destruct (isfile (TEMP_FOLDER w) (disk w)); intros H; injection H as <- <-;
      (split; [apply quiet_refl | reflexivity]).
Qed.

(* ===================================================================== *)
(** ** The log file *)
(* ===================================================================== *)

(** C10. On every run that completes, the log file is in the output folder
    and holds the header line followed by one line per conversion announced
    on the console; when no input was converted it holds the header line and
    nothing else. *)
Theorem log_file_is_always_written :
  forall (folder : string) (d : store) (w' : world),
    run folder d = (w', Ok tt) ->
    lookup (log_path (fresh folder d)) (disk w')
    = Some (File (Data (log_header ++ logged (console w')))) /\
    ((forall k p, ~ In (Processed k p) (console w')) ->
     lookup (log_path (fresh folder d)) (disk w') = Some (File (Data log_header))).
Proof.
  intros folder d w' Hrun.
  assert (Hlog : lookup (log_path (fresh folder d)) (disk w')
                 = Some (File (Data (log_header ++ logged (console w'))))).
  { unfold run, main, bind in Hrun.
    destruct (setup (fresh folder d)) as [ws [[]|e]] eqn:Esetup; [|discriminate].
    destruct (setup_quiet _ _ _ Esetup) as (Hs1 & _ & Hs3).
    unfold process_files in Hrun.
    destruct (write_file (log_path ws) (Data "") (set_log "" ws))
      as [w0 [[]|e]] eqn:Eopen; [|discriminate].
    apply write_file_ok in Eopen. cbn [disk set_log] in Eopen.
    destruct (with_log_body w0) as [w1 [[]|e]] eqn:Ebody; [|discriminate].
    destruct (with_log_body_log _ _ _ Ebody) as (Hb1 & extra & Hb2 & Hb3).
    destruct (cleanup_confined _ _ _ Hrun) as ((Hc1 & _ & Hc3) & Hframe).
    assert (Hfolder : SCRIPT_FOLDER w1 = folder).
    { rewrite Hb1, Eopen. cbn. exact Hs1. }
    assert (Hpath : log_path (fresh folder d) = log_path w1).
    { unfold log_path, OUTPUT_FOLDER. now rewrite Hfolder. }
    rewrite Hpath, Hframe.
    - cbn [close_log disk set_disk]. rewrite lookup_insert.
      rewrite Hc3. cbn [close_log console set_disk].
      rewrite Hb2, Hb3, Eopen. cbn [log_buffer console set_disk set_log].
      rewrite Hs3. reflexivity.
    - change (TEMP_FOLDER (close_log w1)) with (TEMP_FOLDER w1).
      apply output_outside_temp, log_path_in_output. }
  split; [exact Hlog|].
  intros Hnone. rewrite Hlog, (logged_silent _ Hnone). reflexivity.
Qed.

(** A run that converts nothing. *)
Lemma log_file_is_always_written_witness :
  lookup (log_path (fresh "/work" (work_disk [("sample.kmz", sample_kmz)])))
    (disk (fst (run "/work" (work_disk [("sample.kmz", sample_kmz)]))))
  = Some (File (Data (log_header ++
       logged (console (fst (run "/work" (work_disk [("sample.kmz", sample_kmz)]))))))) /\
  ((forall k p, ~ In (Processed k p)
                  (console (fst (run "/work" (work_disk [("sample.kmz", sample_kmz)]))))) ->
   lookup (log_path (fresh "/work" (work_disk [("sample.kmz", sample_kmz)])))
     (disk (fst (run "/work" (work_disk [("sample.kmz", sample_kmz)]))))
   = Some (File (Data log_header))).
Proof.
  apply (log_file_is_always_written "/work" (work_disk [("sample.kmz", sample_kmz)])).
  reflexivity.
Defined.

(* ===================================================================== *)
(** ** Unpacking an overlay archive *)
(* ===================================================================== *)

Lemma file_name_not_absolute (s : string) :
  file_name s = true -> startswith "/" s = false.
Proof.
  destruct s as [|c s]; [reflexivity|].
  intros H. unfold file_name in H. cbn [all_chars] in H.
  apply andb_true_iff in H as [Hc _].
  unfold not_slash, is_slash in Hc. apply negb_true_iff in Hc.
  cbn [startswith]. now rewrite Ascii.eqb_sym, Hc.
Qed.

Lemma append_inj_l (a b c : string) : a ++ b = a ++ c -> b = c.
Proof.
  induction a as [|x a IH]; [auto|]. simpl. intros H. injection H as H. auto.
Qed.

Lemma path_join_inj (a n n' : string) :
  file_name n = true -> file_name n' = true ->
  path_join a n = path_join a n' -> n = n'.
Proof.
  intros Hn Hn'. rewrite !path_join_relative by now apply file_name_not_absolute.
  apply append_inj_l.
Qed.

(** A plain name is a file name and is not empty. *)
Lemma plain_name_file_name (n : string) : plain_name n = true -> file_name n = true.
Proof.
  unfold plain_name. intros H.
  apply andb_true_iff in H as [H _]. apply andb_true_iff in H as [H _].
  apply andb_true_iff in H as [H _]. now apply andb_true_iff in H as [H _].
Qed.

Lemma plain_name_nonempty (n : string) : plain_name n = true -> is_empty n = false.
Proof.
  unfold plain_name. intros H.
  apply andb_true_iff in H as [H _]. apply andb_true_iff in H as [H _].
  apply andb_true_iff in H as [_ H]. now apply negb_true_iff in H.
Qed.

Lemma file_name_replace_from (old : string) (s : string) :
  forall skip, file_name s = true -> file_name (replace_from old "" skip s) = true.
Proof.
  unfold file_name. induction s as [|c s IH]; intros skip H; [reflexivity|].
  cbn [all_chars] in H. apply andb_true_iff in H as [Hc Hs].
  cbn [replace_from]. destruct skip as [|k]; [|now apply IH].
  destruct (startswith old (String c s)).
  - cbn [append]. now apply IH.
  - cbn [all_chars]. rewrite Hc. now apply IH.
Qed.

Lemma lstrip_not_absolute (s : string) : startswith "/" (lstrip_slashes s) = false.
Proof.
  induction s as [|c s IH]; [reflexivity|].
  cbn [lstrip_slashes]. unfold is_slash.
  destruct (Ascii.eqb c "/") eqn:E; [exact IH|].
  cbn [startswith]. now rewrite Ascii.eqb_sym, E.
Qed.

Lemma last_char_none (a : string) : last_char a = None -> a = "".
Proof. destruct a as [|c a]; [reflexivity|]. intros H. now apply last_char_cons in H. Qed.

Lemma dir_prefix_startswith (a n : string) :
  a <> "" -> startswith a (dir_prefix a ++ n) = true.
Proof.
  intros Ha. unfold dir_prefix.
  destruct (last_char a) as [c|] eqn:E.
  - destruct (is_slash c).
    + apply startswith_refl_app.
    + rewrite append_assoc. apply startswith_refl_app.
  - now apply last_char_none in E.
Qed.

Lemma rstrip_keeps_prefix (t s : string) :
  rstrip_slashes t = t -> startswith t s = true ->
  startswith t (rstrip_slashes s) = true.
Proof.
  intros Ht Hs. apply startswith_split in Hs as [r ->].
  rewrite rstrip_slashes_app.
  destruct (rstrip_slashes r).
  - rewrite Ht. apply startswith_refl.
  - apply startswith_refl_app.
Qed.

Lemma startswith_nonempty (t s : string) :
  t <> "" -> startswith t s = true -> s <> "".
Proof. intros Ht Hs ->. destruct t; [contradiction | discriminate]. Qed.

Lemma TEMP_FOLDER_nonempty (w : world) : TEMP_FOLDER w <> "".
Proof.
  rewrite TEMP_FOLDER_eq. destruct (dir_prefix (SCRIPT_FOLDER w)); discriminate.
Qed.

(** The scratch folder of an archive with a plain file name lies inside
    [temp_extract]. *)
Lemma extract_folder_in_temp (w : world) (kmz_file : string) :
  file_name kmz_file = true ->
  startswith (TEMP_FOLDER w)
    (path_join (TEMP_FOLDER w) (replace ".kmz" "" kmz_file)) = true.
Proof.
  intros Hk. rewrite path_join_relative.
  - apply dir_prefix_startswith, TEMP_FOLDER_nonempty.
  - apply file_name_not_absolute. now apply file_name_replace_from.
Qed.

Lemma path_join_in (area dest name : string) :
  area <> "" -> startswith area dest = true ->
  startswith area (path_join dest (lstrip_slashes name)) = true.
Proof.
  intros Ha Hd. rewrite path_join_relative by apply lstrip_not_absolute.
  apply (startswith_trans _ dest); [exact Hd|].
  apply dir_prefix_startswith. now apply (startswith_nonempty area).
Qed.

Lemma os_makedirs_confined (area p : string) :
  rstrip_slashes area = area -> startswith area p = true ->
  confined area (os_makedirs p).
Proof.
  intros Ha Hp w w' r H q Hq. unfold os_makedirs in H.
  outcomes H; try reflexivity.
  cbn. apply (lookup_insert_outside area); [|exact Hq].
  now apply rstrip_keeps_prefix.
Qed.

Lemma extract_member_confined (area dest : string) (m : string * file) :
  rstrip_slashes area = area -> area <> "" -> startswith area dest = true ->
  confined area (extract_member dest m).
Proof.
  intros Ha Hne Hd. unfold extract_member.
  destruct (endswith (fst m) "/").
  - apply os_makedirs_confined; [exact Ha | now apply path_join_in].
  - intros w w' r H q Hq. outcomes H; try reflexivity.
    cbn. apply (lookup_insert_outside area); [|exact Hq].
    now apply path_join_in.
Qed.

Lemma confined_for_each {A : Type} (area : string) (l : list A) (body : A -> M unit) :
  (forall x, confined area (body x)) -> confined area (for_each l body).
Proof.
  intros Hb. induction l as [|x l IH]; intros w w' r H q Hq.
  - injection H as <- <-. reflexivity.
  - cbn [for_each] in H. unfold bind in H.
    destruct (body x w) as [w1 [[]|e]] eqn:E.
    + rewrite (IH _ _ _ H q Hq). exact (Hb x _ _ _ E q Hq).
    + injection H as <- <-. exact (Hb x _ _ _ E q Hq).
Qed.

Lemma extractall_confined (area dest : string) (members : list (string * file)) :
  rstrip_slashes area = area -> area <> "" -> startswith area dest = true ->
  confined area (extractall members dest).
Proof.
  intros Ha Hne Hd. apply confined_for_each.
  intros m. now apply extract_member_confined.
Qed.

(** *** The scratch folder is there once the archive is unpacked *)

Lemma has_below_insert (q k : string) (v : node) (d : store) :
  has_below q d = true -> has_below q (insert k v d) = true.
Proof.
  unfold has_below. induction d as [|[k' x] d IH]; [discriminate|].
  simpl. intros H. destruct (String.eqb k' k); simpl.
  - exact H.
  - apply orb_true_iff in H as [H|H].
    + now rewrite H.
    + rewrite (IH H). apply orb_true_r.
Qed.

Lemma isdir_rstrip (p : string) (d : store) :
  isdir (rstrip_slashes p) d = isdir p d.
Proof. unfold isdir. now rewrite rstrip_slashes_idem. Qed.

Lemma isdir_insert_dir (p k : string) (d : store) :
  isdir p d = true -> isdir p (insert k Dir d) = true.
Proof.
  unfold isdir. intros H.
  destruct (String.eqb k (rstrip_slashes p)) eqn:E.
  - apply String.eqb_eq in E. subst k. now rewrite lookup_insert.
  - apply String.eqb_neq in E. rewrite lookup_insert_ne by exact E.
    destruct (lookup (rstrip_slashes p) d) as [[f|]|]; auto.
    now apply has_below_insert.
Qed.

Lemma isdir_insert_file (p k : string) (f : file) (d : store) :
  isdir p d = true -> isdir k d = false ->
  isdir p (insert k (File f) d) = true.
Proof.
  intros Hp Hk.
  assert (Hne : k <> rstrip_slashes p).
  { intros ->. rewrite isdir_rstrip in Hk. congruence. }
  unfold isdir in *. rewrite lookup_insert_ne by exact Hne.
  destruct (lookup (rstrip_slashes p) d) as [[g|]|]; auto.
  now apply has_below_insert.
Qed.

Lemma os_makedirs_isdir (p : string) (w w' : world) :
  os_makedirs p w = (w', Ok tt) -> isdir p (disk w') = true.
Proof.
  unfold os_makedirs, isdir. intros H.
  destruct (lookup (rstrip_slashes p) (disk w)) as [[f|]|] eqn:E.
  - discriminate.
  - injection H as <-. now rewrite E.
  - destruct (has_below (rstrip_slashes p) (disk w)) eqn:Eb; injection H as <-.
    + now rewrite E.
    + cbn. now rewrite lookup_insert.
Qed.

Lemma os_makedirs_keeps_dir (p q : string) (w w' : world) (r : result unit) :
  os_makedirs q w = (w', r) -> isdir p (disk w) = true -> isdir p (disk w') = true.
Proof.
  unfold os_makedirs. intros H Hp. outcomes H; try exact Hp.
  cbn. now apply isdir_insert_dir.
Qed.

Lemma extract_member_keeps_dir (p dest : string) (m : string * file)
  (w w' : world) (r : result unit) :
  extract_member dest m w = (w', r) ->
  isdir p (disk w) = true -> isdir p (disk w') = true.
Proof.
  unfold extract_member. destruct (endswith (fst m) "/").
  - apply os_makedirs_keeps_dir.
  - intros H Hp.
    destruct (isdir (path_join dest (lstrip_slashes (fst m))) (disk w)) eqn:E;
      injection H as <- <-; [exact Hp|].
    cbn. now apply isdir_insert_file.
Qed.

Lemma extractall_keeps_dir (p dest : string) (members : list (string * file)) :
  forall (w w' : world) (r : result unit),
    extractall members dest w = (w', r) ->
    isdir p (disk w) = true -> isdir p (disk w') = true.
Proof.
  unfold extractall. induction members as [|m members IH]; intros w w' r H Hp.
  - injection H as <- <-. exact Hp.
  - cbn [for_each] in H. unfold bind in H.
    destruct (extract_member dest m w) as [w1 [[]|e]] eqn:E.
    + apply (IH _ _ _ H). exact (extract_member_keeps_dir _ _ _ _ _ _ E Hp).
    + injection H as <- <-. exact (extract_member_keeps_dir _ _ _ _ _ _ E Hp).
Qed.

Lemma zip_open_world (p : string) (w w' : world) (r : result (list (string * file))) :
  zip_open p w = (w', r) -> w' = w.
Proof.
  unfold zip_open, bind, read_file.
  destruct (lookup p (disk w)) as [[[text|members]|]|].
  - intros H. now injection H.
  - intros H. now injection H.
  - intros H. now injection H.
  - destruct (isdir p (disk w)); intros H; now injection H.
Qed.

(** What a successful [unpack_kmz] did. *)
Lemma unpack_kmz_ok (kmz_file folder : string) (w w1 : world) :
  unpack_kmz kmz_file w = (w1, Ok folder) ->
  folder = path_join (TEMP_FOLDER w) (replace ".kmz" "" kmz_file) /\
  exists (wa : world) (members : list (string * file)),
    os_makedirs folder w = (wa, Ok tt) /\
    extractall members folder (fst (print (Processing kmz_file) wa)) = (w1, Ok tt).
Proof.
  unfold unpack_kmz. unfold bind at 1. cbn [get_world].
  set (f := path_join (TEMP_FOLDER w) (replace ".kmz" "" kmz_file)).
  unfold bind at 1.
  destruct (os_makedirs f w) as [wa [[]|e]] eqn:Emk; [|discriminate].
  unfold bind at 1. cbn [print].
  unfold bind at 1. unfold extract_kmz. unfold bind at 1.
  match goal with |- context [zip_open ?p ?v] =>
    destruct (zip_open p v) as [wb [members|e]] eqn:Ezip end; [|discriminate].
  apply zip_open_world in Ezip. subst wb.
  match goal with |- context [extractall members f ?v] =>
    destruct (extractall members f v) as [wc [[]|e]] eqn:Eex end; [|discriminate].
  intros H. injection H as <- <-.
  split; [reflexivity|]. exists wa, members. split; [exact Emk | exact Eex].
Qed.

Lemma unpack_kmz_isdir (kmz_file folder : string) (w w1 : world) :
  unpack_kmz kmz_file w = (w1, Ok folder) -> isdir folder (disk w1) = true.
Proof.
  intros H. apply unpack_kmz_ok in H as (_ & wa & members & Hmk & Hex).
  apply (extractall_keeps_dir _ _ _ _ _ _ Hex). cbn.
  exact (os_makedirs_isdir _ _ _ Hmk).
Qed.

(** Unpacking an archive with a plain file name changes the disk inside
    [temp_extract] only. *)
Lemma unpack_kmz_confined (kmz_file folder : string) (w w1 : world) :
  file_name kmz_file = true ->
  unpack_kmz kmz_file w = (w1, Ok folder) ->
  startswith (TEMP_FOLDER w) folder = true /\
  forall p, startswith (TEMP_FOLDER w) p = false ->
    lookup p (disk w1) = lookup p (disk w).
Proof.
  intros Hk H. apply unpack_kmz_ok in H as (-> & wa & members & Hmk & Hex).
  pose proof (extract_folder_in_temp w kmz_file Hk) as Hin.
  split; [exact Hin|]. intros p Hp.
  rewrite (extractall_confined (TEMP_FOLDER w) _ members
             (rstrip_TEMP_FOLDER w) (TEMP_FOLDER_nonempty w) Hin _ _ _ Hex p Hp).
  cbn.
  exact (os_makedirs_confined (TEMP_FOLDER w) _ (rstrip_TEMP_FOLDER w) Hin _ _ _ Hmk p Hp).
Qed.

(* ===================================================================== *)
(** ** One archive in the loop *)
(* ===================================================================== *)

(** The first half of [step_kmz], read off a successful outcome. *)
Lemma found_and_unpacked (kmz_file folder : string) (w w1 : world) :
  (print (FoundInTemp kmz_file) ;; unpack_kmz kmz_file) w = (w1, Ok folder) ->
  unpack_kmz kmz_file (fst (print (FoundInTemp kmz_file) w)) = (w1, Ok folder).
Proof. unfold bind. cbn [print fst]. auto. Qed.

Lemma step_kmz_unfold (kmz_file folder : string) (w w1 : world) :
  endswith (lower kmz_file) ".kmz" = true ->
  (print (FoundInTemp kmz_file) ;; unpack_kmz kmz_file) w = (w1, Ok folder) ->
  step_kmz kmz_file w = convert_kmz kmz_file folder w1.
Proof.
  intros Hk H. apply found_and_unpacked in H.
  unfold step_kmz. unfold bind at 1. cbn [print]. rewrite Hk.
  unfold bind at 1. cbn [print fst] in H. now rewrite H.
Qed.

(** From the world before the archive was announced to the world in which it
    stands unpacked: nothing logged, nothing changed outside [temp_extract],
    and the scratch folder is there. *)
Lemma found_and_unpacked_frame (kmz_file folder : string) (w w1 : world) :
  file_name kmz_file = true ->
  (print (FoundInTemp kmz_file) ;; unpack_kmz kmz_file) w = (w1, Ok folder) ->
  SCRIPT_FOLDER w1 = SCRIPT_FOLDER w /\
  log_buffer w1 = log_buffer w /\
  isdir folder (disk w1) = true /\
  startswith (TEMP_FOLDER w) folder = true /\
  forall p, startswith (TEMP_FOLDER w) p = false ->
    lookup p (disk w1) = lookup p (disk w).
Proof.
  intros Hk H. apply found_and_unpacked in H.
  destruct (unpack_kmz_quiet _ _ _ _ H) as (Hs & Hl & _).
  destruct (unpack_kmz_confined _ _ _ _ Hk H) as (Hin & Hframe).
  repeat split; try assumption.
  now apply unpack_kmz_isdir in H.
Qed.

Lemma path_exists_file (p : string) (f : file) (d : store) :
  lookup p d = Some (File f) -> path_exists p d = true.
Proof. intros H. unfold path_exists, isfile. now rewrite H. Qed.

(** [ET.parse] reads: when it returns a tree or finds the text malformed,
    the file is there and the world is as it was. *)
Lemma ET_parse_read (p : string) (w : world) (r : result Element) :
  snd (ET_parse p w) = r ->
  (r = Raise ParseError \/ exists root, r = Ok root) ->
  ET_parse p w = (w, r) /\ path_exists p (disk w) = true.
Proof.
  intros H Hr. unfold ET_parse, bind, read_file in *.
  destruct (lookup p (disk w)) as [[f|]|] eqn:El.
  - split; [|exact (path_exists_file p f _ El)].
    destruct f as [text|members]; [destruct (xml_parse text)|];
      cbn [snd] in H; now subst r.
  - cbn [snd] in H. subst r. destruct Hr as [Hr|[root Hr]]; discriminate.
  - destruct (isdir p (disk w)); cbn [snd] in H; subst r;
      destruct Hr as [Hr|[root Hr]]; discriminate.
Qed.

Lemma ET_parse_ok (p : string) (w : world) (root : Element) :
  snd (ET_parse p w) = Ok root ->
  ET_parse p w = (w, Ok root) /\ path_exists p (disk w) = true.
Proof. intros H. apply ET_parse_read; [exact H | right; now exists root]. Qed.

Lemma ET_parse_error (p : string) (w : world) :
  snd (ET_parse p w) = Raise ParseError ->
  ET_parse p w = (w, Raise ParseError) /\ path_exists p (disk w) = true.
Proof. intros H. apply ET_parse_read; [exact H | now left]. Qed.

(** [parse_kml] on a document that names an image which is not there. *)
Lemma parse_kml_missing_image (kml_path href : string)
  (root name_el overlay href_el : Element) (w : world) :
  ET_parse kml_path w = (w, Ok root) ->
  find_desc (kml "name") root = Some name_el ->
  find_desc (kml "GroundOverlay") root = Some overlay ->
  find_desc_child (kml "Icon") (kml "href") overlay = Some href_el ->
  text_of href_el = Some href ->
  path_exists (path_join (dirname kml_path) href) (disk w) = false ->
  parse_kml kml_path w
  = (fst (print (MissingImage href (text_of name_el)) w), Ok (None, None, None)).
Proof.
  intros Hp Hname Hov Hhref Htext Hmiss.
  unfold parse_kml, bind.
  rewrite Hp, Hname, Hov.
  cbv beta iota delta [text_attr ret].
  rewrite Hhref. cbv beta iota. rewrite Htext.
  cbv beta iota delta [os_path_exists]. rewrite Hmiss.
  reflexivity.
Qed.

Lemma shutil_rmtree_dir (p : string) (w : world) :
  isdir p (disk w) = true ->
  shutil_rmtree p w = (set_disk (remove_tree (rstrip_slashes p) (disk w)) w, Ok tt).
Proof. intros H. unfold shutil_rmtree. now rewrite isdir_rstrip, H. Qed.

(** X15. The guard on the image, where the document has a name element.
    Take an overlay archive in [temp_extract] that holds plain files at its
    top level, whose name ends in [.kmz] and gives its extraction folder a
    name of its own, and that unpacks.  If [ET.parse] returns a tree for its
    [doc.kml] in which the script finds a name element, a ground overlay and
    an [Icon/href] whose text is one plain name, and no file of that name is
    in the extraction folder, then the item is skipped: the step completes,
    the loop goes on with the next item, the console carries the two skip
    messages, nothing is logged and nothing in the output folder is created
    or changed. *)
Theorem missing_image_is_skipped :
  forall (kmz_file : string) (rest : list string) (w w1 : world)
         (folder href : string) (root name_el overlay href_el : Element),
    file_name kmz_file = true ->
    endswith (lower kmz_file) ".kmz" = true ->
    proper_stem kmz_file = true ->
    plain_archive kmz_file w = true ->
    (print (FoundInTemp kmz_file) ;; unpack_kmz kmz_file) w = (w1, Ok folder) ->
    snd (ET_parse (path_join folder "doc.kml") w1) = Ok root ->
    find_desc (kml "name") root = Some name_el ->
    find_desc (kml "GroundOverlay") root = Some overlay ->
    find_desc_child (kml "Icon") (kml "href") overlay = Some href_el ->
    text_of href_el = Some href ->
    plain_name href = true ->
    path_exists (path_join (dirname (path_join folder "doc.kml")) href) (disk w1) = false ->
    exists w' : world,
      step_kmz kmz_file w = (w', Ok tt) /\
      for_each (kmz_file :: rest) step_kmz w = for_each rest step_kmz w' /\
      console w' = (console w1 ++ [MissingImage href (text_of name_el);
                                   SkippingMissingData kmz_file])%list /\
      log_buffer w' = log_buffer w /\
      (forall p, startswith (OUTPUT_FOLDER w) p = true ->
         lookup p (disk w') = lookup p (disk w)).
Proof.
  intros kmz_file rest w w1 folder href root name_el overlay href_el
         Hk Hkmz _ _ Hunpack Hparse Hname Hov Hhref Htext _ Hmiss.
  destruct (ET_parse_ok _ _ _ Hparse) as [Htree Hdoc].
  destruct (found_and_unpacked_frame _ _ _ _ Hk Hunpack)
    as (Hs & Hlog & Hdir & Hin & Hframe).
  pose (w2 := fst (print (SkippingMissingData kmz_file)
                     (fst (print (MissingImage href (text_of name_el)) w1)))).
  assert (Hstep : step_kmz kmz_file w
                  = (set_disk (remove_tree (rstrip_slashes folder) (disk w1)) w2, Ok tt)).
  { rewrite (step_kmz_unfold _ _ _ _ Hkmz Hunpack).
    unfold convert_kmz. unfold bind at 1 2. cbn [get_world os_path_exists].
    rewrite Hdoc. cbn [negb].
    unfold bind at 1.
    rewrite (parse_kml_missing_image _ _ _ _ _ _ _ Htree Hname Hov Hhref Htext Hmiss).
    cbn [truthy negb orb]. unfold bind. cbn [print fst].
    now rewrite shutil_rmtree_dir. }
  exists (set_disk (remove_tree (rstrip_slashes folder) (disk w1)) w2).
  split; [exact Hstep|]. split.
  { cbn [for_each]. unfold bind at 1. now rewrite Hstep. }
  split.
  { cbn. now rewrite <- app_assoc. }
  split; [exact Hlog|].
  intros p Hp. cbn [disk set_disk].
  pose proof (output_outside_temp w p Hp) as Hout.
  rewrite (lookup_remove_tree_outside (TEMP_FOLDER w)).
  - now apply Hframe.
  - apply rstrip_keeps_prefix; [apply rstrip_TEMP_FOLDER | exact Hin].
  - exact Hout.
Qed.

(** Two unpacked bundle members, the first without its image. *)
Lemma missing_image_is_skipped_witness :
  exists w' : world,
    step_kmz "a.kmz" (scratch_world [("a.kmz", imageless_kmz); ("b.kmz", sample_kmz)])
    = (w', Ok tt) /\
    for_each ["a.kmz"; "b.kmz"] step_kmz
      (scratch_world [("a.kmz", imageless_kmz); ("b.kmz", sample_kmz)])
    = for_each ["b.kmz"] step_kmz w' /\
    console w'
    = (console (fst ((print (FoundInTemp "a.kmz") ;; unpack_kmz "a.kmz")
                       (scratch_world [("a.kmz", imageless_kmz); ("b.kmz", sample_kmz)])))
       ++ [MissingImage "overlay.png" (text_of (leaf "name" "Topo A"));
           SkippingMissingData "a.kmz"])%list /\
    log_buffer w'
    = log_buffer (scratch_world [("a.kmz", imageless_kmz); ("b.kmz", sample_kmz)]) /\
    (forall p,
       startswith
         (OUTPUT_FOLDER (scratch_world [("a.kmz", imageless_kmz); ("b.kmz", sample_kmz)])) p
       = true ->
       lookup p (disk w')
       = lookup p (disk (scratch_world [("a.kmz", imageless_kmz); ("b.kmz", sample_kmz)]))).
Proof.
  apply (missing_image_is_skipped "a.kmz" ["b.kmz"]
           (scratch_world [("a.kmz", imageless_kmz); ("b.kmz", sample_kmz)])
           (fst ((print (FoundInTemp "a.kmz") ;; unpack_kmz "a.kmz")
                   (scratch_world [("a.kmz", imageless_kmz); ("b.kmz", sample_kmz)])))
           "/work/temp_extract/a" "overlay.png"
           (kml_tree "Topo A" "overlay.png" "45.0" "44.0" "-120.0" "-121.0")
           (leaf "name" "Topo A")
           (overlay_tree "overlay.png" "45.0" "44.0" "-120.0" "-121.0")
           (leaf "href" "overlay.png"));
    reflexivity.
Defined.

(** An exception raised inside the [with] block leaves [process_files]
    once the log file is closed: there is no handler on the way. *)
Lemma error_in_block_ends_process_files (w w0 w1 : world) (e : exn) :
  write_file (log_path w) (Data "") (set_log "" w) = (w0, Ok tt) ->
  with_log_body w0 = (w1, Raise e) ->
  process_files w = (close_log w1, Raise e).
Proof. intros Hopen Hbody. unfold process_files. now rewrite Hopen, Hbody. Qed.

Lemma convert_kmz_malformed (kmz_file folder : string) (w : world) :
  snd (ET_parse (path_join folder "doc.kml") w) = Raise ParseError ->
  convert_kmz kmz_file folder w = (w, Raise ParseError).
Proof.
  intros Hparse. destruct (ET_parse_error _ _ Hparse) as [Herr Hdoc].
  unfold convert_kmz. unfold bind at 1 2. cbn [get_world os_path_exists].
  rewrite Hdoc. cbn [negb].
  unfold bind at 1. unfold parse_kml. unfold bind at 1.
  now rewrite Herr.
Qed.

(** C2 (amended). Take an overlay archive in [temp_extract] that holds
    plain files at its top level, whose name ends in [.kmz] and gives its
    extraction folder a name of its own, and that unpacks.  If [ET.parse]
    raises [ParseError] on its [doc.kml], the error ends the loop at that
    item: whatever archives come after it are not looked at, and up to the
    error nothing was logged for the item and nothing in the output folder
    was created or changed. *)
Theorem malformed_document_aborts_the_run :
  forall (kmz_file : string) (rest : list string) (w w1 : world) (folder : string),
    file_name kmz_file = true ->
    endswith (lower kmz_file) ".kmz" = true ->
    proper_stem kmz_file = true ->
    plain_archive kmz_file w = true ->
    (print (FoundInTemp kmz_file) ;; unpack_kmz kmz_file) w = (w1, Ok folder) ->
    snd (ET_parse (path_join folder "doc.kml") w1) = Raise ParseError ->
    for_each (kmz_file :: rest) step_kmz w = (w1, Raise ParseError) /\
    log_buffer w1 = log_buffer w /\
    (forall p, startswith (OUTPUT_FOLDER w) p = true ->
       lookup p (disk w1) = lookup p (disk w)).
Proof.
  intros kmz_file rest w w1 folder Hk Hkmz _ _ Hunpack Hparse.
  destruct (found_and_unpacked_frame _ _ _ _ Hk Hunpack)
    as (_ & Hlog & _ & _ & Hframe).
  split; [|split].
  - cbn [for_each]. unfold bind at 1.
    rewrite (step_kmz_unfold _ _ _ _ Hkmz Hunpack).
    now rewrite (convert_kmz_malformed _ _ _ Hparse).
  - exact Hlog.
  - intros p Hp. apply Hframe. now apply output_outside_temp.
Qed.

(** Two unpacked bundle members, the first with a document cut short. *)
Lemma malformed_document_aborts_the_run_witness :
  for_each ["broken.kmz"; "inner.kmz"] step_kmz
    (scratch_world [("broken.kmz", broken_kmz); ("inner.kmz", sample_kmz)])
  = (fst ((print (FoundInTemp "broken.kmz") ;; unpack_kmz "broken.kmz")
            (scratch_world [("broken.kmz", broken_kmz); ("inner.kmz", sample_kmz)])),
     Raise ParseError) /\
  log_buffer (fst ((print (FoundInTemp "broken.kmz") ;; unpack_kmz "broken.kmz")
                     (scratch_world [("broken.kmz", broken_kmz); ("inner.kmz", sample_kmz)])))
  = log_buffer (scratch_world [("broken.kmz", broken_kmz); ("inner.kmz", sample_kmz)]) /\
  (forall p,
     startswith
       (OUTPUT_FOLDER (scratch_world [("broken.kmz", broken_kmz); ("inner.kmz", sample_kmz)])) p
     = true ->
     lookup p
       (disk (fst ((print (FoundInTemp "broken.kmz") ;; unpack_kmz "broken.kmz")
                     (scratch_world [("broken.kmz", broken_kmz); ("inner.kmz", sample_kmz)]))))
     = lookup p
         (disk (scratch_world [("broken.kmz", broken_kmz); ("inner.kmz", sample_kmz)]))).
Proof.
  apply (malformed_document_aborts_the_run "broken.kmz" ["inner.kmz"]
           (scratch_world [("broken.kmz", broken_kmz); ("inner.kmz", sample_kmz)])
           (fst ((print (FoundInTemp "broken.kmz") ;; unpack_kmz "broken.kmz")
                   (scratch_world [("broken.kmz", broken_kmz); ("inner.kmz", sample_kmz)])))
           "/work/temp_extract/broken");
    reflexivity.
Defined.

(* ===================================================================== *)
(** ** A conversion that goes through *)
(* ===================================================================== *)

Lemma head_of_file_name (n : string) : file_name n = true -> head_of n = "".
Proof.
  unfold file_name. induction n as [|c n IH]; [reflexivity|].
  cbn [all_chars head_of]. intros H. apply andb_true_iff in H as [Hc Hn].
  rewrite (IH Hn). unfold not_slash in Hc. apply negb_true_iff in Hc. now rewrite Hc.
Qed.

Lemma head_of_app (a n : string) :
  last_char a = Some "/"%char -> file_name n = true -> head_of (a ++ n) = a.
Proof.
  intros Ha Hn. induction a as [|c a IH]; [discriminate|].
  change (String c a ++ n) with (String c (a ++ n)). cbn [head_of].
  destruct a as [|x a].
  - cbn [last_char] in Ha. injection Ha as ->.
    cbn [append]. now rewrite (head_of_file_name n Hn).
  - rewrite IH by exact Ha. reflexivity.
Qed.

Lemma last_char_dir_prefix (a : string) :
  a <> "" -> last_char (dir_prefix a) = Some "/"%char.
Proof.
  intros Ha. unfold dir_prefix.
  destruct (last_char a) as [c|] eqn:E.
  - destruct (is_slash c) eqn:Ec.
    + unfold is_slash in Ec. apply Ascii.eqb_eq in Ec. now subst c.
    + now rewrite last_char_app_cons.
  - now apply last_char_none in E.
Qed.

Lemma isdir_dir_prefix (a : string) (d : store) :
  a <> "" -> isdir (dir_prefix a) d = isdir a d.
Proof.
  intros Ha. unfold dir_prefix.
  destruct (last_char a) as [c|] eqn:E.
  - destruct (is_slash c); [reflexivity|].
    unfold isdir. now rewrite rstrip_slashes_app.
  - now apply last_char_none in E.
Qed.

(** The folder of a file joined to it by name is that folder. *)
Lemma isdir_dirname_join (a n : string) (d : store) :
  a <> "" -> file_name n = true ->
  isdir (dirname (path_join a n)) d = isdir a d.
Proof.
  intros Ha Hn.
  rewrite path_join_relative by now apply file_name_not_absolute.
  unfold dirname. rewrite (head_of_app _ _ (last_char_dir_prefix a Ha) Hn).
  destruct (all_slashes (dir_prefix a)).
  - now apply isdir_dir_prefix.
  - rewrite isdir_rstrip. now apply isdir_dir_prefix.
Qed.

Lemma has_below_insert_other (q k : string) (v : node) (d : store) :
  below q k = false -> has_below q (insert k v d) = has_below q d.
Proof.
  intros Hk. unfold has_below. induction d as [|[k' x] d IH].
  - simpl. now rewrite Hk.
  - simpl. destruct (String.eqb k' k); simpl; [reflexivity | now rewrite IH].
Qed.

(** Whether a path in one area is a directory does not depend on what is
    stored in an area apart from it. *)
Lemma isdir_insert_apart (here there p k : string) (v : node) (d : store) :
  (forall x, startswith here x = true -> startswith there x = false) ->
  startswith here (rstrip_slashes p) = true ->
  startswith there k = true ->
  isdir p (insert k v d) = isdir p d.
Proof.
  intros Hapart Hp Hk. unfold isdir.
  assert (Hne : k <> rstrip_slashes p).
  { intros ->. rewrite (Hapart _ Hp) in Hk. discriminate. }
  rewrite lookup_insert_ne by exact Hne.
  rewrite has_below_insert_other; [reflexivity|].
  destruct (below (rstrip_slashes p) k) eqn:E; [|reflexivity].
  unfold below in E. apply startswith_app_l in E.
  rewrite (Hapart k (startswith_trans _ _ _ Hp E)) in Hk. discriminate.
Qed.

Lemma temp_outside_output (w : world) (p : string) :
  startswith (TEMP_FOLDER w) p = true -> startswith (OUTPUT_FOLDER w) p = false.
Proof.
  intros H. destruct (startswith (OUTPUT_FOLDER w) p) eqn:E; [|reflexivity].
  rewrite (output_outside_temp w p E) in H. discriminate.
Qed.

Lemma rstrip_OUTPUT_FOLDER (w : world) :
  rstrip_slashes (OUTPUT_FOLDER w) = OUTPUT_FOLDER w.
Proof. rewrite OUTPUT_FOLDER_eq. now rewrite rstrip_slashes_app. Qed.

Lemma OUTPUT_FOLDER_nonempty (w : world) : OUTPUT_FOLDER w <> "".
Proof.
  rewrite OUTPUT_FOLDER_eq. destruct (dir_prefix (SCRIPT_FOLDER w)); discriminate.
Qed.

Lemma path_join_relative_in (area dest n : string) :
  area <> "" -> startswith area dest = true -> startswith "/" n = false ->
  startswith area (path_join dest n) = true.
Proof.
  intros Ha Hd Hn. rewrite path_join_relative by exact Hn.
  apply (startswith_trans _ dest); [exact Hd|].
  apply dir_prefix_startswith. now apply (startswith_nonempty area).
Qed.

Lemma lstrip_relative (s : string) :
  startswith "/" s = false -> lstrip_slashes s = s.
Proof.
  destruct s as [|c s]; [reflexivity|].
  cbn [startswith lstrip_slashes]. unfold is_slash.
  rewrite Ascii.eqb_sym. now destruct (Ascii.eqb c "/").
Qed.

Lemma write_file_run (p : string) (f : file) (w : world) :
  isdir p (disk w) = false -> isdir (dirname p) (disk w) = true ->
  write_file p f w = (set_disk (insert p (File f) (disk w)) w, Ok tt).
Proof. intros H1 H2. unfold write_file. now rewrite H1, H2. Qed.

Lemma zip_write_run (p src arcname : string) (f : file)
  (members : list (string * file)) (w : world) :
  lookup src (disk w) = Some (File f) ->
  lookup p (disk w) = Some (File (Zip members)) ->
  zip_write p src arcname w
  = (set_disk (insert p (File (Zip (members ++ [(lstrip_slashes arcname, f)]))) (disk w)) w,
     Ok tt).
Proof. intros H1 H2. unfold zip_write. now rewrite H1, H2. Qed.

(** X1. A conversion that goes through.  Take an overlay archive in
    [temp_extract] that holds plain files at its top level, whose name ends
    in [.kmz] and gives its extraction folder a name of its own, and that
    unpacks.  Let [parse_kml] return for its [doc.kml] a display name that is
    not empty, an image reference that is one plain name other than
    [cleaned.kml], and coordinates; let the image be a regular file in the
    extraction folder, let no folder [cleaned.kml] be in the way there, let
    the output folder exist and let the output path not be taken by a
    folder.  Then the step completes and writes an output archive of the
    archive's name with exactly two entries, the synthesized document as
    [doc.kml] and the image under its own name, and appends one line for it
    to the log. *)
Theorem conversion_packs_document_and_image :
  forall (kmz_file folder doc_name image_href : string) (c : coords)
         (img : file) (w w1 : world),
    file_name kmz_file = true ->
    endswith (lower kmz_file) ".kmz" = true ->
    proper_stem kmz_file = true ->
    plain_archive kmz_file w = true ->
    (print (FoundInTemp kmz_file) ;; unpack_kmz kmz_file) w = (w1, Ok folder) ->
    parse_kml (path_join folder "doc.kml") w1
    = (w1, Ok (Some doc_name, Some image_href, Some c)) ->
    is_empty doc_name = false ->
    plain_name image_href = true ->
    image_href <> "cleaned.kml" ->
    lookup (path_join folder image_href) (disk w1) = Some (File img) ->
    isdir (path_join folder "cleaned.kml") (disk w1) = false ->
    isdir (OUTPUT_FOLDER w) (disk w1) = true ->
    isdir (path_join (OUTPUT_FOLDER w) kmz_file) (disk w1) = false ->
    exists w' : world,
      step_kmz kmz_file w = (w', Ok tt) /\
      lookup (path_join (OUTPUT_FOLDER w) kmz_file) (disk w')
      = Some (File (Zip [("doc.kml", Data (kml_content (Some doc_name) (Some image_href) c));
                         (image_href, img)])) /\
      log_buffer w'
      = log_buffer w ++ log_line kmz_file (path_join (OUTPUT_FOLDER w) kmz_file).
Proof.
  intros kmz_file folder doc_name image_href c img w w1
         Hk Hkmz _ _ Hunpack Hparse Hname Hplain Hother Himg Hcl Hout Hfree.
  assert (Hdoc : path_exists (path_join folder "doc.kml") (disk w1) = true).
  { pose proof Hparse as Hp. unfold parse_kml in Hp. unfold bind at 1 in Hp.
    destruct (ET_parse (path_join folder "doc.kml") w1) as [w2 [root|e]] eqn:E;
      [|discriminate].
    exact (proj2 (ET_parse_ok _ _ root (f_equal snd E))). }
  pose proof (plain_name_nonempty _ Hplain) as Hhref.
  pose proof (file_name_not_absolute _ (plain_name_file_name _ Hplain)) as Hrel.
  assert (Hclash : path_join folder image_href <> path_join folder "cleaned.kml").
  { intros E. apply Hother.
    exact (path_join_inj folder image_href "cleaned.kml"
             (plain_name_file_name _ Hplain) eq_refl E). }
  destruct (found_and_unpacked_frame _ _ _ _ Hk Hunpack)
    as (Hs & Hlog & Hdir & Hin & _).
  assert (HO : OUTPUT_FOLDER w1 = OUTPUT_FOLDER w)
    by (unfold OUTPUT_FOLDER; now rewrite Hs).
  set (cleaned := path_join folder "cleaned.kml") in *.
  set (image := path_join folder image_href) in *.
  set (out := path_join (OUTPUT_FOLDER w) kmz_file) in *.
  set (text := kml_content (Some doc_name) (Some image_href) c).
  pose proof (file_name_not_absolute _ Hk) as Hkrel.
  assert (Hcleaned : startswith (TEMP_FOLDER w) cleaned = true)
    by (apply path_join_relative_in; auto using TEMP_FOLDER_nonempty).
  assert (Himage : startswith (TEMP_FOLDER w) image = true)
    by (apply path_join_relative_in; auto using TEMP_FOLDER_nonempty).
  assert (Hout_in : startswith (OUTPUT_FOLDER w) out = true)
    by (apply path_join_relative_in;
        auto using OUTPUT_FOLDER_nonempty, startswith_refl).
  pose proof (output_outside_temp w out Hout_in) as Hout_out.
  assert (Hne1 : out <> cleaned) by (intros E; rewrite E in Hout_out; congruence).
  assert (Hne2 : out <> image) by (intros E; rewrite E in Hout_out; congruence).
  assert (Hfolder : startswith (TEMP_FOLDER w) (rstrip_slashes folder) = true)
    by (apply rstrip_keeps_prefix; [apply rstrip_TEMP_FOLDER | exact Hin]).
  assert (Hout_r : startswith (OUTPUT_FOLDER w) (rstrip_slashes out) = true)
    by (apply rstrip_keeps_prefix; [apply rstrip_OUTPUT_FOLDER | exact Hout_in]).
  assert (HOUT_r : startswith (OUTPUT_FOLDER w) (rstrip_slashes (OUTPUT_FOLDER w)) = true)
    by (rewrite rstrip_OUTPUT_FOLDER; apply startswith_refl).
  (* the disks on the way *)
  set (d3 := insert cleaned (File (Data text)) (disk w1)).
  set (d4 := insert out (File (Zip [])) d3).
  set (d5 := insert out (File (Zip [("doc.kml", Data text)])) d4).
  set (d6 := insert out (File (Zip [("doc.kml", Data text); (image_href, img)])) d5).
  assert (Hd3out : isdir out d3 = false).
  { unfold d3. rewrite (isdir_insert_apart (OUTPUT_FOLDER w) (TEMP_FOLDER w));
      auto using output_outside_temp. }
  assert (Hd3OUT : isdir (dirname out) d3 = true).
  { unfold out. rewrite isdir_dirname_join; auto using OUTPUT_FOLDER_nonempty.
    unfold d3. rewrite (isdir_insert_apart (OUTPUT_FOLDER w) (TEMP_FOLDER w));
      auto using output_outside_temp. }
  assert (Hd6dir : isdir folder d6 = true).
  { unfold d6, d5, d4.
    rewrite !(isdir_insert_apart (TEMP_FOLDER w) (OUTPUT_FOLDER w));
      auto using temp_outside_output.
    unfold d3. now apply isdir_insert_file. }
  pose (w2 := fst (print (Parsed (Some doc_name)) w1)).
  pose (w7 := fst (log_write (log_line kmz_file out)
                     (fst (print (Processed kmz_file out) (set_disk d6 w2))))).
  exists (set_disk (remove_tree (rstrip_slashes folder) d6) w7).
  assert (Hstep : step_kmz kmz_file w
                  = (set_disk (remove_tree (rstrip_slashes folder) d6) w7, Ok tt)).
  { rewrite (step_kmz_unfold _ _ _ _ Hkmz Hunpack).
    unfold convert_kmz. unfold bind at 1 2. cbn [get_world os_path_exists].
    rewrite Hdoc. cbn [negb]. unfold bind at 1. rewrite Hparse.
    destruct doc_name as [|x doc_name]; [discriminate|].
    destruct image_href as [|y image_href]; [discriminate|].
    cbn [truthy negb orb]. unfold bind at 1. cbn [print].
    unfold bind at 1. unfold create_clean_kml.
    rewrite write_file_run; cycle 1.
    { exact Hcl. }
    { cbn [disk]. unfold cleaned.
      rewrite isdir_dirname_join; [exact Hdir | | reflexivity].
      now apply (startswith_nonempty (TEMP_FOLDER w)); auto using TEMP_FOLDER_nonempty. }
    cbn [disk set_disk]. fold cleaned. fold text. fold d3.
    unfold bind at 1. unfold repackage_kmz, zip_create. unfold bind at 1.
    rewrite HO. fold out.
    rewrite write_file_run; [| exact Hd3out | exact Hd3OUT].
    cbn [disk set_disk]. fold d4. unfold bind at 1.
    rewrite (zip_write_run out cleaned "doc.kml" (Data text) []); cycle 1.
    { cbn [disk set_disk]. unfold d4. rewrite lookup_insert_ne by exact Hne1.
      unfold d3. apply lookup_insert. }
    { cbn [disk set_disk]. unfold d4. apply lookup_insert. }
    cbn [disk set_disk app]. change (lstrip_slashes "doc.kml") with "doc.kml". fold d5.
    fold image.
    rewrite (zip_write_run out image _ img [("doc.kml", Data text)]); cycle 1.
    { cbn [disk set_disk]. unfold d5, d4.
      rewrite !lookup_insert_ne by exact Hne2.
      unfold d3. rewrite lookup_insert_ne; [exact Himg|].
      intros E. apply Hclash. now symmetry. }
    { cbn [disk set_disk]. unfold d5. apply lookup_insert. }
    rewrite (lstrip_relative _ Hrel).
    cbn [disk set_disk app]. fold d6.
    unfold bind. cbn [print log_write fst].
    rewrite shutil_rmtree_dir; [reflexivity|].
    cbn [disk set_disk]. exact Hd6dir. }
  split; [exact Hstep|]. split.
  - cbn [disk set_disk].
    rewrite (lookup_remove_tree_outside (TEMP_FOLDER w)); [|exact Hfolder|exact Hout_out].
    unfold d6. apply lookup_insert.
  - cbn. now rewrite Hlog.
Qed.

(** The sample archive, unpacked from its bundle. *)
Lemma conversion_packs_document_and_image_witness :
  exists w' : world,
    step_kmz "sample.kmz" (scratch_world [("sample.kmz", sample_kmz)]) = (w', Ok tt) /\
    lookup (path_join (OUTPUT_FOLDER (scratch_world [("sample.kmz", sample_kmz)])) "sample.kmz")
      (disk w')
    = Some (File (Zip [("doc.kml",
                        Data (kml_content (Some "Topo A") (Some "overlay.png") sample_coords));
                       ("overlay.png", Data "PNG image bytes")])) /\
    log_buffer w'
    = log_buffer (scratch_world [("sample.kmz", sample_kmz)]) ++
      log_line "sample.kmz"
        (path_join (OUTPUT_FOLDER (scratch_world [("sample.kmz", sample_kmz)])) "sample.kmz").
Proof.
  apply (conversion_packs_document_and_image
           "sample.kmz" "/work/temp_extract/sample" "Topo A" "overlay.png"
           sample_coords (Data "PNG image bytes")
           (scratch_world [("sample.kmz", sample_kmz)])
           (fst ((print (FoundInTemp "sample.kmz") ;; unpack_kmz "sample.kmz")
                   (scratch_world [("sample.kmz", sample_kmz)]))));
    first [ reflexivity | discriminate ].
Defined.

(* ===================================================================== *)
(** ** Archives that are passed over *)
(* ===================================================================== *)

Lemma lookup_filter (f : string -> bool) (d : store) (p : string) :
  lookup p (filter (fun kv => f (fst kv)) d) = if f p then lookup p d else None.
Proof.
  induction d as [|[k v] d IH]; [now destruct (f p)|].
  simpl. destruct (f k) eqn:Ek; simpl.
  - destruct (String.eqb k p) eqn:E; [|exact IH].
    apply String.eqb_eq in E. subst k. now rewrite Ek.
  - rewrite IH. destruct (String.eqb k p) eqn:E; [|reflexivity].
    apply String.eqb_eq in E. subst k. now rewrite Ek.
Qed.

Lemma lookup_remove_tree_within (q p : string) (d : store) :
  within q p = true -> lookup p (remove_tree q d) = None.
Proof.
  intros H. unfold remove_tree.
  rewrite (lookup_filter (fun k => negb (within q k))). now rewrite H.
Qed.

Lemma parse_kml_same_disk (kml_path : string) :
  respects (fun w w' => disk w' = disk w) (parse_kml kml_path).
Proof.
  apply respects_parse_kml.
  - reflexivity.
  - intros w1 w2 w3 H12 H23. congruence.
  - reflexivity.
Qed.

(** X2. Whatever [parse_kml] returns or raises, it has read only: the disk
    is as it was, nothing has been written to the log, and what it printed
    announces no conversion. *)
Theorem parse_kml_reads_only :
  forall (kml_path : string) (w : world),
    disk (fst (parse_kml kml_path w)) = disk w /\
    log_buffer (fst (parse_kml kml_path w)) = log_buffer w /\
    SCRIPT_FOLDER (fst (parse_kml kml_path w)) = SCRIPT_FOLDER w /\
    logged (console (fst (parse_kml kml_path w))) = logged (console w).
Proof.
  intros kml_path w.
  destruct (parse_kml kml_path w) as [w' r] eqn:H. cbn [fst].
  destruct (parse_kml_quiet _ _ _ _ H) as (Hs & Hl & Hc).
  pose proof (parse_kml_same_disk _ _ _ _ H) as Hd.
  auto.
Qed.

(** The guard of the loop: a falsy name or image reference sends the
    archive's scratch folder away and nothing else happens. *)
Lemma convert_kmz_skips (kmz_file folder : string) (w1 w2 : world)
  (doc_name image_href : option string) (coordinates : option coords) :
  isdir folder (disk w1) = true ->
  path_exists (path_join folder "doc.kml") (disk w1) = true ->
  parse_kml (path_join folder "doc.kml") w1 = (w2, Ok (doc_name, image_href, coordinates)) ->
  negb (truthy doc_name) || negb (truthy image_href) = true ->
  convert_kmz kmz_file folder w1
  = (set_disk (remove_tree (rstrip_slashes folder) (disk w1))
       (fst (print (SkippingMissingData kmz_file) w2)), Ok tt).
Proof.
  intros Hdir Hdoc Hparse Hfalsy.
  pose proof (parse_kml_same_disk _ _ _ _ Hparse) as Hd. cbv beta in Hd.
  unfold convert_kmz. unfold bind at 1 2. cbn [get_world os_path_exists].
  rewrite Hdoc. cbn [negb].
  unfold bind at 1. rewrite Hparse. rewrite Hfalsy.
  unfold bind. cbn [print fst].
  rewrite shutil_rmtree_dir by (cbn [disk]; now rewrite Hd).
  cbn [disk]. now rewrite Hd.
Qed.

(** What a step that ends in the removal of the scratch folder leaves. *)
Lemma passed_over (kmz_file : string) (rest : list string) (w w1 w2 : world)
  (folder : string) :
  file_name kmz_file = true ->
  endswith (lower kmz_file) ".kmz" = true ->
  (print (FoundInTemp kmz_file) ;; unpack_kmz kmz_file) w = (w1, Ok folder) ->
  convert_kmz kmz_file folder w1
  = (set_disk (remove_tree (rstrip_slashes folder) (disk w1)) w2, Ok tt) ->
  log_buffer w2 = log_buffer w1 ->
  step_kmz kmz_file w
  = (set_disk (remove_tree (rstrip_slashes folder) (disk w1)) w2, Ok tt) /\
  for_each (kmz_file :: rest) step_kmz w
  = for_each rest step_kmz (set_disk (remove_tree (rstrip_slashes folder) (disk w1)) w2) /\
  log_buffer (set_disk (remove_tree (rstrip_slashes folder) (disk w1)) w2) = log_buffer w /\
  (forall p, within (rstrip_slashes folder) p = true ->
     lookup p (disk (set_disk (remove_tree (rstrip_slashes folder) (disk w1)) w2)) = None) /\
  (forall p, startswith (OUTPUT_FOLDER w) p = true ->
     lookup p (disk (set_disk (remove_tree (rstrip_slashes folder) (disk w1)) w2))
     = lookup p (disk w)).
Proof.
  intros Hk Hkmz Hunpack Hconv Hlog2.
  destruct (found_and_unpacked_frame _ _ _ _ Hk Hunpack)
    as (Hs & Hlog & Hdir & Hin & Hframe).
  assert (Hstep : step_kmz kmz_file w
                  = (set_disk (remove_tree (rstrip_slashes folder) (disk w1)) w2, Ok tt)).
  { now rewrite (step_kmz_unfold _ _ _ _ Hkmz Hunpack). }
  split; [exact Hstep|]. split.
  { cbn [for_each]. unfold bind at 1. now rewrite Hstep. }
  split.
  { cbn [log_buffer set_disk]. congruence. }
  split.
  { intros p Hp. cbn [disk set_disk]. now apply lookup_remove_tree_within. }
  intros p Hp. cbn [disk set_disk].
  pose proof (output_outside_temp w p Hp) as Hout.
  rewrite (lookup_remove_tree_outside (TEMP_FOLDER w)).
  - now apply Hframe.
  - apply rstrip_keeps_prefix; [apply rstrip_TEMP_FOLDER | exact Hin].
  - exact Hout.
Qed.

(** X3. Take an overlay archive in [temp_extract] that holds plain files
    at its top level, whose name ends in [.kmz] and gives its extraction
    folder a name of its own, and that unpacks.  If no [doc.kml] is in the
    extraction folder then, the archive is passed over: the step completes
    and the loop goes on with the next item, the console says that no
    document was found, the extraction folder is removed, nothing is logged
    and nothing in the output folder is created or changed. *)
Theorem archive_without_document_is_skipped :
  forall (kmz_file : string) (rest : list string) (w w1 : world) (folder : string),
    file_name kmz_file = true ->
    endswith (lower kmz_file) ".kmz" = true ->
    proper_stem kmz_file = true ->
    plain_archive kmz_file w = true ->
    (print (FoundInTemp kmz_file) ;; unpack_kmz kmz_file) w = (w1, Ok folder) ->
    path_exists (path_join folder "doc.kml") (disk w1) = false ->
    exists w' : world,
      step_kmz kmz_file w = (w', Ok tt) /\
      for_each (kmz_file :: rest) step_kmz w = for_each rest step_kmz w' /\
      console w' = (console w1 ++ [NoKmlFile kmz_file])%list /\
      log_buffer w' = log_buffer w /\
      (forall p, within (rstrip_slashes folder) p = true -> lookup p (disk w') = None) /\
      (forall p, startswith (OUTPUT_FOLDER w) p = true ->
         lookup p (disk w') = lookup p (disk w)).
Proof.
  intros kmz_file rest w w1 folder Hk Hkmz _ _ Hunpack Hmiss.
  destruct (found_and_unpacked_frame _ _ _ _ Hk Hunpack) as (_ & _ & Hdir & _ & _).
  assert (Hconv : convert_kmz kmz_file folder w1
                  = (set_disk (remove_tree (rstrip_slashes folder) (disk w1))
                       (fst (print (NoKmlFile kmz_file) w1)), Ok tt)).
  { unfold convert_kmz. unfold bind at 1 2. cbn [get_world os_path_exists].
    rewrite Hmiss. cbn [negb]. unfold bind. cbn [print fst].
    now rewrite shutil_rmtree_dir. }
  destruct (passed_over kmz_file rest w w1 _ folder Hk Hkmz Hunpack Hconv eq_refl)
    as (H1 & H2 & H3 & H4 & H5).
  eexists. split; [exact H1|]. split; [exact H2|]. split; [reflexivity|].
  split; [exact H3|]. split; [exact H4 | exact H5].
Qed.

(** Two unpacked bundle members, the first without a document. *)
Lemma archive_without_document_is_skipped_witness :
  exists w' : world,
    step_kmz "a.kmz" (scratch_world [("a.kmz", undocumented_kmz); ("b.kmz", sample_kmz)])
    = (w', Ok tt) /\
    for_each ["a.kmz"; "b.kmz"] step_kmz
      (scratch_world [("a.kmz", undocumented_kmz); ("b.kmz", sample_kmz)])
    = for_each ["b.kmz"] step_kmz w' /\
    console w'
    = (console (fst ((print (FoundInTemp "a.kmz") ;; unpack_kmz "a.kmz")
                       (scratch_world [("a.kmz", undocumented_kmz); ("b.kmz", sample_kmz)])))
       ++ [NoKmlFile "a.kmz"])%list /\
    log_buffer w'
    = log_buffer (scratch_world [("a.kmz", undocumented_kmz); ("b.kmz", sample_kmz)]) /\
    (forall p, within (rstrip_slashes "/work/temp_extract/a") p = true ->
       lookup p (disk w') = None) /\
    (forall p,
       startswith
         (OUTPUT_FOLDER (scratch_world [("a.kmz", undocumented_kmz); ("b.kmz", sample_kmz)])) p
       = true ->
       lookup p (disk w')
       = lookup p (disk (scratch_world [("a.kmz", undocumented_kmz); ("b.kmz", sample_kmz)]))).
Proof.
  apply (archive_without_document_is_skipped "a.kmz" ["b.kmz"]
           (scratch_world [("a.kmz", undocumented_kmz); ("b.kmz", sample_kmz)])
           (fst ((print (FoundInTemp "a.kmz") ;; unpack_kmz "a.kmz")
                   (scratch_world [("a.kmz", undocumented_kmz); ("b.kmz", sample_kmz)])))
           "/work/temp_extract/a");
    reflexivity.
Defined.

(** [parse_kml] on a document without ground overlay. *)
Lemma parse_kml_no_overlay (kml_path : string) (root name_el : Element) (w : world) :
  ET_parse kml_path w = (w, Ok root) ->
  find_desc (kml "name") root = Some name_el ->
  find_desc (kml "GroundOverlay") root = None ->
  parse_kml kml_path w
  = (fst (print (NoGroundOverlay kml_path) w), Ok (None, None, None)).
Proof.
  intros Hp Hname Hov.
  unfold parse_kml, bind.
  rewrite Hp, Hname, Hov.
  reflexivity.
Qed.

(** X4. Take an overlay archive in [temp_extract] that holds plain files
    at its top level, whose name ends in [.kmz] and gives its extraction
    folder a name of its own, and that unpacks.  If [ET.parse] returns a
    tree for its [doc.kml] in which the script finds a name element but no
    ground overlay, the archive is passed over: [parse_kml] reports it and
    returns three times [None], the step completes and the loop goes on with
    the next item, the extraction folder is removed, nothing is logged and
    nothing in the output folder is created or changed. *)
Theorem archive_without_overlay_is_skipped :
  forall (kmz_file : string) (rest : list string) (w w1 : world)
         (folder : string) (root name_el : Element),
    file_name kmz_file = true ->
    endswith (lower kmz_file) ".kmz" = true ->
    proper_stem kmz_file = true ->
    plain_archive kmz_file w = true ->
    (print (FoundInTemp kmz_file) ;; unpack_kmz kmz_file) w = (w1, Ok folder) ->
    snd (ET_parse (path_join folder "doc.kml") w1) = Ok root ->
    find_desc (kml "name") root = Some name_el ->
    find_desc (kml "GroundOverlay") root = None ->
    exists w' : world,
      step_kmz kmz_file w = (w', Ok tt) /\
      for_each (kmz_file :: rest) step_kmz w = for_each rest step_kmz w' /\
      console w' = (console w1 ++ [NoGroundOverlay (path_join folder "doc.kml");
                                   SkippingMissingData kmz_file])%list /\
      log_buffer w' = log_buffer w /\
      (forall p, within (rstrip_slashes folder) p = true -> lookup p (disk w') = None) /\
      (forall p, startswith (OUTPUT_FOLDER w) p = true ->
         lookup p (disk w') = lookup p (disk w)).
Proof.
  intros kmz_file rest w w1 folder root name_el
         Hk Hkmz _ _ Hunpack Hparse Hname Hov.
  destruct (ET_parse_ok _ _ _ Hparse) as [Htree Hdoc].
  destruct (found_and_unpacked_frame _ _ _ _ Hk Hunpack) as (_ & _ & Hdir & _ & _).
  pose proof (convert_kmz_skips kmz_file folder w1 _ None None None Hdir Hdoc
                (parse_kml_no_overlay _ _ _ _ Htree Hname Hov) eq_refl) as Hconv.
  destruct (passed_over kmz_file rest w w1 _ folder Hk Hkmz Hunpack Hconv eq_refl)
    as (H1 & H2 & H3 & H4 & H5).
  eexists. split; [exact H1|]. split; [exact H2|]. split.
  { cbn. now rewrite <- app_assoc. }
  split; [exact H3|]. split; [exact H4 | exact H5].
Qed.

(** Two unpacked bundle members, the first without ground overlay. *)
Lemma archive_without_overlay_is_skipped_witness :
  exists w' : world,
    step_kmz "a.kmz" (scratch_world [("a.kmz", kmz_of no_overlay_kml); ("b.kmz", sample_kmz)])
    = (w', Ok tt) /\
    for_each ["a.kmz"; "b.kmz"] step_kmz
      (scratch_world [("a.kmz", kmz_of no_overlay_kml); ("b.kmz", sample_kmz)])
    = for_each ["b.kmz"] step_kmz w' /\
    console w'
    = (console (fst ((print (FoundInTemp "a.kmz") ;; unpack_kmz "a.kmz")
                       (scratch_world [("a.kmz", kmz_of no_overlay_kml); ("b.kmz", sample_kmz)])))
       ++ [NoGroundOverlay (path_join "/work/temp_extract/a" "doc.kml");
           SkippingMissingData "a.kmz"])%list /\
    log_buffer w'
    = log_buffer (scratch_world [("a.kmz", kmz_of no_overlay_kml); ("b.kmz", sample_kmz)]) /\
    (forall p, within (rstrip_slashes "/work/temp_extract/a") p = true ->
       lookup p (disk w') = None) /\
    (forall p,
       startswith
         (OUTPUT_FOLDER (scratch_world [("a.kmz", kmz_of no_overlay_kml); ("b.kmz", sample_kmz)])) p
       = true ->
       lookup p (disk w')
       = lookup p (disk (scratch_world [("a.kmz", kmz_of no_overlay_kml); ("b.kmz", sample_kmz)]))).
Proof.
  apply (archive_without_overlay_is_skipped "a.kmz" ["b.kmz"]
           (scratch_world [("a.kmz", kmz_of no_overlay_kml); ("b.kmz", sample_kmz)])
           (fst ((print (FoundInTemp "a.kmz") ;; unpack_kmz "a.kmz")
                   (scratch_world [("a.kmz", kmz_of no_overlay_kml); ("b.kmz", sample_kmz)])))
           "/work/temp_extract/a" no_overlay_tree (leaf "name" "Topo A"));
    reflexivity.
Defined.

(** [parse_kml] on a document that has everything the script reads. *)
Lemma parse_kml_complete (kml_path href : string)
  (root name_el overlay href_el latlonbox north south east west : Element) (w : world) :
  ET_parse kml_path w = (w, Ok root) ->
  find_desc (kml "name") root = Some name_el ->
  find_desc (kml "GroundOverlay") root = Some overlay ->
  find_desc_child (kml "Icon") (kml "href") overlay = Some href_el ->
  text_of href_el = Some href ->
  path_exists (path_join (dirname kml_path) href) (disk w) = true ->
  find_desc (kml "LatLonBox") overlay = Some latlonbox ->
  find_child (kml "north") latlonbox = Some north ->
  find_child (kml "south") latlonbox = Some south ->
  find_child (kml "east") latlonbox = Some east ->
  find_child (kml "west") latlonbox = Some west ->
  parse_kml kml_path w
  = (w, Ok (text_of name_el, Some href,
            Some (text_of north, text_of south, text_of east, text_of west))).
Proof.
  intros Hp Hname Hov Hhref Htext Hthere Hbox Hn Hs He Hw.
  unfold parse_kml, bind.
  rewrite Hp, Hname, Hov.
  cbv beta iota delta [text_attr ret].
  rewrite Hhref. cbv beta iota. rewrite Htext.
  cbv beta iota delta [os_path_exists]. rewrite Hthere.
  cbn [negb]. rewrite Hbox, Hn, Hs, He, Hw. reflexivity.
Qed.

(** X5. Take an overlay archive in [temp_extract] that holds plain files
    at its top level, whose name ends in [.kmz] and gives its extraction
    folder a name of its own, and that unpacks.  If [ET.parse] returns a
    tree for its [doc.kml] in which the script finds everything it reads (a
    ground overlay, an [Icon/href] whose text is one plain name, with a file
    of that name in the extraction folder, and a bounding box with its four
    edges) but the name element has no text, the archive is passed over as
    lacking required data: [parse_kml] returns [None] for the name, the
    guard of the loop takes it for missing, the step completes and the loop
    goes on, the extraction folder is removed, nothing is logged and nothing
    in the output folder is created or changed. *)
Theorem empty_document_name_is_skipped :
  forall (kmz_file : string) (rest : list string) (w w1 : world)
         (folder href : string)
         (root name_el overlay href_el latlonbox north south east west : Element),
    file_name kmz_file = true ->
    endswith (lower kmz_file) ".kmz" = true ->
    proper_stem kmz_file = true ->
    plain_archive kmz_file w = true ->
    (print (FoundInTemp kmz_file) ;; unpack_kmz kmz_file) w = (w1, Ok folder) ->
    snd (ET_parse (path_join folder "doc.kml") w1) = Ok root ->
    find_desc (kml "name") root = Some name_el ->
    truthy (text_of name_el) = false ->
    find_desc (kml "GroundOverlay") root = Some overlay ->
    find_desc_child (kml "Icon") (kml "href") overlay = Some href_el ->
    text_of href_el = Some href ->
    plain_name href = true ->
    path_exists (path_join (dirname (path_join folder "doc.kml")) href) (disk w1) = true ->
    find_desc (kml "LatLonBox") overlay = Some latlonbox ->
    find_child (kml "north") latlonbox = Some north ->
    find_child (kml "south") latlonbox = Some south ->
    find_child (kml "east") latlonbox = Some east ->
    find_child (kml "west") latlonbox = Some west ->
    exists w' : world,
      step_kmz kmz_file w = (w', Ok tt) /\
      for_each (kmz_file :: rest) step_kmz w = for_each rest step_kmz w' /\
      console w' = (console w1 ++ [SkippingMissingData kmz_file])%list /\
      log_buffer w' = log_buffer w /\
      (forall p, within (rstrip_slashes folder) p = true -> lookup p (disk w') = None) /\
      (forall p, startswith (OUTPUT_FOLDER w) p = true ->
         lookup p (disk w') = lookup p (disk w)).
Proof.
  intros kmz_file rest w w1 folder href
         root name_el overlay href_el latlonbox north south east west
         Hk Hkmz _ _ Hunpack Hparse Hname Hempty Hov Hhref Htext _ Hthere Hbox Hn Hs He Hw.
  destruct (ET_parse_ok _ _ _ Hparse) as [Htree Hdoc].
  destruct (found_and_unpacked_frame _ _ _ _ Hk Hunpack) as (_ & _ & Hdir & _ & _).
  assert (Hfalsy : negb (truthy (text_of name_el)) || negb (truthy (Some href)) = true).
  { now rewrite Hempty. }
  pose proof (convert_kmz_skips kmz_file folder w1 _ _ _ _ Hdir Hdoc
                (parse_kml_complete _ _ _ _ _ _ _ _ _ _ _ _ Htree Hname Hov Hhref
                   Htext Hthere Hbox Hn Hs He Hw) Hfalsy) as Hconv.
  destruct (passed_over kmz_file rest w w1 _ folder Hk Hkmz Hunpack Hconv eq_refl)
    as (H1 & H2 & H3 & H4 & H5).
  eexists. split; [exact H1|]. split; [exact H2|]. split; [reflexivity|].
  split; [exact H3|]. split; [exact H4 | exact H5].
Qed.

(** Two unpacked bundle members, the first with an empty name element. *)
Lemma empty_document_name_is_skipped_witness :
  exists w' : world,
    step_kmz "a.kmz" (scratch_world [("a.kmz", kmz_of empty_name_kml); ("b.kmz", sample_kmz)])
    = (w', Ok tt) /\
    for_each ["a.kmz"; "b.kmz"] step_kmz
      (scratch_world [("a.kmz", kmz_of empty_name_kml); ("b.kmz", sample_kmz)])
    = for_each ["b.kmz"] step_kmz w' /\
    console w'
    = (console (fst ((print (FoundInTemp "a.kmz") ;; unpack_kmz "a.kmz")
                       (scratch_world [("a.kmz", kmz_of empty_name_kml); ("b.kmz", sample_kmz)])))
       ++ [SkippingMissingData "a.kmz"])%list /\
    log_buffer w'
    = log_buffer (scratch_world [("a.kmz", kmz_of empty_name_kml); ("b.kmz", sample_kmz)]) /\
    (forall p, within (rstrip_slashes "/work/temp_extract/a") p = true ->
       lookup p (disk w') = None) /\
    (forall p,
       startswith
         (OUTPUT_FOLDER (scratch_world [("a.kmz", kmz_of empty_name_kml); ("b.kmz", sample_kmz)])) p
       = true ->
       lookup p (disk w')
       = lookup p (disk (scratch_world [("a.kmz", kmz_of empty_name_kml); ("b.kmz", sample_kmz)]))).
Proof.
  apply (empty_document_name_is_skipped "a.kmz" ["b.kmz"]
           (scratch_world [("a.kmz", kmz_of empty_name_kml); ("b.kmz", sample_kmz)])
           (fst ((print (FoundInTemp "a.kmz") ;; unpack_kmz "a.kmz")
                   (scratch_world [("a.kmz", kmz_of empty_name_kml); ("b.kmz", sample_kmz)])))
           "/work/temp_extract/a" "overlay.png"
           empty_name_tree (Elem (kml "name") None []) plain_overlay_tree
           (leaf "href" "overlay.png") box_tree
           (leaf "north" "45.0") (leaf "south" "44.0") (leaf "east" "-120.0")
           (leaf "west" "-121.0"));
    reflexivity.
Defined.

(* ===================================================================== *)
(** ** The moves the script makes on the disk *)
(* ===================================================================== *)

Lemma within_refl (q : string) : within q q = true.
Proof. unfold within. now rewrite String.eqb_refl. Qed.

Lemma within_trans (t q p : string) :
  within t q = true -> within q p = true -> within t p = true.
Proof.
  unfold within, below. intros Htq Hqp.
  apply orb_true_iff in Hqp as [E|Hqp].
  - apply String.eqb_eq in E. now subst p.
  - apply orb_true_iff in Htq as [E|Htq].
    + apply String.eqb_eq in E. subst q. rewrite Hqp. apply orb_true_r.
    + rewrite (startswith_trans _ _ _ Htq (startswith_app_l _ _ _ Hqp)).
      apply orb_true_r.
Qed.

Lemma startswith_longer (a : string) (c : ascii) (b : string) :
  startswith (a ++ String c b) a = false.
Proof.
  induction a as [|x a IH]; [reflexivity|].
  simpl. now rewrite Ascii.eqb_refl.
Qed.

Lemma below_irrefl (q : string) : below q q = false.
Proof. apply startswith_longer. Qed.

Lemma below_trans (t q p : string) :
  below t q = true -> within q p = true -> below t p = true.
Proof.
  intros Htq Hqp. unfold within in Hqp.
  apply orb_true_iff in Hqp as [E|Hqp].
  - apply String.eqb_eq in E. now subst p.
  - unfold below in *.
    exact (startswith_trans _ _ _ Htq (startswith_app_l _ _ _ Hqp)).
Qed.

Lemma rstrip_cons_head (c : ascii) (r : string) :
  rstrip_slashes (String c r) = "" \/
  exists s, rstrip_slashes (String c r) = String c s.
Proof.
  cbn [rstrip_slashes].
  destruct (rstrip_slashes r); [destruct (is_slash c)|]; eauto.
Qed.

Lemma rstrip_within (t p : string) :
  rstrip_slashes t = t -> within t p = true -> within t (rstrip_slashes p) = true.
Proof.
  intros Ht H. unfold within in H. apply orb_true_iff in H as [E|H].
  - apply String.eqb_eq in E. subst p. rewrite Ht. apply within_refl.
  - unfold below in H. apply startswith_split in H as [r ->].
    rewrite append_assoc, rstrip_slashes_app. cbn [append].
    destruct (rstrip_cons_head "/" r) as [E|[s E]]; rewrite E.
    + rewrite Ht. apply within_refl.
    + apply below_within. unfold below.
      now rewrite (startswith_app_cancel t "/" (String "/" s)).
Qed.

(** A relative name joined to a folder inside [t] lies strictly below [t]. *)
Lemma join_below (t dest n : string) :
  dir_prefix t = t ++ "/" -> within t dest = true -> startswith "/" n = false ->
  below t (path_join dest n) = true.
Proof.
  intros Ht Hd Hn. rewrite path_join_relative by exact Hn.
  unfold within in Hd. apply orb_true_iff in Hd as [E|Hd].
  - apply String.eqb_eq in E. subst dest. rewrite Ht. apply startswith_refl_app.
  - unfold below in *.
    apply (startswith_trans _ dest); [exact Hd|].
    apply dir_prefix_startswith.
    apply (startswith_nonempty (t ++ "/")); [|exact Hd].
    destruct t; discriminate.
Qed.

Lemma dir_prefix_TEMP_FOLDER (w : world) :
  dir_prefix (TEMP_FOLDER w) = TEMP_FOLDER w ++ "/".
Proof. rewrite TEMP_FOLDER_eq, dir_prefix_app_cons. reflexivity. Qed.

Lemma dir_prefix_OUTPUT_FOLDER (w : world) :
  dir_prefix (OUTPUT_FOLDER w) = OUTPUT_FOLDER w ++ "/".
Proof. rewrite OUTPUT_FOLDER_eq, dir_prefix_app_cons. reflexivity. Qed.

(** The two folders lie side by side. *)
Lemma temp_not_in_output (w : world) (p : string) :
  within (TEMP_FOLDER w) p = true -> within (OUTPUT_FOLDER w) p = false.
Proof.
  intros H. destruct (within (OUTPUT_FOLDER w) p) eqn:E; [|reflexivity].
  assert (Ht : startswith (TEMP_FOLDER w) p = true).
  { unfold within in H. apply orb_true_iff in H as [H|H].
    - apply String.eqb_eq in H. subst p. apply startswith_refl.
    - exact (startswith_app_l _ _ _ H). }
  assert (Ho : startswith (OUTPUT_FOLDER w) p = true).
  { unfold within in E. apply orb_true_iff in E as [E|E].
    - apply String.eqb_eq in E. subst p. apply startswith_refl.
    - exact (startswith_app_l _ _ _ E). }
  rewrite (output_outside_temp w p Ho) in Ht. discriminate.
Qed.

Lemma output_not_in_temp (w : world) (p : string) :
  within (OUTPUT_FOLDER w) p = true -> within (TEMP_FOLDER w) p = false.
Proof.
  intros H. destruct (within (TEMP_FOLDER w) p) eqn:E; [|reflexivity].
  rewrite (temp_not_in_output w p E) in H. discriminate.
Qed.

(** *** What a sequence of moves leaves alone *)

Lemma filter_insert_out (g : string -> bool) (k : string) (v : node) (d : store) :
  g k = false -> filter (on g) (insert k v d) = filter (on g) d.
Proof.
  intros Hk. unfold on. induction d as [|[k' x] d IH].
  - simpl. now rewrite Hk.
  - simpl. destruct (String.eqb k' k) eqn:E.
    + apply String.eqb_eq in E. subst k'. simpl. now rewrite Hk.
    + simpl. now rewrite IH.
Qed.

Lemma filter_filter_sub (g g0 : string -> bool) (d : store) :
  (forall p, g p = true -> g0 p = true) ->
  filter (on g) (filter (on g0) d) = filter (on g) d.
Proof.
  intros Hsub. unfold on. induction d as [|[k x] d IH]; [reflexivity|].
  simpl. destruct (g0 k) eqn:E0.
  - simpl. destruct (g k); now rewrite IH.
  - destruct (g k) eqn:E; [|exact IH].
    rewrite (Hsub _ E) in E0. discriminate.
Qed.

Lemma disk_moves_trans (files dirs : string -> bool) (d1 d2 d3 : store) :
  disk_moves files dirs d1 d2 -> disk_moves files dirs d2 d3 ->
  disk_moves files dirs d1 d3.
Proof.
  intros H12 H23. induction H23 as [|d2 d3 d4 _ IH Hm]; [exact H12|].
  exact (moves_more _ _ _ _ _ (IH H12) Hm).
Qed.

Lemma disk_moves_one (files dirs : string -> bool) (d d' : store) :
  disk_move files dirs d d' -> disk_moves files dirs d d'.
Proof. intros H. exact (moves_more _ _ _ _ _ (moves_done _ _ d) H). Qed.

(** The entries at paths where nothing may be written or deleted stay as
    they are, in the order they are in. *)
Lemma disk_moves_keep (files dirs g : string -> bool) (d d' : store) :
  (forall p, g p = true -> files p = false /\ dirs p = false) ->
  disk_moves files dirs d d' ->
  filter (on g) d' = filter (on g) d.
Proof.
  intros Hg H. induction H as [|d1 d2 d3 _ IH Hm]; [reflexivity|].
  rewrite <- IH. destruct Hm as [k f d Hk|k d Hk|g0 d Hg0].
  - apply filter_insert_out. destruct (g k) eqn:E; [|reflexivity].
    destruct (Hg _ E) as [Hf _]. congruence.
  - apply filter_insert_out. destruct (g k) eqn:E; [|reflexivity].
    destruct (Hg _ E) as [_ Hd]. congruence.
  - apply filter_filter_sub. intros p Hp.
    destruct (g0 p) eqn:E; [reflexivity|].
    destruct (Hg _ Hp) as [_ Hd]. rewrite (Hg0 _ E) in Hd. discriminate.
Qed.

Lemma disk_moves_keep_lookup (files dirs : string -> bool) (d d' : store) (p : string) :
  files p = false -> dirs p = false ->
  disk_moves files dirs d d' ->
  lookup p d' = lookup p d.
Proof.
  intros Hf Hd H.
  pose proof (disk_moves_keep files dirs (fun k => negb (files k) && negb (dirs k)) d d')
    as Hkeep.
  rewrite <- (lookup_filter_keep (fun k => negb (files k) && negb (dirs k)) d' p),
          <- (lookup_filter_keep (fun k => negb (files k) && negb (dirs k)) d p)
    by now rewrite Hf, Hd.
  change (fun kv : string * node => negb (files (fst kv)) && negb (dirs (fst kv)))
    with (on (fun k => negb (files k) && negb (dirs k))).
  rewrite Hkeep; [reflexivity| |exact H].
  intros k Hk. apply andb_true_iff in Hk as [A B].
  now apply negb_true_iff in A, B.
Qed.

(** Where no regular file may be written, none appears. *)
Lemma disk_moves_no_file (files dirs : string -> bool) (d d' : store) (x : string) :
  files x = false ->
  disk_moves files dirs d d' ->
  (forall f, lookup x d <> Some (File f)) ->
  forall f, lookup x d' <> Some (File f).
Proof.
  intros Hx H Hd. induction H as [|d1 d2 d3 _ IH Hm]; [exact Hd|].
  specialize (IH Hd). destruct Hm as [k f d Hk|k d Hk|g0 d Hg0]; intros f'.
  - rewrite lookup_insert_ne; [apply IH|]. intros ->. congruence.
  - destruct (String.eqb k x) eqn:E.
    + apply String.eqb_eq in E. subst k. rewrite lookup_insert. discriminate.
    + apply String.eqb_neq in E. rewrite lookup_insert_ne by exact E. apply IH.
  - rewrite (lookup_filter g0). destruct (g0 x); [apply IH | discriminate].
Qed.

(** *** The names a listing gives *)

Lemma file_name_first_component (s : string) : file_name (first_component s) = true.
Proof.
  unfold file_name. induction s as [|c s IH]; [reflexivity|].
  cbn [first_component]. destruct (is_slash c) eqn:E; [reflexivity|].
  cbn [all_chars]. rewrite IH. unfold not_slash. now rewrite E.
Qed.

Lemma In_dedup (x : string) (l seen : list string) : In x (dedup seen l) -> In x l.
Proof.
  revert seen. induction l as [|y l IH]; intros seen H; [contradiction|].
  cbn [dedup] in H. destruct (existsb (String.eqb y) seen).
  - right. exact (IH _ H).
  - destruct H as [H|H]; [now left | right; exact (IH _ H)].
Qed.

Lemma children_file_name (p : string) (d : store) (n : string) :
  In n (children p d) -> file_name n = true.
Proof.
  unfold children. intros H. apply In_dedup in H.
  apply in_flat_map in H as ([k v] & _ & H).
  destruct (startswith (rstrip_slashes p ++ "/") (fst (k, v))); [|contradiction].
  destruct H as [<-|[]]. apply file_name_first_component.
Qed.

Lemma os_listdir_names (p : string) (w w' : world) (names : list string) :
  os_listdir p w = (w', Ok names) ->
  forall n, In n names -> file_name n = true.
Proof.
  unfold os_listdir. intros H n Hn.
  destruct (isdir p (disk w)).
  - injection H as <- <-. exact (children_file_name _ _ _ Hn).
  - destruct (isfile p (disk w)); discriminate.
Qed.

(** *** Computations that keep to given moves *)

Section Moving.

Variables files dirs : string -> bool.
Variable home : world.

Lemma moving_refl (w : world) : moving files dirs home w w.
Proof. intros H. split; [exact H | apply moves_done]. Qed.

Lemma moving_trans (w1 w2 w3 : world) :
  moving files dirs home w1 w2 -> moving files dirs home w2 w3 ->
  moving files dirs home w1 w3.
Proof.
  intros H12 H23 H. destruct (H12 H) as [H2 M12]. destruct (H23 H2) as [H3 M23].
  split; [exact H3 | exact (disk_moves_trans _ _ _ _ _ M12 M23)].
Qed.

Lemma moving_move (w : world) (d' : store) :
  disk_move files dirs (disk w) d' -> moving files dirs home w (set_disk d' w).
Proof. intros Hm H. split; [exact H | now apply disk_moves_one]. Qed.

Lemma mv_ret {A : Type} (a : A) : respects (moving files dirs home) (ret a).
Proof. apply respects_ret, moving_refl. Qed.

Lemma mv_raise {A : Type} (e : exn) : respects (moving files dirs home) (@raise A e).
Proof. apply respects_raise, moving_refl. Qed.

Lemma mv_bind {A B : Type} (c : M A) (k : A -> M B) :
  respects (moving files dirs home) c ->
  (forall a, respects (moving files dirs home) (k a)) ->
  respects (moving files dirs home) (x <- c ;; k x).
Proof. apply respects_bind, moving_trans. Qed.

(** A [bind] whose second part relies on what the first part returned. *)
Lemma mv_bind_post {A B : Type} (P : A -> Prop) (c : M A) (k : A -> M B) :
  respects (moving files dirs home) c ->
  (forall w w' a, SCRIPT_FOLDER w = SCRIPT_FOLDER home -> c w = (w', Ok a) -> P a) ->
  (forall a, P a -> respects (moving files dirs home) (k a)) ->
  respects (moving files dirs home) (x <- c ;; k x).
Proof.
  intros Hc HP Hk w w' r H Hhome. unfold bind in H.
  destruct (c w) as [w1 [a|e]] eqn:E.
  - exact (moving_trans _ _ _ (Hc _ _ _ E) (Hk a (HP _ _ _ Hhome E) _ _ _ H) Hhome).
  - injection H as <- <-. exact (Hc _ _ _ E Hhome).
Qed.

Lemma mv_for_each {A : Type} (l : list A) (body : A -> M unit) :
  (forall x, In x l -> respects (moving files dirs home) (body x)) ->
  respects (moving files dirs home) (for_each l body).
Proof.
  induction l as [|x l IH]; intros Hb.
  - apply mv_ret.
  - cbn [for_each]. apply mv_bind; [apply Hb; now left | intros _].
    apply IH. intros y Hy. apply Hb. now right.
Qed.

Lemma mv_print (m : msg) : respects (moving files dirs home) (print m).
Proof.
  intros w w' r H. unfold print in H. injection H as <- <-.
  intros Hhome. split; [exact Hhome | apply moves_done].
Qed.

Lemma mv_log_write (s : string) : respects (moving files dirs home) (log_write s).
Proof.
  intros w w' r H. unfold log_write in H. injection H as <- <-.
  intros Hhome. split; [exact Hhome | apply moves_done].
Qed.

Lemma mv_os_path_exists (p : string) :
  respects (moving files dirs home) (os_path_exists p).
Proof. apply respects_os_path_exists, moving_refl. Qed.

Lemma mv_os_listdir (p : string) : respects (moving files dirs home) (os_listdir p).
Proof. apply respects_os_listdir, moving_refl. Qed.

Lemma mv_zip_open (p : string) : respects (moving files dirs home) (zip_open p).
Proof. apply respects_zip_open; [apply moving_refl | apply moving_trans]. Qed.

Lemma mv_parse_kml (kml_path : string) :
  respects (moving files dirs home) (parse_kml kml_path).
Proof.
  apply respects_parse_kml; [apply moving_refl | apply moving_trans|].
  intros w m _. exact (mv_print m w _ (Ok tt) eq_refl).
Qed.

Lemma mv_os_makedirs (p : string) :
  dirs (rstrip_slashes p) = true ->
  respects (moving files dirs home) (os_makedirs p).
Proof.
  intros Hp w w' r H. unfold os_makedirs in H.
  outcomes H; try apply moving_refl.
  apply moving_move. now apply move_dir.
Qed.

Lemma mv_shutil_rmtree (p : string) :
  (forall x, within (rstrip_slashes p) x = true -> dirs x = true) ->
  respects (moving files dirs home) (shutil_rmtree p).
Proof.
  intros Hp w w' r H. unfold shutil_rmtree in H.
  outcomes H; try apply moving_refl.
  apply moving_move.
  apply (move_delete _ _ (fun k => negb (within (rstrip_slashes p) k))).
  intros x Hx. apply negb_false_iff in Hx. now apply Hp.
Qed.

Lemma mv_write_file (p : string) (f : file) :
  files p = true -> respects (moving files dirs home) (write_file p f).
Proof.
  intros Hp w w' r H. unfold write_file in H.
  outcomes H; try apply moving_refl.
  apply moving_move. now apply move_file.
Qed.

Lemma mv_zip_write (p src arcname : string) :
  files p = true -> respects (moving files dirs home) (zip_write p src arcname).
Proof.
  intros Hp w w' r H. unfold zip_write in H.
  outcomes H; try apply moving_refl; apply moving_move; now apply move_file.
Qed.

End Moving.

(** *** The parts of [process_files] keep to their moves *)

(** Reads the folders off the world the script finds itself in. *)
Ltac at_home home H Hhome :=
  unfold bind at 1 in H; cbn [get_world] in H;
  unfold TEMP_FOLDER, OUTPUT_FOLDER in H; rewrite ?Hhome in H;
  fold (TEMP_FOLDER home) in H; fold (OUTPUT_FOLDER home) in H.

(** The parts up to one step of the second loop write regular files below
    the scratch folder and at the path of the output archive; [files] says
    which paths these are. *)
Section AtWork.

Variable home : world.
Variable files : string -> bool.
Hypothesis files_temp : forall p, below (TEMP_FOLDER home) p = true -> files p = true.

Local Notation "'at_work'" := (moving files (scratch_area home) home).

Lemma scratch_rmtree (p : string) :
  within (TEMP_FOLDER home) p = true ->
  respects at_work (shutil_rmtree p).
Proof.
  intros Hp. apply mv_shutil_rmtree. intros x Hx.
  apply (within_trans _ (rstrip_slashes p)); [|exact Hx].
  apply rstrip_within; [apply rstrip_TEMP_FOLDER | exact Hp].
Qed.

Lemma scratch_makedirs (p : string) :
  within (TEMP_FOLDER home) p = true ->
  respects at_work (os_makedirs p).
Proof.
  intros Hp. apply mv_os_makedirs.
  apply rstrip_within; [apply rstrip_TEMP_FOLDER | exact Hp].
Qed.

Lemma below_temp_join (dest n : string) :
  within (TEMP_FOLDER home) dest = true -> startswith "/" n = false ->
  below (TEMP_FOLDER home) (path_join dest n) = true.
Proof. apply join_below, dir_prefix_TEMP_FOLDER. Qed.

Lemma aw_extract_member (dest : string) (m : string * file) :
  within (TEMP_FOLDER home) dest = true ->
  respects at_work (extract_member dest m).
Proof.
  intros Hd. unfold extract_member.
  pose proof (below_temp_join dest _ Hd (lstrip_not_absolute (fst m))) as Hb.
  destruct (endswith (fst m) "/").
  - apply scratch_makedirs. now apply below_within.
  - intros w w' r H. outcomes H; try apply moving_refl.
    apply moving_move, move_file. now apply files_temp.
Qed.

Lemma aw_extractall (members : list (string * file)) (dest : string) :
  within (TEMP_FOLDER home) dest = true ->
  respects at_work (extractall members dest).
Proof.
  intros Hd. apply mv_for_each. intros m _. now apply aw_extract_member.
Qed.

Lemma aw_create_clean_kml (output_kml : string)
  (doc_name image_href : option string) (coordinates : option coords) :
  files output_kml = true ->
  respects at_work (create_clean_kml output_kml doc_name image_href coordinates).
Proof.
  intros Hp. unfold create_clean_kml.
  destruct coordinates; [now apply mv_write_file | apply mv_raise].
Qed.

Lemma aw_repackage_kmz (temp_folder output_kmz : string) (image_file : option string) :
  files output_kmz = true ->
  respects at_work (repackage_kmz temp_folder output_kmz image_file).
Proof.
  intros Hp. unfold repackage_kmz, zip_create.
  apply mv_bind; [now apply mv_write_file | intros _].
  apply mv_bind; [now apply mv_zip_write | intros _].
  destruct image_file; [now apply mv_zip_write | apply mv_raise].
Qed.

Lemma aw_extract_zip (zip_path : string) :
  respects at_work (extract_zip zip_path).
Proof.
  intros w w' r H Hhome. unfold extract_zip in H. at_home home H Hhome.
  refine ((_ : respects at_work
                 (zip_ref <- zip_open zip_path ;; extractall zip_ref (TEMP_FOLDER home)))
            w w' r H Hhome).
  apply mv_bind; [apply mv_zip_open | intros zip_ref].
  apply aw_extractall, within_refl.
Qed.

Lemma aw_step_zip (zip_file : string) : respects at_work (step_zip zip_file).
Proof.
  intros w w' r H Hhome. unfold step_zip in H. at_home home H Hhome.
  destruct (endswith (lower zip_file) ".zip").
  - refine ((_ : respects at_work
                   (print (ExtractingZip zip_file) ;;
                    extract_zip (path_join (SCRIPT_FOLDER home) zip_file)))
              w w' r H Hhome).
    apply mv_bind; [apply mv_print | intros _]. apply aw_extract_zip.
  - exact (mv_ret _ _ _ tt w w' r H Hhome).
Qed.

(** The scratch folder of an archive with a plain file name. *)
Lemma extract_folder_below_temp (kmz_file : string) :
  file_name kmz_file = true ->
  below (TEMP_FOLDER home) (path_join (TEMP_FOLDER home) (replace ".kmz" "" kmz_file)) = true.
Proof.
  intros Hk. apply below_temp_join; [apply within_refl|].
  apply file_name_not_absolute. now apply file_name_replace_from.
Qed.

Lemma aw_unpack_kmz (kmz_file : string) :
  file_name kmz_file = true -> respects at_work (unpack_kmz kmz_file).
Proof.
  intros Hk w w' r H Hhome. unfold unpack_kmz in H. at_home home H Hhome.
  pose proof (below_within _ _ (extract_folder_below_temp kmz_file Hk)) as Hin.
  refine ((_ : respects at_work
                 (os_makedirs (path_join (TEMP_FOLDER home) (replace ".kmz" "" kmz_file)) ;;
                  print (Processing kmz_file) ;;
                  extract_kmz (path_join (TEMP_FOLDER home) kmz_file)
                    (path_join (TEMP_FOLDER home) (replace ".kmz" "" kmz_file)) ;;
                  ret (path_join (TEMP_FOLDER home) (replace ".kmz" "" kmz_file))))
            w w' r H Hhome).
  apply mv_bind; [|intros _].
  { now apply scratch_makedirs. }
  apply mv_bind; [apply mv_print | intros _].
  apply mv_bind; [|intros _; apply mv_ret].
  unfold extract_kmz. apply mv_bind; [apply mv_zip_open | intros kmz].
  now apply aw_extractall.
Qed.

Lemma unpack_kmz_folder (kmz_file folder : string) (w w' : world) :
  file_name kmz_file = true ->
  SCRIPT_FOLDER w = SCRIPT_FOLDER home ->
  unpack_kmz kmz_file w = (w', Ok folder) ->
  within (TEMP_FOLDER home) folder = true.
Proof.
  intros Hk Hhome H. apply unpack_kmz_ok in H as (-> & _).
  assert (TEMP_FOLDER w = TEMP_FOLDER home) as ->
    by (unfold TEMP_FOLDER; now rewrite Hhome).
  apply below_within. now apply extract_folder_below_temp.
Qed.

Lemma below_output_join (n : string) :
  startswith "/" n = false ->
  below (OUTPUT_FOLDER home) (path_join (OUTPUT_FOLDER home) n) = true.
Proof.
  intros Hn. apply join_below; [apply dir_prefix_OUTPUT_FOLDER | apply within_refl | exact Hn].
Qed.

Lemma aw_convert_kmz (kmz_file folder : string) :
  within (TEMP_FOLDER home) folder = true ->
  files (path_join (OUTPUT_FOLDER home) kmz_file) = true ->
  respects at_work (convert_kmz kmz_file folder).
Proof.
  intros Hin Hout w w' r H Hhome. unfold convert_kmz in H. at_home home H Hhome.
  assert (Hrm : respects at_work (shutil_rmtree folder)).
  { now apply scratch_rmtree. }
  refine ((_ : respects at_work
     (kml_there <- os_path_exists (path_join folder "doc.kml") ;;
      if negb kml_there then
        print (NoKmlFile kmz_file) ;; shutil_rmtree folder
      else
        parsed <- parse_kml (path_join folder "doc.kml") ;;
        let '(doc_name, image_href, coordinates) := parsed in
        if negb (truthy doc_name) || negb (truthy image_href) then
          print (SkippingMissingData kmz_file) ;; shutil_rmtree folder
        else
          print (Parsed doc_name) ;;
          create_clean_kml (path_join folder "cleaned.kml") doc_name image_href coordinates ;;
          repackage_kmz folder (path_join (OUTPUT_FOLDER home) kmz_file) image_href ;;
          print (Processed kmz_file (path_join (OUTPUT_FOLDER home) kmz_file)) ;;
          log_write (log_line kmz_file (path_join (OUTPUT_FOLDER home) kmz_file)) ;;
          shutil_rmtree folder)) w w' r H Hhome).
  apply mv_bind; [apply mv_os_path_exists | intros kml_there].
  destruct (negb kml_there).
  { apply mv_bind; [apply mv_print | intros _; exact Hrm]. }
  apply mv_bind; [apply mv_parse_kml | intros [[doc_name image_href] coordinates]].
  destruct (negb (truthy doc_name) || negb (truthy image_href)).
  { apply mv_bind; [apply mv_print | intros _; exact Hrm]. }
  apply mv_bind; [apply mv_print | intros _].
  apply mv_bind; [|intros _].
  { apply aw_create_clean_kml, files_temp.
    exact (below_temp_join folder "cleaned.kml" Hin eq_refl). }
  apply mv_bind; [|intros _].
  { now apply aw_repackage_kmz. }
  apply mv_bind; [apply mv_print | intros _].
  apply mv_bind; [apply mv_log_write | intros _; exact Hrm].
Qed.

Lemma aw_step_kmz (kmz_file : string) :
  file_name kmz_file = true ->
  files (path_join (OUTPUT_FOLDER home) kmz_file) = true ->
  respects at_work (step_kmz kmz_file).
Proof.
  intros Hk Hout. unfold step_kmz.
  apply mv_bind; [apply mv_print | intros _].
  destruct (endswith (lower kmz_file) ".kmz"); [|apply mv_ret].
  apply (mv_bind_post _ _ _ (fun folder => within (TEMP_FOLDER home) folder = true)).
  - now apply aw_unpack_kmz.
  - intros w w' folder Hhome H. exact (unpack_kmz_folder _ _ _ _ Hk Hhome H).
  - intros folder Hin. now apply aw_convert_kmz.
Qed.

End AtWork.

(** *** [process_files] as a whole keeps to its moves *)

Section AtWorkAll.

Variable home : world.

Local Notation "'at_work'" := (moving (file_area home) (scratch_area home) home).

Lemma file_area_temp (p : string) :
  below (TEMP_FOLDER home) p = true -> file_area home p = true.
Proof. intros H. unfold file_area. now rewrite H. Qed.

Lemma file_area_output (kmz_file : string) :
  file_name kmz_file = true ->
  file_area home (path_join (OUTPUT_FOLDER home) kmz_file) = true.
Proof.
  intros Hk. unfold file_area.
  rewrite (below_output_join home kmz_file (file_name_not_absolute _ Hk)).
  apply orb_true_r.
Qed.

Lemma aw_with_log_body : respects at_work with_log_body.
Proof.
  intros w w' r H Hhome. unfold with_log_body in H. at_home home H Hhome.
  refine ((_ : respects at_work
     (log_write log_header ;;
      print (LookingIn (SCRIPT_FOLDER home)) ;;
      zips <- os_listdir (SCRIPT_FOLDER home) ;;
      for_each zips step_zip ;;
      print (CheckingIn (TEMP_FOLDER home)) ;;
      kmzs <- os_listdir (TEMP_FOLDER home) ;;
      for_each kmzs step_kmz)) w w' r H Hhome).
  apply mv_bind; [apply mv_log_write | intros _].
  apply mv_bind; [apply mv_print | intros _].
  apply mv_bind; [apply mv_os_listdir | intros zips].
  apply mv_bind; [|intros _].
  { apply mv_for_each. intros z _. apply aw_step_zip, file_area_temp. }
  apply mv_bind; [apply mv_print | intros _].
  apply (mv_bind_post _ _ _ (fun kmzs => forall n, In n kmzs -> file_name n = true)).
  - apply mv_os_listdir.
  - intros v v' kmzs _ Hl. exact (os_listdir_names _ _ _ _ Hl).
  - intros kmzs Hnames. apply mv_for_each. intros k Hin.
    apply aw_step_kmz; [apply file_area_temp | now apply Hnames|].
    apply file_area_output. now apply Hnames.
Qed.

Lemma aw_cleanup : respects at_work cleanup.
Proof.
  intros w w' r H Hhome. unfold cleanup in H. at_home home H Hhome.
  unfold bind at 1 in H. cbn [os_path_exists] in H.
  destruct (path_exists (TEMP_FOLDER home) (disk w)).
  2:{ exact (mv_ret _ _ _ tt w w' r H Hhome). }
  refine ((_ : respects at_work
     ((fun w' =>
         if isdir (TEMP_FOLDER home) (disk w') then
           (set_disk (insert (TEMP_FOLDER home) Dir
                        (filter (fun kv => negb (below (TEMP_FOLDER home) (fst kv)))
                                (disk w'))) w', Ok tt)
         else (w', Ok tt)) ;;
      (fun w' =>
         match shutil_rmtree (TEMP_FOLDER home) w' with
         | (w'', Ok _) => print CleanedUp w''
         | (w'', Raise _) => (w'', Ok tt)
         end))) w w' r H Hhome).
  apply mv_bind; [|intros _].
  - intros v v' r' Hv. destruct (isdir (TEMP_FOLDER home) (disk v)).
    + injection Hv as <- <-. intros Hv. split; [exact Hv|]. cbn [disk set_disk].
      eapply moves_more; [eapply moves_more; [apply moves_done|]|].
      * apply (move_delete _ _ (fun k => negb (below (TEMP_FOLDER home) k))).
        intros p Hp. apply negb_false_iff in Hp. now apply below_within.
      * apply move_dir. apply within_refl.
    + injection Hv as <- <-. apply moving_refl.
  - intros v v' r' Hv.
    assert (Hrm : respects at_work (shutil_rmtree (TEMP_FOLDER home))).
    { apply scratch_rmtree, within_refl. }
    destruct (shutil_rmtree (TEMP_FOLDER home) v) as [v1 [[]|e]] eqn:E.
    + exact (moving_trans _ _ _ _ _ _ (Hrm _ _ _ E) (mv_print _ _ _ _ _ _ _ Hv)).
    + injection Hv as <- <-. exact (Hrm _ _ _ E).
Qed.

Lemma log_path_home (w : world) :
  SCRIPT_FOLDER w = SCRIPT_FOLDER home -> log_path w = log_path home.
Proof. intros H. unfold log_path, OUTPUT_FOLDER. now rewrite H. Qed.

Lemma log_path_file_area : file_area home (log_path home) = true.
Proof.
  unfold file_area, log_path.
  rewrite (below_output_join home "processed_kmz_log.txt" eq_refl). apply orb_true_r.
Qed.

Lemma aw_process_files : respects at_work process_files.
Proof.
  intros w w' r H Hhome. unfold process_files in H.
  rewrite (log_path_home w Hhome) in H.
  destruct (write_file (log_path home) (Data "") (set_log "" w))
    as [w0 [[]|e]] eqn:Eopen.
  - pose proof (mv_write_file (file_area home) (scratch_area home) home _ _ log_path_file_area _ _ _ Eopen) as H0.
    assert (Hhome0 : SCRIPT_FOLDER w0 = SCRIPT_FOLDER home) by (apply H0, Hhome).
    assert (Hclose : forall w1, at_work w1 (close_log w1)).
    { intros w1 H1. split; [exact H1|]. unfold close_log. cbn [disk set_disk].
      apply disk_moves_one, move_file. rewrite (log_path_home w1 H1).
      apply log_path_file_area. }
    destruct (with_log_body w0) as [w1 [[]|e]] eqn:Ebody.
    + pose proof (aw_with_log_body _ _ _ Ebody) as H1.
      pose proof (aw_cleanup _ _ _ H) as H2.
      destruct (H0 Hhome) as [A MA]. destruct (H1 A) as [B MB].
      destruct (Hclose w1 B) as [C MC]. destruct (H2 C) as [D MD].
      split; [exact D|].
      cbn [disk set_log] in MA.
      exact (disk_moves_trans _ _ _ _ _
               (disk_moves_trans _ _ _ _ _ (disk_moves_trans _ _ _ _ _ MA MB) MC) MD).
    + injection H as <- <-.
      pose proof (aw_with_log_body _ _ _ Ebody) as H1.
      destruct (H0 Hhome) as [A MA]. destruct (H1 A) as [B MB].
      destruct (Hclose w1 B) as [C MC].
      split; [exact C|]. cbn [disk set_log] in MA.
      exact (disk_moves_trans _ _ _ _ _ (disk_moves_trans _ _ _ _ _ MA MB) MC).
  - injection H as <- <-.
    destruct (mv_write_file (file_area home) (scratch_area home) home _ _ log_path_file_area _ _ _ Eopen Hhome) as [A MA].
    split; [exact A | exact MA].
Qed.

End AtWorkAll.

(* ===================================================================== *)
(** ** The module-level statements *)
(* ===================================================================== *)

Lemma set_disk_same (w : world) : set_disk (disk w) w = w.
Proof. now destruct w. Qed.

Lemma insert_fresh (k : string) (v : node) (d : store) :
  lookup k d = None -> insert k v d = (d ++ [(k, v)])%list.
Proof.
  induction d as [|[k' x] d IH]; [reflexivity|].
  simpl. destruct (String.eqb k' k); [discriminate|].
  intros H. now rewrite IH.
Qed.

Lemma remove_tree_nothing (q : string) (d : store) :
  lookup q d = None -> has_below q d = false -> remove_tree q d = d.
Proof.
  unfold remove_tree, has_below, within.
  induction d as [|[k x] d IH]; [reflexivity|].
  simpl. destruct (String.eqb k q); [discriminate|].
  intros Hl Hb. apply orb_false_iff in Hb as [Hk Hb].
  rewrite Hk. simpl. now rewrite IH.
Qed.

Lemma has_below_remove_tree (q : string) (d : store) :
  has_below q (remove_tree q d) = false.
Proof.
  unfold has_below, remove_tree, within.
  induction d as [|[k x] d IH]; [reflexivity|].
  simpl. destruct (below q k) eqn:E.
  - rewrite orb_true_r. exact IH.
  - rewrite orb_false_r. destruct (String.eqb k q); simpl; [exact IH|].
    now rewrite E.
Qed.

Lemma lookup_app (p : string) (a b : store) :
  lookup p (a ++ b)%list
  = match lookup p a with Some v => Some v | None => lookup p b end.
Proof.
  induction a as [|[k x] a IH]; [reflexivity|].
  simpl. now destruct (String.eqb k p).
Qed.

(** The first two statements for a folder: whatever is there is removed. *)
Lemma wipe_removes {B : Type} (q : string) (k : M B) (w : world) :
  rstrip_slashes q = q ->
  (forall f, lookup q (disk w) <> Some (File f)) ->
  (there <- os_path_exists q ;;
   (if there then shutil_rmtree q else ret tt) ;; k) w
  = k (set_disk (remove_tree q (disk w)) w).
Proof.
  intros Hq Hnf. unfold bind at 1. cbn [os_path_exists].
  assert (Hfile : isfile q (disk w) = false).
  { unfold isfile. destruct (lookup q (disk w)) as [[f|]|] eqn:E; auto.
    now destruct (Hnf f). }
  unfold path_exists. rewrite Hfile. cbn [orb].
  destruct (isdir q (disk w)) eqn:Edir.
  - unfold bind at 1. unfold shutil_rmtree. rewrite Hq, Edir. reflexivity.
  - unfold bind at 1. cbn [ret].
    unfold isdir in Edir. rewrite Hq in Edir.
    destruct (lookup q (disk w)) as [[f|]|] eqn:E; try discriminate.
    + now destruct (Hnf f).
    + rewrite (remove_tree_nothing _ _ E Edir). now rewrite set_disk_same.
Qed.

(** A regular file in the place of a folder stops the script at once. *)
Lemma wipe_raises {B : Type} (q : string) (k : M B) (w : world) (f : file) :
  rstrip_slashes q = q ->
  lookup q (disk w) = Some (File f) ->
  (there <- os_path_exists q ;;
   (if there then shutil_rmtree q else ret tt) ;; k) w
  = (w, Raise NotADirectoryError).
Proof.
  intros Hq Hf. unfold bind at 1. cbn [os_path_exists].
  unfold path_exists, isfile. rewrite Hf. cbn [orb].
  unfold bind at 1. unfold shutil_rmtree. rewrite Hq.
  unfold isdir, isfile. rewrite Hq, Hf. reflexivity.
Qed.

(** The third statement: the folder is made anew. *)
Lemma makedirs_after_wipe (q : string) (d : store) (w : world) :
  rstrip_slashes q = q ->
  os_makedirs q (set_disk (remove_tree q d) w)
  = (set_disk (remove_tree q d ++ [(q, Dir)])%list w, Ok tt).
Proof.
  intros Hq. unfold os_makedirs. rewrite Hq. cbn [disk set_disk].
  rewrite (lookup_remove_tree_within q q) by apply within_refl.
  rewrite has_below_remove_tree.
  rewrite insert_fresh by (apply lookup_remove_tree_within, within_refl).
  now destruct w.
Qed.

Lemma elsewhere_split (w : world) (d : store) :
  remove_tree (TEMP_FOLDER w) (remove_tree (OUTPUT_FOLDER w) d)
  = filter (on (elsewhere w)) d.
Proof.
  unfold remove_tree, on, elsewhere.
  induction d as [|[k x] d IH]; [reflexivity|].
  simpl. destruct (within (OUTPUT_FOLDER w) k); simpl; [exact IH|].
  destruct (within (TEMP_FOLDER w) k); simpl; [exact IH | now rewrite IH].
Qed.

Lemma setup_run (w : world) :
  (forall f, lookup (OUTPUT_FOLDER w) (disk w) <> Some (File f)) ->
  (forall f, lookup (TEMP_FOLDER w) (disk w) <> Some (File f)) ->
  setup w = (set_disk (set_up w (disk w)) w, Ok tt).
Proof.
  intros Ho Ht. unfold setup. unfold bind at 1. cbn [get_world].
  rewrite (wipe_removes _ _ _ (rstrip_OUTPUT_FOLDER w) Ho).
  unfold bind at 1. rewrite (makedirs_after_wipe _ _ _ (rstrip_OUTPUT_FOLDER w)).
  assert (Hout : within (TEMP_FOLDER w) (OUTPUT_FOLDER w) = false).
  { apply output_not_in_temp, within_refl. }
  assert (Htin : within (OUTPUT_FOLDER w) (TEMP_FOLDER w) = false).
  { apply temp_not_in_output, within_refl. }
  rewrite wipe_removes.
  - cbn [disk set_disk].
    replace (set_disk (remove_tree (TEMP_FOLDER w)
                         (remove_tree (OUTPUT_FOLDER w) (disk w) ++ [(OUTPUT_FOLDER w, Dir)])%list)
               (set_disk (remove_tree (OUTPUT_FOLDER w) (disk w) ++ [(OUTPUT_FOLDER w, Dir)])%list w))
      with (set_disk (remove_tree (TEMP_FOLDER w)
                        (remove_tree (OUTPUT_FOLDER w) (disk w) ++ [(OUTPUT_FOLDER w, Dir)])%list) w)
      by reflexivity.
    rewrite (makedirs_after_wipe _ _ _ (rstrip_TEMP_FOLDER w)).
    unfold set_up. rewrite <- elsewhere_split.
    unfold remove_tree at 1. rewrite filter_app. cbn [filter fst]. rewrite Hout.
    cbn [negb]. fold (remove_tree (TEMP_FOLDER w) (remove_tree (OUTPUT_FOLDER w) (disk w))).
    now rewrite <- app_assoc.
  - apply rstrip_TEMP_FOLDER.
  - intros f. cbn [disk set_disk]. rewrite lookup_app.
    unfold remove_tree. rewrite (lookup_filter (fun k => negb (within (OUTPUT_FOLDER w) k))).
    rewrite Htin. cbn [negb].
    destruct (lookup (TEMP_FOLDER w) (disk w)) as [[g|]|] eqn:E.
    + now destruct (Ht g).
    + discriminate.
    + cbn [lookup]. destruct (String.eqb (OUTPUT_FOLDER w) (TEMP_FOLDER w)); discriminate.
Qed.

(** When the module-level statements complete, neither folder was a regular
    file. *)
Lemma setup_ok_inv (w w' : world) :
  setup w = (w', Ok tt) ->
  (forall f, lookup (OUTPUT_FOLDER w) (disk w) <> Some (File f)) /\
  (forall f, lookup (TEMP_FOLDER w) (disk w) <> Some (File f)).
Proof.
  intros H.
  assert (Ho : forall f, lookup (OUTPUT_FOLDER w) (disk w) <> Some (File f)).
  { intros f Hf. unfold setup in H. unfold bind at 1 in H. cbn [get_world] in H.
    rewrite (wipe_raises _ _ _ f (rstrip_OUTPUT_FOLDER w) Hf) in H. discriminate. }
  split; [exact Ho|].
  intros f Hf. unfold setup in H. unfold bind at 1 in H. cbn [get_world] in H.
  rewrite (wipe_removes _ _ _ (rstrip_OUTPUT_FOLDER w) Ho) in H.
  unfold bind at 1 in H.
  rewrite (makedirs_after_wipe _ _ _ (rstrip_OUTPUT_FOLDER w)) in H.
  rewrite (wipe_raises _ _ _ f (rstrip_TEMP_FOLDER w)) in H; [discriminate|].
  cbn [disk set_disk]. rewrite lookup_app.
  unfold remove_tree. rewrite (lookup_filter (fun k => negb (within (OUTPUT_FOLDER w) k))).
  rewrite (temp_not_in_output w _ (within_refl _)). cbn [negb]. now rewrite Hf.
Qed.

Lemma elsewhere_inv (w : world) (p : string) :
  elsewhere w p = true ->
  within (OUTPUT_FOLDER w) p = false /\ within (TEMP_FOLDER w) p = false.
Proof.
  unfold elsewhere. intros H. apply andb_true_iff in H as [A B].
  now apply negb_true_iff in A, B.
Qed.

Lemma not_within_not_below (q p : string) : within q p = false -> below q p = false.
Proof. unfold within. intros H. now apply orb_false_iff in H as [_ H]. Qed.

Lemma elsewhere_home (w home : world) :
  SCRIPT_FOLDER w = SCRIPT_FOLDER home -> elsewhere w = elsewhere home.
Proof. intros H. unfold elsewhere, OUTPUT_FOLDER, TEMP_FOLDER. now rewrite H. Qed.

Lemma elsewhere_no_file_area (w : world) (p : string) :
  elsewhere w p = true -> file_area w p = false /\ scratch_area w p = false.
Proof.
  intros H. apply elsewhere_inv in H as [Ho Ht].
  unfold file_area, scratch_area.
  now rewrite (not_within_not_below _ _ Ho), (not_within_not_below _ _ Ht), Ht.
Qed.

Lemma elsewhere_no_wipe_area (w : world) (p : string) :
  elsewhere w p = true -> no_files p = false /\ wipe_area w p = false.
Proof.
  intros H. apply elsewhere_inv in H as [Ho Ht].
  unfold wipe_area. now rewrite Ho, Ht.
Qed.

Lemma setup_moves (home : world) :
  respects (moving no_files (wipe_area home) home) setup.
Proof.
  intros w w' r H Hhome. unfold setup in H.
  unfold bind at 1 in H. cbn [get_world] in H.
  unfold TEMP_FOLDER, OUTPUT_FOLDER in H. rewrite ?Hhome in H.
  fold (TEMP_FOLDER home) in H. fold (OUTPUT_FOLDER home) in H.
  assert (Hrm_o : respects (moving no_files (wipe_area home) home)
                    (shutil_rmtree (OUTPUT_FOLDER home))).
  { apply mv_shutil_rmtree. rewrite rstrip_OUTPUT_FOLDER. intros x Hx.
    unfold wipe_area. now rewrite Hx. }
  assert (Hrm_t : respects (moving no_files (wipe_area home) home)
                    (shutil_rmtree (TEMP_FOLDER home))).
  { apply mv_shutil_rmtree. rewrite rstrip_TEMP_FOLDER. intros x Hx.
    unfold wipe_area. rewrite Hx. apply orb_true_r. }
  assert (Hmk_o : respects (moving no_files (wipe_area home) home)
                    (os_makedirs (OUTPUT_FOLDER home))).
  { apply mv_os_makedirs. rewrite rstrip_OUTPUT_FOLDER.
    unfold wipe_area. now rewrite within_refl. }
  assert (Hmk_t : respects (moving no_files (wipe_area home) home)
                    (os_makedirs (TEMP_FOLDER home))).
  { apply mv_os_makedirs. rewrite rstrip_TEMP_FOLDER.
    unfold wipe_area. rewrite within_refl. apply orb_true_r. }
  refine ((_ : respects (moving no_files (wipe_area home) home)
     (out_there <- os_path_exists (OUTPUT_FOLDER home) ;;
      (if out_there then shutil_rmtree (OUTPUT_FOLDER home) else ret tt) ;;
      os_makedirs (OUTPUT_FOLDER home) ;;
      temp_there <- os_path_exists (TEMP_FOLDER home) ;;
      (if temp_there then shutil_rmtree (TEMP_FOLDER home) else ret tt) ;;
      os_makedirs (TEMP_FOLDER home))) w w' r H Hhome).
  apply mv_bind; [apply mv_os_path_exists | intros out_there].
  apply mv_bind; [destruct out_there; [exact Hrm_o | apply mv_ret] | intros _].
  apply mv_bind; [exact Hmk_o | intros _].
  apply mv_bind; [apply mv_os_path_exists | intros temp_there].
  apply mv_bind; [destruct temp_there; [exact Hrm_t | apply mv_ret] | intros _].
  exact Hmk_t.
Qed.

(** X6. Let every bundle in the working folder hold plain files at its top
    level only, each with a name that gives it an extraction folder of its
    own, and let the archives among them hold plain files at their top
    level.  Then whatever the run does and however it ends, normally or with
    an exception, it leaves every path that is neither in the output folder
    nor in the scratch folder as it found it: the bundles and everything
    else in the working folder and beyond are never changed or deleted.
    (The hypothesis keeps away the archive names [..kmz] and [...kmz] and
    member names with [.] and [..] in them, for which the extraction folder
    is not a folder inside [temp_extract].) *)
Theorem run_touches_only_its_folders :
  forall (folder : string) (d : store) (p : string),
    plain_bundles folder d = true ->
    within (OUTPUT_FOLDER (fresh folder d)) p = false ->
    within (TEMP_FOLDER (fresh folder d)) p = false ->
    lookup p (disk (fst (run folder d))) = lookup p d.
Proof.
  intros folder d p _ Ho Ht.
  assert (Hp : elsewhere (fresh folder d) p = true).
  { unfold elsewhere. now rewrite Ho, Ht. }
  destruct (elsewhere_no_file_area _ _ Hp) as [Hf Hs].
  destruct (elsewhere_no_wipe_area _ _ Hp) as [Hn Hw].
  unfold run, main, bind.
  destruct (setup (fresh folder d)) as [ws [[]|e]] eqn:Es.
  - destruct (setup_moves (fresh folder d) _ _ _ Es eq_refl) as [Hhome Ms].
    destruct (process_files ws) as [w' r] eqn:Ep.
    destruct (aw_process_files (fresh folder d) _ _ _ Ep Hhome) as [_ Mp].
    cbn [fst].
    rewrite (disk_moves_keep_lookup _ _ _ _ p Hf Hs Mp).
    exact (disk_moves_keep_lookup _ _ _ _ p Hn Hw Ms).
  - destruct (setup_moves (fresh folder d) _ _ _ Es eq_refl) as [_ Ms].
    exact (disk_moves_keep_lookup _ _ _ _ p Hn Hw Ms).
Qed.

(** The bundle in the working folder is as it was once the run is over. *)
Lemma run_touches_only_its_folders_witness :
  lookup "/work/bundle.zip" (disk (fst (run "/work" (bundle_disk [("a.kmz", sample_kmz)]))))
  = lookup "/work/bundle.zip" (bundle_disk [("a.kmz", sample_kmz)]).
Proof.
  apply (run_touches_only_its_folders "/work" (bundle_disk [("a.kmz", sample_kmz)])
           "/work/bundle.zip");
    reflexivity.
Defined.

(** *** The two folders after the module-level statements *)

Lemma children_none (p : string) (d : store) :
  (forall kv, In kv d -> below (rstrip_slashes p) (fst kv) = false) ->
  children p d = [].
Proof.
  intros H. unfold children.
  replace (flat_map _ d) with (@nil string); [reflexivity|].
  induction d as [|kv d IH]; [reflexivity|].
  cbn [flat_map]. rewrite <- IH by (intros x Hx; apply H; now right).
  pose proof (H kv (or_introl eq_refl)) as Hkv. unfold below in Hkv.
  now rewrite Hkv.
Qed.

Lemma lookup_set_up (w : world) (d : store) (p : string) :
  elsewhere w p = true -> lookup p (set_up w d) = lookup p d.
Proof.
  intros Hp. unfold set_up. rewrite lookup_app.
  unfold on. rewrite (lookup_filter_keep (elsewhere w) d p Hp).
  destruct (lookup p d); [reflexivity|].
  apply elsewhere_inv in Hp as [Ho Ht].
  unfold within in Ho, Ht.
  apply orb_false_iff in Ho as [Ho _]. apply orb_false_iff in Ht as [Ht _].
  cbn [lookup]. rewrite String.eqb_sym, Ho, String.eqb_sym, Ht. reflexivity.
Qed.

Lemma elsewhere_OUTPUT_FOLDER (w : world) : elsewhere w (OUTPUT_FOLDER w) = false.
Proof. unfold elsewhere. now rewrite within_refl. Qed.

Lemma elsewhere_TEMP_FOLDER (w : world) : elsewhere w (TEMP_FOLDER w) = false.
Proof. unfold elsewhere. rewrite (within_refl (TEMP_FOLDER w)). apply andb_false_r. Qed.

Lemma lookup_set_up_output (w : world) (d : store) :
  lookup (OUTPUT_FOLDER w) (set_up w d) = Some Dir.
Proof.
  unfold set_up. rewrite lookup_app. unfold on.
  rewrite (lookup_filter (elsewhere w)), elsewhere_OUTPUT_FOLDER.
  cbn [lookup]. now rewrite String.eqb_refl.
Qed.

Lemma lookup_set_up_temp (w : world) (d : store) :
  lookup (TEMP_FOLDER w) (set_up w d) = Some Dir.
Proof.
  unfold set_up. rewrite lookup_app. unfold on.
  rewrite (lookup_filter (elsewhere w)), elsewhere_TEMP_FOLDER.
  cbn [lookup]. rewrite String.eqb_refl.
  now destruct (String.eqb (OUTPUT_FOLDER w) (TEMP_FOLDER w)).
Qed.

Lemma set_up_nothing_below (w : world) (d : store) (kv : string * node) :
  In kv (set_up w d) ->
  below (OUTPUT_FOLDER w) (fst kv) = false /\ below (TEMP_FOLDER w) (fst kv) = false.
Proof.
  unfold set_up. intros H. apply in_app_or in H as [H|H].
  - apply filter_In in H as [_ H]. unfold on in H.
    apply elsewhere_inv in H as [Ho Ht].
    split; now apply not_within_not_below.
  - destruct H as [<-|[<-|[]]]; cbn [fst].
    + split; [apply below_irrefl|].
      apply not_within_not_below, output_not_in_temp, within_refl.
    + split; [|apply below_irrefl].
      apply not_within_not_below, temp_not_in_output, within_refl.
Qed.

(** X7. If neither [processed_kmz] nor [temp_extract] is a regular file,
    the module-level statements complete and leave both as existing, empty
    folders, whatever they held before; every path outside the two folders
    is as it was, and nothing is printed or logged. *)
Theorem setup_leaves_two_empty_folders :
  forall w : world,
    (forall f, lookup (OUTPUT_FOLDER w) (disk w) <> Some (File f)) ->
    (forall f, lookup (TEMP_FOLDER w) (disk w) <> Some (File f)) ->
    exists w' : world,
      setup w = (w', Ok tt) /\
      console w' = console w /\
      log_buffer w' = log_buffer w /\
      isdir (OUTPUT_FOLDER w) (disk w') = true /\
      isdir (TEMP_FOLDER w) (disk w') = true /\
      children (OUTPUT_FOLDER w) (disk w') = [] /\
      children (TEMP_FOLDER w) (disk w') = [] /\
      (forall p, within (OUTPUT_FOLDER w) p = false ->
                 within (TEMP_FOLDER w) p = false ->
                 lookup p (disk w') = lookup p (disk w)).
Proof.
  intros w Ho Ht. exists (set_disk (set_up w (disk w)) w).
  split; [exact (setup_run w Ho Ht)|].
  split; [reflexivity|]. split; [reflexivity|]. cbn [disk set_disk].
  split.
  { unfold isdir. now rewrite rstrip_OUTPUT_FOLDER, lookup_set_up_output. }
  split.
  { unfold isdir. now rewrite rstrip_TEMP_FOLDER, lookup_set_up_temp. }
  split.
  { apply children_none. rewrite rstrip_OUTPUT_FOLDER.
    intros kv Hkv. now apply (set_up_nothing_below w (disk w)). }
  split.
  { apply children_none. rewrite rstrip_TEMP_FOLDER.
    intros kv Hkv. now apply (set_up_nothing_below w (disk w)). }
  intros p Hpo Hpt. apply lookup_set_up. unfold elsewhere. now rewrite Hpo, Hpt.
Qed.

(** A working folder that an earlier run has used. *)
Lemma setup_leaves_two_empty_folders_witness :
  exists w' : world,
    setup (fresh "/work" used_disk) = (w', Ok tt) /\
    console w' = console (fresh "/work" used_disk) /\
    log_buffer w' = log_buffer (fresh "/work" used_disk) /\
    isdir (OUTPUT_FOLDER (fresh "/work" used_disk)) (disk w') = true /\
    isdir (TEMP_FOLDER (fresh "/work" used_disk)) (disk w') = true /\
    children (OUTPUT_FOLDER (fresh "/work" used_disk)) (disk w') = [] /\
    children (TEMP_FOLDER (fresh "/work" used_disk)) (disk w') = [] /\
    (forall p, within (OUTPUT_FOLDER (fresh "/work" used_disk)) p = false ->
               within (TEMP_FOLDER (fresh "/work" used_disk)) p = false ->
               lookup p (disk w') = lookup p (disk (fresh "/work" used_disk))).
Proof.
  apply (setup_leaves_two_empty_folders (fresh "/work" used_disk));
    intros f; discriminate.
Defined.

(* ===================================================================== *)
(** ** The clean-up *)
(* ===================================================================== *)

(** X8. The clean-up after the loops never raises and logs nothing; it
    leaves every path outside [temp_extract] as it was; when [temp_extract]
    is a folder, nothing is left of it or below it and the console says so;
    when [temp_extract] does not exist, nothing happens at all. *)
Theorem cleanup_removes_scratch_folder :
  forall w : world,
    exists w' : world,
      cleanup w = (w', Ok tt) /\
      log_buffer w' = log_buffer w /\
      (forall p, within (TEMP_FOLDER w) p = false ->
         lookup p (disk w') = lookup p (disk w)) /\
      (isdir (TEMP_FOLDER w) (disk w) = true ->
       console w' = (console w ++ [CleanedUp])%list /\
       path_exists (TEMP_FOLDER w) (disk w') = false /\
       forall p, within (TEMP_FOLDER w) p = true -> lookup p (disk w') = None) /\
      (path_exists (TEMP_FOLDER w) (disk w) = false -> w' = w).
Proof.
  intros w. unfold cleanup. unfold bind at 1 2. cbn [get_world os_path_exists].
  destruct (path_exists (TEMP_FOLDER w) (disk w)) eqn:Ex.
  2:{ exists w. split; [reflexivity|]. split; [reflexivity|]. split; [reflexivity|].
      split; [|reflexivity].
      intros Hd. unfold path_exists in Ex. rewrite Hd in Ex.
      now rewrite orb_true_r in Ex. }
  unfold bind at 1.
  destruct (isdir (TEMP_FOLDER w) (disk w)) eqn:Edir.
  - set (d1 := insert (TEMP_FOLDER w) Dir
                 (filter (fun kv => negb (below (TEMP_FOLDER w) (fst kv))) (disk w))).
    assert (Hdir1 : isdir (TEMP_FOLDER w) d1 = true).
    { unfold isdir, d1. now rewrite rstrip_TEMP_FOLDER, lookup_insert. }
    unfold shutil_rmtree. cbn [disk set_disk].
    rewrite rstrip_TEMP_FOLDER, Hdir1. cbn [print].
    eexists. split; [reflexivity|]. cbn [log_buffer console disk set_disk].
    split; [reflexivity|].
    assert (Hgone : forall p, within (TEMP_FOLDER w) p = true ->
                      lookup p (remove_tree (TEMP_FOLDER w) d1) = None).
    { intros p Hp. now apply lookup_remove_tree_within. }
    split.
    { intros p Hp. unfold remove_tree.
      rewrite (lookup_filter (fun k => negb (within (TEMP_FOLDER w) k))), Hp.
      cbn [negb]. unfold d1. rewrite lookup_insert_ne.
      - rewrite (lookup_filter (fun k => negb (below (TEMP_FOLDER w) k))).
        now rewrite (not_within_not_below _ _ Hp).
      - intros <-. now rewrite within_refl in Hp. }
    split; [|discriminate].
    intros _. split; [reflexivity|]. split; [|exact Hgone].
    unfold path_exists, isfile, isdir. rewrite rstrip_TEMP_FOLDER.
    rewrite (Hgone _ (within_refl _)). cbn [orb].
    apply has_below_remove_tree.
  - unfold shutil_rmtree. rewrite rstrip_TEMP_FOLDER, Edir.
    exists w. split.
    { now destruct (isfile (TEMP_FOLDER w) (disk w)). }
    split; [reflexivity|]. split; [reflexivity|]. split; discriminate.
Qed.

(* ===================================================================== *)
(** ** Running the script again *)
(* ===================================================================== *)

Lemma setup_fresh (folder : string) (d : store) :
  (forall f, lookup (OUTPUT_FOLDER (fresh folder d)) d <> Some (File f)) ->
  (forall f, lookup (TEMP_FOLDER (fresh folder d)) d <> Some (File f)) ->
  setup (fresh folder d) = (fresh folder (set_up (fresh folder d) d), Ok tt).
Proof. intros Ho Ht. now rewrite (setup_run (fresh folder d) Ho Ht). Qed.

Lemma elsewhere_set_up (w : world) (d : store) :
  filter (on (elsewhere w)) (set_up w d) = filter (on (elsewhere w)) d.
Proof.
  unfold set_up. rewrite filter_app.
  rewrite (filter_filter_sub (elsewhere w) (elsewhere w)) by auto.
  cbn [filter]. unfold on. cbn [fst].
  rewrite elsewhere_OUTPUT_FOLDER, elsewhere_TEMP_FOLDER. apply app_nil_r.
Qed.

(** What [process_files] leaves as it is, however it ends: the disk outside
    the two folders, the output folder's own entry, and the fact that the
    scratch folder is no regular file. *)
Lemma process_files_keeps (w w' : world) (r : result unit) :
  process_files w = (w', r) ->
  SCRIPT_FOLDER w' = SCRIPT_FOLDER w /\
  filter (on (elsewhere w)) (disk w') = filter (on (elsewhere w)) (disk w) /\
  lookup (OUTPUT_FOLDER w) (disk w') = lookup (OUTPUT_FOLDER w) (disk w) /\
  ((forall f, lookup (TEMP_FOLDER w) (disk w) <> Some (File f)) ->
   forall f, lookup (TEMP_FOLDER w) (disk w') <> Some (File f)).
Proof.
  intros H. destruct (aw_process_files w _ _ _ H eq_refl) as [Hs Hm].
  assert (Hto : below (TEMP_FOLDER w) (OUTPUT_FOLDER w) = false).
  { apply not_within_not_below, output_not_in_temp, within_refl. }
  assert (Hot : below (OUTPUT_FOLDER w) (TEMP_FOLDER w) = false).
  { apply not_within_not_below, temp_not_in_output, within_refl. }
  split; [exact Hs|]. split; [|split].
  - exact (disk_moves_keep _ _ _ _ _ (elsewhere_no_file_area w) Hm).
  - apply (disk_moves_keep_lookup (file_area w) (scratch_area w)); [| |exact Hm].
    + unfold file_area. now rewrite Hto, below_irrefl.
    + unfold scratch_area. apply output_not_in_temp, within_refl.
  - apply (disk_moves_no_file (file_area w) (scratch_area w)); [|exact Hm].
    unfold file_area. now rewrite Hot, below_irrefl.
Qed.

(** X9. Running the script a second time, on the disk as a completed first
    run left it and with the same inputs, ends in exactly the world the
    first run ended in: the same output archives, the same log file, the
    same console.  What the first run left in the two folders is wiped by
    the module-level statements and has no influence. *)
Theorem second_run_reproduces_first :
  forall (folder : string) (d : store),
    snd (run folder d) = Ok tt ->
    run folder (disk (fst (run folder d))) = run folder d.
Proof.
  intros folder d Hok.
  destruct (run folder d) as [w1 r] eqn:Hrun. cbn [fst snd] in *. subst r.
  unfold run, main in Hrun. unfold bind in Hrun.
  destruct (setup (fresh folder d)) as [ws [[]|e]] eqn:Es; [|discriminate].
  destruct (setup_ok_inv _ _ Es) as [Ho Ht].
  rewrite (setup_fresh folder d Ho Ht) in Es. injection Es as <-.
  destruct (process_files_keeps _ _ _ Hrun) as (_ & Hk & Hout & Htemp).
  cbn [disk fresh] in Hk, Hout, Htemp.
  change (elsewhere (fresh folder (set_up (fresh folder d) d)))
    with (elsewhere (fresh folder d)) in Hk.
  change (OUTPUT_FOLDER (fresh folder (set_up (fresh folder d) d)))
    with (OUTPUT_FOLDER (fresh folder d)) in Hout.
  change (TEMP_FOLDER (fresh folder (set_up (fresh folder d) d)))
    with (TEMP_FOLDER (fresh folder d)) in Htemp.
  rewrite lookup_set_up_output in Hout.
  assert (Ho1 : forall f, lookup (OUTPUT_FOLDER (fresh folder (disk w1))) (disk w1)
                          <> Some (File f)).
  { intros f. change (OUTPUT_FOLDER (fresh folder (disk w1)))
      with (OUTPUT_FOLDER (fresh folder d)). rewrite Hout. discriminate. }
  assert (Ht1 : forall f, lookup (TEMP_FOLDER (fresh folder (disk w1))) (disk w1)
                          <> Some (File f)).
  { apply Htemp. intros f. rewrite lookup_set_up_temp. discriminate. }
  unfold run, main. unfold bind.
  rewrite (setup_fresh folder (disk w1) Ho1 Ht1).
  assert (Hsame : set_up (fresh folder (disk w1)) (disk w1)
                  = set_up (fresh folder d) d).
  { unfold set_up.
    change (elsewhere (fresh folder (disk w1))) with (elsewhere (fresh folder d)).
    rewrite Hk, elsewhere_set_up. reflexivity. }
  rewrite Hsame. exact Hrun.
Qed.

(** A run that converts the archive of a bundle. *)
Lemma second_run_reproduces_first_witness :
  run "/work" (disk (fst (run "/work" (bundle_disk [("sample.kmz", sample_kmz)]))))
  = run "/work" (bundle_disk [("sample.kmz", sample_kmz)]).
Proof.
  apply (second_run_reproduces_first "/work" (bundle_disk [("sample.kmz", sample_kmz)])).
  exact (proj1 bundled_kmz_is_processed).
Defined.

(* ===================================================================== *)
(** ** What [parse_kml] hands to the loop *)
(* ===================================================================== *)

Lemma ET_parse_world (p : string) (w w' : world) (r : result Element) :
  ET_parse p w = (w', r) -> w' = w.
Proof.
  unfold ET_parse, bind, read_file. intros H.
  destruct (lookup p (disk w)) as [[[text|members]|]|].
  - destruct (xml_parse text); now injection H.
  - now injection H.
  - now injection H.
  - destruct (isdir p (disk w)); now injection H.
Qed.

Lemma text_attr_ok (e : option Element) (w w' : world) (t : option string) :
  text_attr e w = (w', Ok t) -> w' = w /\ exists x, e = Some x /\ t = text_of x.
Proof.
  destruct e as [x|]; [|discriminate].
  intros H. injection H as <- <-. eauto.
Qed.

(** X10. When [parse_kml] returns, it returns either the triple of three
    [None]s or a triple whose image reference is a string naming a file or
    folder that exists next to the document and whose coordinates are a
    4-tuple; in the second case it has printed nothing.  So the guard of the
    loop, which looks at the name and the reference only, keeps a triple
    without coordinates away from [create_clean_kml]. *)
Theorem parse_kml_result_shape :
  forall (kml_path : string) (w w' : world)
         (doc_name image_href : option string) (coordinates : option coords),
    parse_kml kml_path w = (w', Ok (doc_name, image_href, coordinates)) ->
    (doc_name = None /\ image_href = None /\ coordinates = None) \/
    (exists (href : string) (c : coords),
       image_href = Some href /\ coordinates = Some c /\
       path_exists (path_join (dirname kml_path) href) (disk w) = true /\
       w' = w).
Proof.
  intros kml_path w w' doc_name image_href coordinates H.
  unfold parse_kml in H. unfold bind at 1 in H.
  destruct (ET_parse kml_path w) as [w0 [root|e]] eqn:Eroot; [|discriminate].
  apply ET_parse_world in Eroot. subst w0.
  unfold bind at 1 in H.
  destruct (text_attr (find_desc (kml "name") root) w) as [w0 [name|e]] eqn:Ename;
    [|discriminate].
  apply text_attr_ok in Ename as [-> _].
  destruct (find_desc (kml "GroundOverlay") root) as [overlay|].
  2:{ unfold bind in H. cbn [print ret] in H. injection H as _ <- <- <-. now left. }
  unfold bind at 1 in H.
  destruct (text_attr (find_desc_child (kml "Icon") (kml "href") overlay) w)
    as [w0 [href|e]] eqn:Ehref; [|discriminate].
  apply text_attr_ok in Ehref as [-> _].
  destruct href as [href|]; [|discriminate].
  unfold bind at 1 in H. cbn [os_path_exists] in H.
  destruct (path_exists (path_join (dirname kml_path) href) (disk w)) eqn:Ethere.
  2:{ unfold bind in H. cbn [negb print ret] in H. injection H as _ <- <- <-. now left. }
  cbn [negb] in H.
  destruct (find_desc (kml "LatLonBox") overlay) as [latlonbox|]; [|discriminate].
  unfold bind in H.
  destruct (text_attr (find_child (kml "north") latlonbox) w)
    as [w1 [north|e]] eqn:En; [|discriminate].
  apply text_attr_ok in En as [-> _].
  destruct (text_attr (find_child (kml "south") latlonbox) w)
    as [w1 [south|e]] eqn:Es; [|discriminate].
  apply text_attr_ok in Es as [-> _].
  destruct (text_attr (find_child (kml "east") latlonbox) w)
    as [w1 [east|e]] eqn:Ee; [|discriminate].
  apply text_attr_ok in Ee as [-> _].
  destruct (text_attr (find_child (kml "west") latlonbox) w)
    as [w1 [west|e]] eqn:Ew; [|discriminate].
  apply text_attr_ok in Ew as [-> _].
  cbn [ret] in H. injection H as <- <- <- <-.
  right. exists href, (north, south, east, west). auto.
Qed.

(** The sample document next to its image. *)
Lemma parse_kml_result_shape_witness :
  (Some "Topo A" = None /\ Some "overlay.png" = None /\ Some sample_coords = None) \/
  (exists (href : string) (c : coords),
     Some "overlay.png" = Some href /\ Some sample_coords = Some c /\
     path_exists (path_join (dirname "/t/doc.kml") href) (disk (doc_world sample_kml)) = true /\
     doc_world sample_kml = doc_world sample_kml).
Proof.
  apply (parse_kml_result_shape "/t/doc.kml" (doc_world sample_kml) (doc_world sample_kml)
           (Some "Topo A") (Some "overlay.png") (Some sample_coords)).
  reflexivity.
Defined.

(* ===================================================================== *)
(** ** An archive name in upper case *)
(* ===================================================================== *)

Lemma rstrip_file_name (n : string) : file_name n = true -> rstrip_slashes n = n.
Proof.
  unfold file_name. induction n as [|c n IH]; [reflexivity|].
  cbn [all_chars]. intros H. apply andb_true_iff in H as [Hc Hn].
  cbn [rstrip_slashes]. rewrite (IH Hn).
  destruct n; [|reflexivity].
  unfold not_slash in Hc. apply negb_true_iff in Hc. now rewrite Hc.
Qed.

Lemma endswith_nonempty (s suffix : string) :
  suffix <> "" -> endswith s suffix = true -> s <> "".
Proof.
  intros Hs H ->. unfold endswith in H. apply andb_true_iff in H as [H _].
  destruct suffix; [contradiction | discriminate].
Qed.

(** The path of an entry of the scratch folder is its own [rstrip]. *)
Lemma rstrip_temp_entry (w : world) (n : string) :
  file_name n = true -> n <> "" ->
  rstrip_slashes (path_join (TEMP_FOLDER w) n) = path_join (TEMP_FOLDER w) n.
Proof.
  intros Hn Hne.
  rewrite path_join_relative by now apply file_name_not_absolute.
  rewrite rstrip_slashes_app, (rstrip_file_name n Hn).
  destruct n; [contradiction | reflexivity].
Qed.

(** X11. The suffix test of the loop ignores case, the [replace] that
    derives the extraction folder does not.  For an archive in the scratch
    folder whose name passes the test but holds no lower-case [.kmz] (such
    as [A.KMZ]), the extraction folder is the archive's own path:
    [os.makedirs] raises [FileExistsError], nothing has been changed, and the
    loop ends there, whatever archives come after it. *)
Theorem uppercase_suffix_stops_the_run :
  forall (kmz_file : string) (rest : list string) (w : world) (f : file),
    file_name kmz_file = true ->
    endswith (lower kmz_file) ".kmz" = true ->
    replace ".kmz" "" kmz_file = kmz_file ->
    lookup (path_join (TEMP_FOLDER w) kmz_file) (disk w) = Some (File f) ->
    for_each (kmz_file :: rest) step_kmz w
    = (fst (print (FoundInTemp kmz_file) w), Raise FileExistsError).
Proof.
  intros kmz_file rest w f Hk Hkmz Hsame Hfile.
  assert (Hne : kmz_file <> "").
  { intros ->. discriminate. }
  cbn [for_each]. unfold bind at 1. unfold step_kmz. unfold bind at 1.
  cbn [print]. rewrite Hkmz.
  unfold bind at 1. unfold unpack_kmz. unfold bind at 1. cbn [get_world].
  unfold bind at 1. unfold os_makedirs. cbn [disk].
  change (TEMP_FOLDER {| SCRIPT_FOLDER := SCRIPT_FOLDER w; disk := disk w;
                         console := (console w ++ [FoundInTemp kmz_file])%list;
                         log_buffer := log_buffer w |})
    with (TEMP_FOLDER w).
  rewrite Hsame, (rstrip_temp_entry w kmz_file Hk Hne), Hfile.
  reflexivity.
Qed.

(** An archive with an upper-case name, followed by a sound one. *)
Lemma uppercase_suffix_stops_the_run_witness :
  for_each ["A.KMZ"; "b.kmz"] step_kmz
    (scratch_world [("A.KMZ", sample_kmz); ("b.kmz", sample_kmz)])
  = (fst (print (FoundInTemp "A.KMZ")
            (scratch_world [("A.KMZ", sample_kmz); ("b.kmz", sample_kmz)])),
     Raise FileExistsError).
Proof.
  apply (uppercase_suffix_stops_the_run "A.KMZ" ["b.kmz"]
           (scratch_world [("A.KMZ", sample_kmz); ("b.kmz", sample_kmz)]) sample_kmz);
    reflexivity.
Defined.

(* ===================================================================== *)
(** ** A working folder without bundle *)
(* ===================================================================== *)

Lemma rstrip_last_char (a : string) (c : ascii) :
  rstrip_slashes a = a -> last_char a = Some c -> is_slash c = false.
Proof.
  induction a as [|x a IH]; [discriminate|].
  cbn [rstrip_slashes]. destruct a as [|y a].
  - cbn [rstrip_slashes last_char]. intros H E. injection E as <-.
    destruct (is_slash x); [discriminate | reflexivity].
  - intros H E. change (last_char (String x (String y a))) with (last_char (String y a)) in E.
    apply IH; [|exact E].
    destruct (rstrip_slashes (String y a)) as [|z r] eqn:Er.
    + destruct (is_slash x); discriminate.
    + congruence.
Qed.

Lemma dir_prefix_plain (a : string) :
  a <> "" -> rstrip_slashes a = a -> dir_prefix a = a ++ "/".
Proof.
  intros Hne Hr. unfold dir_prefix.
  destruct (last_char a) as [c|] eqn:E.
  - now rewrite (rstrip_last_char a c Hr E).
  - now apply last_char_none in E.
Qed.

Lemma drop_app (a b : string) : drop (String.length a) (a ++ b) = b.
Proof. induction a as [|x a IH]; [now destruct b | exact IH]. Qed.

Lemma In_dedup_intro (x : string) (l seen : list string) :
  In x l -> existsb (String.eqb x) seen = false -> In x (dedup seen l).
Proof.
  revert seen. induction l as [|y l IH]; intros seen H Hs; [contradiction|].
  cbn [dedup]. destruct (existsb (String.eqb y) seen) eqn:Ey.
  - destruct H as [->|H]; [congruence | now apply IH].
  - destruct (String.eqb x y) eqn:E.
    + apply String.eqb_eq in E. subst y. now left.
    + destruct H as [->|H]; [now rewrite String.eqb_refl in E|].
      right. apply IH; [exact H|]. cbn [existsb]. now rewrite E, Hs.
Qed.

(** The names of a listing, entry by entry of the disk. *)
Lemma children_In (p : string) (d : store) (n : string) :
  In n (children p d) <->
  exists kv, In kv d /\ startswith (rstrip_slashes p ++ "/") (fst kv) = true /\
             n = first_component (drop (String.length (rstrip_slashes p ++ "/")) (fst kv)).
Proof.
  unfold children. split.
  - intros H. apply In_dedup in H. apply in_flat_map in H as (kv & Hkv & H).
    exists kv. destruct (startswith (rstrip_slashes p ++ "/") (fst kv)); [|contradiction].
    destruct H as [<-|[]]. auto.
  - intros (kv & Hkv & Hs & ->). apply In_dedup_intro; [|reflexivity].
    apply in_flat_map. exists kv. split; [exact Hkv|]. rewrite Hs. now left.
Qed.

Lemma step_zip_other (z : string) (w : world) :
  endswith (lower z) ".zip" = false -> step_zip z w = (w, Ok tt).
Proof. intros H. unfold step_zip, bind. cbn [get_world]. now rewrite H. Qed.

Lemma for_each_step_zip_other (l : list string) (w : world) :
  (forall z, In z l -> endswith (lower z) ".zip" = false) ->
  for_each l step_zip w = (w, Ok tt).
Proof.
  induction l as [|z l IH]; intros H; [reflexivity|].
  cbn [for_each]. unfold bind. rewrite step_zip_other by (apply H; now left).
  apply IH. intros y Hy. apply H. now right.
Qed.

(** The [with] block when the working folder lists no bundle and the scratch
    folder is empty: the two loops have nothing to do. *)
Lemma with_log_body_idle (w : world) :
  isdir (SCRIPT_FOLDER w) (disk w) = true ->
  (forall z, In z (children (SCRIPT_FOLDER w) (disk w)) ->
             endswith (lower z) ".zip" = false) ->
  isdir (TEMP_FOLDER w) (disk w) = true ->
  children (TEMP_FOLDER w) (disk w) = [] ->
  with_log_body w
  = ({| SCRIPT_FOLDER := SCRIPT_FOLDER w; disk := disk w;
        console := (console w ++ [LookingIn (SCRIPT_FOLDER w);
                                  CheckingIn (TEMP_FOLDER w)])%list;
        log_buffer := log_buffer w ++ log_header |}, Ok tt).
Proof.
  intros Hdir Hz Htdir Hempty.
  unfold with_log_body. unfold bind at 1. cbn [get_world].
  unfold bind at 1. cbn [log_write]. unfold bind at 1. cbn [print].
  unfold bind at 1. unfold os_listdir at 1.
  cbn [disk set_log SCRIPT_FOLDER console log_buffer]. rewrite Hdir.
  unfold bind at 1. rewrite for_each_step_zip_other by exact Hz.
  unfold bind at 1. cbn [print]. unfold bind at 1. unfold os_listdir.
  cbn [disk set_log SCRIPT_FOLDER console log_buffer]. rewrite Htdir, Hempty.
  cbn [for_each ret]. now rewrite <- app_assoc.
Qed.

Lemma insert_same (k : string) (v : node) (d : store) :
  lookup k d = Some v -> insert k v d = d.
Proof.
  induction d as [|[k' x] d IH]; [discriminate|].
  simpl. destruct (String.eqb k' k).
  - intros H. now injection H as ->.
  - intros H. now rewrite IH.
Qed.

Lemma insert_app_fresh (k : string) (v : node) (a b : store) :
  lookup k a = None -> insert k v (a ++ b)%list = (a ++ insert k v b)%list.
Proof.
  induction a as [|[k' x] a IH]; [reflexivity|].
  simpl. destruct (String.eqb k' k); [discriminate|].
  intros H. now rewrite IH.
Qed.

Lemma filter_all {A : Type} (g : A -> bool) (l : list A) :
  (forall x, In x l -> g x = true) -> filter g l = l.
Proof.
  induction l as [|x l IH]; intros H; [reflexivity|].
  cbn [filter]. rewrite (H x (or_introl eq_refl)).
  now rewrite IH by (intros y Hy; apply H; now right).
Qed.

(** The clean-up of an empty scratch folder. *)
Lemma cleanup_empty_scratch (w : world) :
  lookup (TEMP_FOLDER w) (disk w) = Some Dir ->
  (forall kv, In kv (disk w) -> below (TEMP_FOLDER w) (fst kv) = false) ->
  cleanup w
  = ({| SCRIPT_FOLDER := SCRIPT_FOLDER w;
        disk := remove_tree (TEMP_FOLDER w) (disk w);
        console := (console w ++ [CleanedUp])%list;
        log_buffer := log_buffer w |}, Ok tt).
Proof.
  intros Hl Hb.
  assert (Hdir : isdir (TEMP_FOLDER w) (disk w) = true).
  { unfold isdir. now rewrite rstrip_TEMP_FOLDER, Hl. }
  unfold cleanup. unfold bind at 1 2. cbn [get_world os_path_exists].
  unfold path_exists. rewrite Hdir, orb_true_r.
  unfold bind at 1. rewrite Hdir.
  rewrite filter_all by (intros kv Hkv; now rewrite (Hb kv Hkv)).
  rewrite (insert_same _ _ _ Hl).
  unfold shutil_rmtree. cbn [disk set_disk]. rewrite rstrip_TEMP_FOLDER, Hdir.
  reflexivity.
Qed.

Lemma eqb_app_longer (a : string) (c : ascii) (b : string) :
  String.eqb a (a ++ String c b) = false.
Proof.
  rewrite <- (append_empty_r a) at 1. now rewrite eqb_app_cancel.
Qed.

Lemma existsb_none {A : Type} (g : A -> bool) (l : list A) :
  (forall x, In x l -> g x = false) -> existsb g l = false.
Proof.
  induction l as [|x l IH]; intros H; [reflexivity|].
  cbn [existsb]. rewrite (H x (or_introl eq_refl)).
  apply IH. intros y Hy. apply H. now right.
Qed.

Lemma isfile_false (p : string) (d : store) :
  isfile p d = false -> forall f, lookup p d <> Some (File f).
Proof. unfold isfile. intros H f E. now rewrite E in H. Qed.

(** The two folders of a working folder given by a normalized path. *)
Lemma OUTPUT_FOLDER_plain (w : world) :
  SCRIPT_FOLDER w <> "" -> rstrip_slashes (SCRIPT_FOLDER w) = SCRIPT_FOLDER w ->
  OUTPUT_FOLDER w = SCRIPT_FOLDER w ++ "/processed_kmz".
Proof.
  intros Hne Hr. rewrite OUTPUT_FOLDER_eq, (dir_prefix_plain _ Hne Hr).
  now rewrite append_assoc.
Qed.

Lemma TEMP_FOLDER_plain (w : world) :
  SCRIPT_FOLDER w <> "" -> rstrip_slashes (SCRIPT_FOLDER w) = SCRIPT_FOLDER w ->
  TEMP_FOLDER w = SCRIPT_FOLDER w ++ "/temp_extract".
Proof.
  intros Hne Hr. rewrite TEMP_FOLDER_eq, (dir_prefix_plain _ Hne Hr).
  now rewrite append_assoc.
Qed.

Lemma below_output_log_path (w : world) : below (OUTPUT_FOLDER w) (log_path w) = true.
Proof.
  unfold below. rewrite log_path_eq. now rewrite startswith_app_cancel.
Qed.

Lemma rstrip_log_path (w : world) : rstrip_slashes (log_path w) = log_path w.
Proof. rewrite log_path_eq. now rewrite rstrip_slashes_app. Qed.

Lemma log_path_not_in_temp (w : world) : within (TEMP_FOLDER w) (log_path w) = false.
Proof. apply output_not_in_temp, below_within, below_output_log_path. Qed.

Lemma elsewhere_log_path (w : world) : elsewhere w (log_path w) = false.
Proof.
  unfold elsewhere. now rewrite (below_within _ _ (below_output_log_path w)).
Qed.

Lemma lookup_set_up_log_path (w : world) (d : store) :
  lookup (log_path w) (set_up w d) = None.
Proof.
  unfold set_up. rewrite lookup_app. unfold on.
  rewrite (lookup_filter (elsewhere w)), elsewhere_log_path.
  cbn [lookup].
  destruct (String.eqb (OUTPUT_FOLDER w) (log_path w)) eqn:Eo.
  { apply String.eqb_eq in Eo. pose proof (below_output_log_path w) as H.
    rewrite <- Eo, below_irrefl in H. discriminate. }
  destruct (String.eqb (TEMP_FOLDER w) (log_path w)) eqn:Et; [|reflexivity].
  apply String.eqb_eq in Et. pose proof (log_path_not_in_temp w) as H.
  rewrite <- Et, within_refl in H. discriminate.
Qed.

(** The disk on which the [with] block starts. *)
Lemma log_opened (w : world) (d : store) :
  insert (log_path w) (File (Data "")) (set_up w d)
  = (set_up w d ++ [(log_path w, File (Data ""))])%list.
Proof. apply insert_fresh, lookup_set_up_log_path. Qed.

Lemma log_closed (w : world) (d : store) (text : string) :
  insert (log_path w) (File (Data text)) (set_up w d ++ [(log_path w, File (Data ""))])%list
  = (set_up w d ++ [(log_path w, File (Data text))])%list.
Proof.
  rewrite insert_app_fresh by apply lookup_set_up_log_path.
  cbn [insert]. now rewrite String.eqb_refl.
Qed.

Lemma open_log_run (w : world) (d : store) (v : world) :
  disk v = set_up w d ->
  write_file (log_path w) (Data "") v
  = (set_disk (set_up w d ++ [(log_path w, File (Data ""))])%list v, Ok tt).
Proof.
  intros Hv. rewrite write_file_run.
  - now rewrite Hv, log_opened.
  - rewrite Hv. unfold isdir. rewrite rstrip_log_path, lookup_set_up_log_path.
    apply existsb_none. intros kv Hkv.
    destruct (below (log_path w) (fst kv)) eqn:E; [|reflexivity].
    destruct (set_up_nothing_below w d kv Hkv) as [Ho _].
    rewrite (below_trans _ _ _ (below_output_log_path w) (below_within _ _ E)) in Ho.
    discriminate.
  - rewrite Hv. unfold log_path.
    rewrite (isdir_dirname_join (OUTPUT_FOLDER w) "processed_kmz_log.txt" _
               (OUTPUT_FOLDER_nonempty w) eq_refl).
    unfold isdir. now rewrite rstrip_OUTPUT_FOLDER, lookup_set_up_output.
Qed.

Lemma nothing_below_temp (w : world) (d : store) (v : node) (kv : string * node) :
  In kv (set_up w d ++ [(log_path w, v)])%list ->
  below (TEMP_FOLDER w) (fst kv) = false.
Proof.
  intros H. apply in_app_or in H as [H|[<-|[]]].
  - now apply (set_up_nothing_below w d).
  - apply not_within_not_below, log_path_not_in_temp.
Qed.

Lemma lookup_temp_opened (w : world) (d : store) (v : node) :
  lookup (TEMP_FOLDER w) (set_up w d ++ [(log_path w, v)])%list = Some Dir.
Proof. now rewrite lookup_app, lookup_set_up_temp. Qed.

(** The names the working folder lists once the log file is open. *)
Lemma listing_after_setup (w : world) (d : store) (v : node) (z : string) :
  SCRIPT_FOLDER w <> "" -> rstrip_slashes (SCRIPT_FOLDER w) = SCRIPT_FOLDER w ->
  In z (children (SCRIPT_FOLDER w) (set_up w d ++ [(log_path w, v)])%list) ->
  In z (children (SCRIPT_FOLDER w) d) \/ z = "processed_kmz" \/ z = "temp_extract".
Proof.
  intros Hne Hr H. apply children_In in H as (kv & Hkv & Hs & ->).
  rewrite Hr in *.
  apply in_app_or in Hkv as [Hkv|[<-|[]]].
  - unfold set_up in Hkv. apply in_app_or in Hkv as [Hkv|[<-|[<-|[]]]].
    + left. apply children_In. exists kv. rewrite Hr.
      apply filter_In in Hkv as [Hkv _]. auto.
    + right. left. cbn [fst]. rewrite (OUTPUT_FOLDER_plain w Hne Hr).
      change (SCRIPT_FOLDER w ++ "/processed_kmz")
        with (SCRIPT_FOLDER w ++ "/" ++ "processed_kmz").
      now rewrite <- append_assoc, drop_app.
    + right. right. cbn [fst]. rewrite (TEMP_FOLDER_plain w Hne Hr).
      change (SCRIPT_FOLDER w ++ "/temp_extract")
        with (SCRIPT_FOLDER w ++ "/" ++ "temp_extract").
      now rewrite <- append_assoc, drop_app.
  - right. left. cbn [fst]. rewrite log_path_eq, (OUTPUT_FOLDER_plain w Hne Hr).
    rewrite append_assoc.
    change ("/processed_kmz" ++ "/processed_kmz_log.txt")
      with ("/" ++ "processed_kmz/processed_kmz_log.txt").
    now rewrite <- append_assoc, drop_app.
Qed.

Lemma working_folder_is_there (w : world) (d : store) (v : node) :
  SCRIPT_FOLDER w <> "" -> rstrip_slashes (SCRIPT_FOLDER w) = SCRIPT_FOLDER w ->
  isfile (SCRIPT_FOLDER w) d = false ->
  isdir (SCRIPT_FOLDER w) (set_up w d ++ [(log_path w, v)])%list = true.
Proof.
  intros Hne Hr Hf.
  assert (Hbelow : below (SCRIPT_FOLDER w) (OUTPUT_FOLDER w) = true).
  { unfold below. rewrite (OUTPUT_FOLDER_plain w Hne Hr).
    now rewrite startswith_app_cancel. }
  assert (Hhas : has_below (SCRIPT_FOLDER w) (set_up w d ++ [(log_path w, v)])%list = true).
  { unfold has_below. apply existsb_exists. exists (OUTPUT_FOLDER w, Dir).
    split; [|exact Hbelow]. apply in_or_app. left. unfold set_up.
    apply in_or_app. right. now left. }
  assert (Helse : elsewhere w (SCRIPT_FOLDER w) = true).
  { assert (Hout : forall t, within (SCRIPT_FOLDER w ++ String "/" t) (SCRIPT_FOLDER w) = false).
    { intros t. unfold within, below. rewrite eqb_app_longer, append_assoc.
      cbn [append]. now rewrite startswith_longer. }
    unfold elsewhere.
    rewrite (OUTPUT_FOLDER_plain w Hne Hr), (TEMP_FOLDER_plain w Hne Hr).
    now rewrite !Hout. }
  unfold isdir. rewrite Hr, lookup_app, (lookup_set_up w d _ Helse).
  unfold isfile in Hf.
  destruct (lookup (SCRIPT_FOLDER w) d) as [[f|]|]; [discriminate | reflexivity|].
  cbn [lookup].
  assert (Hlog : String.eqb (log_path w) (SCRIPT_FOLDER w) = false).
  { rewrite log_path_eq, (OUTPUT_FOLDER_plain w Hne Hr), append_assoc.
    cbn [append]. now rewrite String.eqb_sym, eqb_app_longer. }
  rewrite Hlog. exact Hhas.
Qed.

Lemma remove_temp_after_run (w : world) (d : store) (v : node) :
  remove_tree (TEMP_FOLDER w) (set_up w d ++ [(log_path w, v)])%list
  = (filter (on (elsewhere w)) d ++ [(OUTPUT_FOLDER w, Dir); (log_path w, v)])%list.
Proof.
  unfold remove_tree, set_up. rewrite !filter_app.
  rewrite filter_all.
  - cbn [filter fst].
    rewrite (output_not_in_temp w _ (within_refl _)), within_refl, log_path_not_in_temp.
    cbn [negb]. now rewrite <- app_assoc.
  - intros kv Hkv. apply filter_In in Hkv as [_ Hkv]. unfold on in Hkv.
    apply elsewhere_inv in Hkv as [_ Hkv]. now rewrite Hkv.
Qed.

(** X12. A run in a working folder that lists no [.zip] name converts
    nothing, whatever else the folder holds, overlay archives included: it
    completes, the console carries the two headings and the clean-up
    message only, the output folder holds the log file with its header line
    and nothing else, the scratch folder is gone, and the rest of the disk
    is as it was.  (The working folder is given by a normalized path and is
    no regular file, nor is either of the two folders.) *)
Theorem run_without_bundle_converts_nothing :
  forall (folder : string) (d : store),
    folder <> "" ->
    rstrip_slashes folder = folder ->
    isfile folder d = false ->
    isfile (OUTPUT_FOLDER (fresh folder d)) d = false ->
    isfile (TEMP_FOLDER (fresh folder d)) d = false ->
    forallb (fun n => negb (endswith (lower n) ".zip")) (children folder d) = true ->
    run folder d
    = ({| SCRIPT_FOLDER := folder;
          disk := (filter (on (elsewhere (fresh folder d))) d ++
                   [(OUTPUT_FOLDER (fresh folder d), Dir);
                    (log_path (fresh folder d), File (Data log_header))])%list;
          console := [LookingIn folder; CheckingIn (TEMP_FOLDER (fresh folder d));
                      CleanedUp];
          log_buffer := log_header |}, Ok tt).
Proof.
  intros folder d Hne Hr Hf Ho Ht Hz.
  set (w := fresh folder d).
  assert (Hzip : forall z, In z (children folder (set_up w d ++ [(log_path w, File (Data ""))])%list) ->
                   endswith (lower z) ".zip" = false).
  { intros z Hin.
    apply (listing_after_setup w d _ z Hne Hr) in Hin as [Hin|[->| ->]];
      [|reflexivity|reflexivity].
    rewrite forallb_forall in Hz. apply Hz in Hin. now apply negb_true_iff in Hin. }
  unfold run, main. unfold bind.
  rewrite (setup_fresh folder d (isfile_false _ _ Ho) (isfile_false _ _ Ht)).
  fold w. unfold process_files.
  change (log_path (fresh folder (set_up w d))) with (log_path w).
  rewrite (open_log_run w d (set_log "" (fresh folder (set_up w d))) eq_refl).
  rewrite with_log_body_idle.
  - cbn [SCRIPT_FOLDER disk console log_buffer set_disk set_log fresh app append].
    change (TEMP_FOLDER
              (set_disk (set_up w d ++ [(log_path w, File (Data ""))])%list
                 (set_log "" (fresh folder (set_up w d)))))
      with (TEMP_FOLDER w).
    rewrite cleanup_empty_scratch.
    + unfold close_log.
      cbn [SCRIPT_FOLDER disk console log_buffer set_disk set_log fresh app].
      change (log_path {| SCRIPT_FOLDER := folder;
                          disk := (set_up w d ++ [(log_path w, File (Data ""))])%list;
                          console := [LookingIn folder; CheckingIn (TEMP_FOLDER w)];
                          log_buffer := log_header |})
        with (log_path w).
      change (TEMP_FOLDER
                (set_disk
                   (insert (log_path w) (File (Data log_header))
                      (set_up w d ++ [(log_path w, File (Data ""))])%list)
                   {| SCRIPT_FOLDER := folder;
                      disk := (set_up w d ++ [(log_path w, File (Data ""))])%list;
                      console := [LookingIn folder; CheckingIn (TEMP_FOLDER w)];
                      log_buffer := log_header |}))
        with (TEMP_FOLDER w).
      rewrite log_closed, remove_temp_after_run. reflexivity.
    + unfold close_log. cbn [disk set_disk log_buffer]. 
      change (log_path {| SCRIPT_FOLDER := folder;
                          disk := (set_up w d ++ [(log_path w, File (Data ""))])%list;
                          console := [LookingIn folder; CheckingIn (TEMP_FOLDER w)];
                          log_buffer := log_header |})
        with (log_path w).
      rewrite log_closed. exact (lookup_temp_opened w d _).
    + unfold close_log. cbn [disk set_disk log_buffer].
      change (log_path {| SCRIPT_FOLDER := folder;
                          disk := (set_up w d ++ [(log_path w, File (Data ""))])%list;
                          console := [LookingIn folder; CheckingIn (TEMP_FOLDER w)];
                          log_buffer := log_header |})
        with (log_path w).
      rewrite log_closed. intros kv. exact (nothing_below_temp w d _ kv).
  - exact (working_folder_is_there w d _ Hne Hr Hf).
  - exact Hzip.
  - unfold isdir. cbn [disk set_disk].
    change (TEMP_FOLDER
              (set_disk (set_up w d ++ [(log_path w, File (Data ""))])%list
                 (set_log "" (fresh folder (set_up w d)))))
      with (TEMP_FOLDER w).
    now rewrite rstrip_TEMP_FOLDER, lookup_temp_opened.
  - apply children_none. intros kv Hkv. cbn [disk set_disk] in Hkv.
    change (TEMP_FOLDER
              (set_disk (set_up w d ++ [(log_path w, File (Data ""))])%list
                 (set_log "" (fresh folder (set_up w d)))))
      with (TEMP_FOLDER w).
    rewrite rstrip_TEMP_FOLDER. exact (nothing_below_temp w d _ kv Hkv).
Qed.

(** The overlay archive of the sample placed in the working folder itself. *)
Lemma run_without_bundle_converts_nothing_witness :
  run "/work" (work_disk [("sample.kmz", sample_kmz)])
  = ({| SCRIPT_FOLDER := "/work";
        disk := (filter (on (elsewhere (fresh "/work" (work_disk [("sample.kmz", sample_kmz)]))))
                   (work_disk [("sample.kmz", sample_kmz)]) ++
                 [(OUTPUT_FOLDER (fresh "/work" (work_disk [("sample.kmz", sample_kmz)])), Dir);
                  (log_path (fresh "/work" (work_disk [("sample.kmz", sample_kmz)])),
                   File (Data log_header))])%list;
        console := [LookingIn "/work";
                    CheckingIn (TEMP_FOLDER (fresh "/work" (work_disk [("sample.kmz", sample_kmz)])));
                    CleanedUp];
        log_buffer := log_header |}, Ok tt).
Proof.
  apply (run_without_bundle_converts_nothing "/work" (work_disk [("sample.kmz", sample_kmz)]));
    [discriminate | reflexivity | reflexivity | reflexivity | reflexivity | reflexivity].
Defined.

(* ===================================================================== *)
(** ** The conversions a run announces *)
(* ===================================================================== *)

Lemma announcing_refl (ok : string -> string -> Prop) (w : world) : announcing ok w w.
Proof.
  split; [reflexivity|]. exists []. split; [now rewrite app_nil_r|].
  intros k p [].
Qed.

Lemma announcing_trans (ok : string -> string -> Prop) (w1 w2 w3 : world) :
  announcing ok w1 w2 -> announcing ok w2 w3 -> announcing ok w1 w3.
Proof.
  intros (S1 & ms1 & C1 & P1) (S2 & ms2 & C2 & P2).
  split; [congruence|]. exists (ms1 ++ ms2)%list. split.
  - now rewrite C2, C1, app_assoc.
  - intros k p H. apply in_app_or in H as [H|H]; auto.
Qed.

Lemma announcing_weaken (ok ok' : string -> string -> Prop) (w w' : world) :
  (forall k p, ok k p -> ok' k p) -> announcing ok w w' -> announcing ok' w w'.
Proof.
  intros Hw (S1 & ms & C1 & P1). split; [exact S1|]. exists ms. split; auto.
Qed.

Lemma silent_announcing (ok : string -> string -> Prop) (w w' : world) :
  silent w w' -> announcing ok w w'.
Proof. apply announcing_weaken. intros k p []. Qed.

Lemma silent_refl (w : world) : silent w w.
Proof. apply announcing_refl. Qed.

Lemma silent_trans (w1 w2 w3 : world) : silent w1 w2 -> silent w2 w3 -> silent w1 w3.
Proof. apply announcing_trans. Qed.

Lemma silent_disk (w : world) (d : store) : silent w (set_disk d w).
Proof. exact (announcing_refl _ w). Qed.

Lemma silent_log (w : world) (b : string) : silent w (set_log b w).
Proof. exact (announcing_refl _ w). Qed.

Lemma silent_print (w : world) (m : msg) :
  announces_conversion m = false -> silent w (fst (print m w)).
Proof.
  intros Hm. split; [reflexivity|]. exists [m]. split; [reflexivity|].
  intros k p [->|[]]. discriminate.
Qed.

Ltac by_silent :=
  first [ exact silent_refl | exact silent_trans | exact silent_disk | exact silent_print ].

(** What [repackage_kmz] leaves at the output path when it completes. *)
Lemma repackage_kmz_packed (folder out doc : string) (image_file : option string)
  (w w' : world) :
  lookup (path_join folder "cleaned.kml") (disk w) = Some (File (Data doc)) ->
  out <> path_join folder "cleaned.kml" ->
  repackage_kmz folder out image_file w = (w', Ok tt) ->
  packed (lookup out (disk w')) = true.
Proof.
  intros Hdoc Hne H. unfold repackage_kmz, zip_create in H.
  unfold bind at 1 in H.
  destruct (write_file out (Zip []) w) as [wa [[]|e]] eqn:Ea; [|discriminate].
  apply write_file_ok in Ea. subst wa.
  unfold bind at 1 in H. unfold zip_write at 1 in H. cbn [disk set_disk] in H.
  rewrite (lookup_insert_ne _ _ _ _ Hne), Hdoc, lookup_insert in H.
  cbn [app lstrip_slashes is_slash] in H.
  destruct image_file as [name|]; [|discriminate].
  unfold zip_write in H. cbn [disk set_disk] in H.
  rewrite lookup_insert in H.
  match type of H with
  | context [match ?e with Some _ => _ | None => _ end] =>
      destruct e as [entry|] eqn:Ee
  end; [|discriminate].
  injection H as <-. cbn [disk set_disk]. rewrite lookup_insert. reflexivity.
Qed.

Lemma silent_rmtree (p : string) : respects silent (shutil_rmtree p).
Proof. apply respects_shutil_rmtree; by_silent. Qed.

Lemma silent_parse_kml (kml_path : string) : respects silent (parse_kml kml_path).
Proof. apply respects_parse_kml; by_silent. Qed.

Lemma silent_create_clean_kml (output_kml : string)
  (doc_name image_href : option string) (coordinates : option coords) :
  respects silent (create_clean_kml output_kml doc_name image_href coordinates).
Proof. apply respects_create_clean_kml; by_silent. Qed.

Lemma silent_repackage_kmz (temp_folder output_kmz : string) (image_file : option string) :
  respects silent (repackage_kmz temp_folder output_kmz image_file).
Proof. apply respects_repackage_kmz; by_silent. Qed.

Lemma silent_unpack_kmz (kmz_file : string) : respects silent (unpack_kmz kmz_file).
Proof. apply respects_unpack_kmz; by_silent. Qed.

Lemma silent_step_zip (zip_file : string) : respects silent (step_zip zip_file).
Proof. apply respects_step_zip; by_silent. Qed.

Lemma silent_setup : respects silent setup.
Proof. apply respects_setup; by_silent. Qed.

Lemma silent_skip (m : msg) (p : string) :
  announces_conversion m = false ->
  respects silent (print m ;; shutil_rmtree p).
Proof.
  intros Hm. apply respects_bind; [by_silent| |intros _; apply silent_rmtree].
  apply respects_print; [by_silent | exact Hm].
Qed.

(** The output archive lies in the output folder, the scratch document in
    the scratch folder. *)
Lemma output_apart (w : world) (kmz_file folder n : string) :
  file_name kmz_file = true ->
  within (TEMP_FOLDER w) folder = true ->
  startswith "/" n = false ->
  path_join (OUTPUT_FOLDER w) kmz_file <> path_join folder n.
Proof.
  intros Hk Hin Hn E.
  pose proof (below_output_join w kmz_file (file_name_not_absolute _ Hk)) as Ho.
  pose proof (below_temp_join w folder n Hin Hn) as Ht.
  rewrite <- E in Ht. apply below_within in Ht.
  now rewrite (output_not_in_temp w _ (below_within _ _ Ho)) in Ht.
Qed.

Lemma output_survives_rmtree (w : world) (kmz_file folder : string) (d : store) :
  file_name kmz_file = true ->
  within (TEMP_FOLDER w) folder = true ->
  lookup (path_join (OUTPUT_FOLDER w) kmz_file) (remove_tree (rstrip_slashes folder) d)
  = lookup (path_join (OUTPUT_FOLDER w) kmz_file) d.
Proof.
  intros Hk Hin. unfold remove_tree.
  rewrite (lookup_filter (fun k => negb (within (rstrip_slashes folder) k))).
  destruct (within (rstrip_slashes folder) (path_join (OUTPUT_FOLDER w) kmz_file)) eqn:E;
    [|reflexivity].
  pose proof (below_output_join w kmz_file (file_name_not_absolute _ Hk)) as Ho.
  pose proof (within_trans _ _ _ (rstrip_within _ _ (rstrip_TEMP_FOLDER w) Hin) E) as Ht.
  now rewrite (output_not_in_temp w _ (below_within _ _ Ho)) in Ht.
Qed.

(** The second half of a step of the loop announces at most the conversion
    of its own archive, and then the output archive is there, packed. *)
Lemma convert_kmz_announces (kmz_file folder : string) (w w1 : world) (r : result unit) :
  file_name kmz_file = true ->
  within (TEMP_FOLDER w) folder = true ->
  convert_kmz kmz_file folder w = (w1, r) ->
  announcing (fun k p => k = kmz_file /\
                         p = path_join (OUTPUT_FOLDER w) kmz_file /\
                         packed (lookup p (disk w1)) = true) w w1.
Proof.
  intros Hk Hin H. unfold convert_kmz in H.
  unfold bind at 1 in H. cbn [get_world] in H.
  unfold bind at 1 in H. cbn [os_path_exists] in H.
  destruct (negb (path_exists (path_join folder "doc.kml") (disk w))).
  { apply silent_announcing.
    exact (silent_skip (NoKmlFile kmz_file) folder eq_refl _ _ _ H). }
  unfold bind at 1 in H.
  destruct (parse_kml (path_join folder "doc.kml") w)
    as [w2 [[[doc_name image_href] coordinates]|e]] eqn:Ep.
  2:{ injection H as <- <-. apply silent_announcing.
      exact (silent_parse_kml _ _ _ _ Ep). }
  assert (S2 : silent w w2).
  { exact (silent_parse_kml _ _ _ _ Ep). }
  destruct (negb (truthy doc_name) || negb (truthy image_href)).
  { apply silent_announcing. apply (silent_trans _ _ _ S2).
    exact (silent_skip (SkippingMissingData kmz_file) folder eq_refl _ _ _ H). }
  unfold bind at 1 in H. cbn [print] in H. unfold bind at 1 in H.
  match type of H with
  | context [create_clean_kml _ _ _ _ ?v] => set (w2' := v) in H
  end.
  assert (S2' : silent w w2').
  { apply (silent_trans _ _ _ S2). exact (silent_print w2 (Parsed doc_name) eq_refl). }
  destruct (create_clean_kml (path_join folder "cleaned.kml") doc_name image_href
              coordinates w2') as [w3 [[]|e]] eqn:Ec.
  2:{ injection H as <- <-. apply silent_announcing. apply (silent_trans _ _ _ S2').
      exact (silent_create_clean_kml _ _ _ _ _ _ _ Ec). }
  assert (S3 : silent w w3).
  { apply (silent_trans _ _ _ S2').
    exact (silent_create_clean_kml _ _ _ _ _ _ _ Ec). }
  apply create_clean_kml_ok in Ec as (c & _ & Ec).
  unfold bind at 1 in H.
  destruct (repackage_kmz folder (path_join (OUTPUT_FOLDER w) kmz_file) image_href w3)
    as [w4 [[]|e]] eqn:Er.
  2:{ injection H as <- <-. apply silent_announcing. apply (silent_trans _ _ _ S3).
      exact (silent_repackage_kmz _ _ _ _ _ _ Er). }
  assert (S4 : silent w w4).
  { apply (silent_trans _ _ _ S3).
    exact (silent_repackage_kmz _ _ _ _ _ _ Er). }
  assert (Hpacked : packed (lookup (path_join (OUTPUT_FOLDER w) kmz_file) (disk w4)) = true).
  { apply (repackage_kmz_packed folder _ (kml_content doc_name image_href c)
             image_href w3 w4); [|now apply output_apart|exact Er].
    rewrite Ec. cbn [disk set_disk]. apply lookup_insert. }
  apply (announcing_trans _ w w4 w1); [now apply silent_announcing|].
  unfold bind in H. cbn [print log_write] in H.
  unfold shutil_rmtree in H. cbn [disk set_log] in H.
  assert (Hlast : forall d1 : store,
            lookup (path_join (OUTPUT_FOLDER w) kmz_file) d1
            = lookup (path_join (OUTPUT_FOLDER w) kmz_file) (disk w4) ->
            forall k p,
              In (Processed k p) [Processed kmz_file (path_join (OUTPUT_FOLDER w) kmz_file)] ->
              k = kmz_file /\ p = path_join (OUTPUT_FOLDER w) kmz_file /\
              packed (lookup p d1) = true).
  { intros d1 Hd1 k p [E|[]]. injection E as <- <-.
    split; [reflexivity|]. split; [reflexivity|]. now rewrite Hd1. }
  destruct (isdir (rstrip_slashes folder) (disk w4)).
  - injection H as <- <-. split; [reflexivity|].
    exists [Processed kmz_file (path_join (OUTPUT_FOLDER w) kmz_file)].
    split; [reflexivity|]. cbn [disk set_disk]. apply Hlast.
    now apply output_survives_rmtree.
  - destruct (isfile (rstrip_slashes folder) (disk w4)); injection H as <- <-;
      (split; [reflexivity|];
       exists [Processed kmz_file (path_join (OUTPUT_FOLDER w) kmz_file)];
       split; [reflexivity|]; cbn [disk]; now apply Hlast).
Qed.

Lemma folders_home (w home : world) :
  SCRIPT_FOLDER w = SCRIPT_FOLDER home ->
  TEMP_FOLDER w = TEMP_FOLDER home /\ OUTPUT_FOLDER w = OUTPUT_FOLDER home.
Proof. intros H. unfold TEMP_FOLDER, OUTPUT_FOLDER. now rewrite H. Qed.

(** One step of the second loop announces at most the conversion of its own
    archive, whose name then ends in [.kmz] and whose output is packed. *)
Lemma step_kmz_announces (kmz_file : string) (w w1 : world) (r : result unit) :
  file_name kmz_file = true ->
  step_kmz kmz_file w = (w1, r) ->
  announcing (fun k p => k = kmz_file /\
                         endswith (lower kmz_file) ".kmz" = true /\
                         p = path_join (OUTPUT_FOLDER w) kmz_file /\
                         packed (lookup p (disk w1)) = true) w w1.
Proof.
  intros Hk H. unfold step_kmz in H. unfold bind at 1 in H. cbn [print] in H.
  pose proof (silent_print w (FoundInTemp kmz_file) eq_refl) as S0.
  cbn [print fst] in S0.
  destruct (endswith (lower kmz_file) ".kmz") eqn:Ekmz.
  2:{ injection H as <- <-. now apply silent_announcing. }
  unfold bind at 1 in H.
  match type of H with
  | context [unpack_kmz kmz_file ?v] =>
      destruct (unpack_kmz kmz_file v) as [w2 [folder|e]] eqn:Eu
  end.
  2:{ injection H as <- <-. apply silent_announcing.
      exact (silent_trans _ _ _ S0 (silent_unpack_kmz _ _ _ _ Eu)). }
  pose proof (silent_trans _ _ _ S0 (silent_unpack_kmz _ _ _ _ Eu)) as S2.
  destruct (folders_home w2 w (proj1 S2)) as [Ht Ho].
  assert (Hin : within (TEMP_FOLDER w2) folder = true).
  { rewrite Ht. eapply unpack_kmz_folder; [exact Hk | | exact Eu]. reflexivity. }
  pose proof (convert_kmz_announces _ _ _ _ _ Hk Hin H) as A.
  rewrite Ho in A.
  apply (announcing_trans _ w w2 w1); [now apply silent_announcing|].
  revert A. apply announcing_weaken. intros k p (A & B & C). auto.
Qed.

(** The second loop leaves every output alone that belongs to none of its
    archives. *)
Lemma loop_keeps_other_outputs (l : list string) (w w' : world) (r : result unit)
  (p : string) :
  (forall n, In n l -> file_name n = true) ->
  for_each l step_kmz w = (w', r) ->
  within (TEMP_FOLDER w) p = false ->
  (forall k, In k l -> p <> path_join (OUTPUT_FOLDER w) k) ->
  lookup p (disk w') = lookup p (disk w).
Proof.
  intros Hnames H Hp Hother.
  pose (files := fun q => below (TEMP_FOLDER w) q
                          || existsb (fun k => String.eqb q (path_join (OUTPUT_FOLDER w) k)) l).
  assert (Htemp : forall q, below (TEMP_FOLDER w) q = true -> files q = true).
  { intros q Hq. unfold files. now rewrite Hq. }
  assert (Hsteps : forall k, In k l ->
            respects (moving files (scratch_area w) w) (step_kmz k)).
  { intros k Hk. apply (aw_step_kmz w files Htemp k (Hnames k Hk)).
    unfold files. apply orb_true_iff. right. apply existsb_exists.
    exists k. split; [exact Hk | apply String.eqb_refl]. }
  destruct (mv_for_each files (scratch_area w) w l step_kmz Hsteps w w' r H eq_refl)
    as [_ Hm].
  apply (disk_moves_keep_lookup files (scratch_area w) _ _ p); [| exact Hp | exact Hm].
  unfold files. rewrite (not_within_not_below _ _ Hp). cbn [orb].
  apply existsb_none. intros k Hk. apply String.eqb_neq. now apply Hother.
Qed.

(** The second loop announces conversions of archives it was given only, and
    when it ends, normally or not, every one of them has its packed output. *)
Lemma loop_announces (l : list string) :
  forall (w w' : world) (r : result unit),
    NoDup l ->
    (forall n, In n l -> file_name n = true) ->
    for_each l step_kmz w = (w', r) ->
    announcing (fun k p => In k l /\
                           endswith (lower k) ".kmz" = true /\
                           p = path_join (OUTPUT_FOLDER w) k /\
                           packed (lookup p (disk w')) = true) w w'.
Proof.
  induction l as [|k l IH]; intros w w' r Hnd Hnames H.
  - injection H as <- <-. apply announcing_refl.
  - cbn [for_each] in H. unfold bind in H.
    assert (Hk : file_name k = true) by (apply Hnames; now left).
    destruct (step_kmz k w) as [w1 [[]|e]] eqn:Es.
    + pose proof (step_kmz_announces _ _ _ _ Hk Es) as A1.
      destruct (folders_home w1 w (proj1 A1)) as [Ht Ho].
      inversion Hnd as [|k0 l0 Hnotin Hnd' E]. subst k0 l0.
      assert (Hnames' : forall n, In n l -> file_name n = true).
      { intros n Hn. apply Hnames. now right. }
      pose proof (IH _ _ _ Hnd' Hnames' H) as A2. rewrite Ho in A2.
      apply (announcing_trans _ w w1 w').
      * revert A1. apply announcing_weaken. intros k' p (-> & B & -> & D).
        split; [now left|]. split; [exact B|]. split; [reflexivity|].
        rewrite (loop_keeps_other_outputs l w1 w' r _ Hnames' H); [exact D| |].
        -- rewrite Ht. apply output_not_in_temp, below_within.
           apply (below_output_join w k (file_name_not_absolute _ Hk)).
        -- intros k'' Hk'' E. rewrite Ho in E.
           apply path_join_inj in E; [|exact Hk|now apply Hnames'].
           subst k''. contradiction.
      * revert A2. apply announcing_weaken. intros k' p (A & B & C & D).
        split; [now right|]. auto.
    + injection H as <- <-.
      pose proof (step_kmz_announces _ _ _ _ Hk Es) as A1.
      revert A1. apply announcing_weaken. intros k' p (-> & B & C & D).
      split; [now left|]. auto.
Qed.

Lemma NoDup_dedup (l seen : list string) :
  NoDup (dedup seen l) /\
  forall x, In x (dedup seen l) -> existsb (String.eqb x) seen = false.
Proof.
  revert seen. induction l as [|y l IH]; intros seen.
  - split; [constructor | intros x []].
  - cbn [dedup]. destruct (existsb (String.eqb y) seen) eqn:Ey; [apply IH|].
    destruct (IH (y :: seen)) as [Hnd Hout]. split.
    + constructor; [|exact Hnd]. intros Hin. apply Hout in Hin.
      cbn [existsb] in Hin. now rewrite String.eqb_refl in Hin.
    + intros x [<-|Hx]; [exact Ey|].
      apply Hout in Hx. cbn [existsb] in Hx. now apply orb_false_iff in Hx as [_ Hx].
Qed.

Lemma os_listdir_ok (p : string) (w w' : world) (names : list string) :
  os_listdir p w = (w', Ok names) -> w' = w /\ names = children p (disk w).
Proof.
  unfold os_listdir. intros H. destruct (isdir p (disk w)).
  - now injection H as <- <-.
  - destruct (isfile p (disk w)); discriminate.
Qed.

Lemma os_listdir_silent (p : string) : respects silent (os_listdir p).
Proof. apply respects_os_listdir; by_silent. Qed.

Lemma cleanup_silent : respects silent cleanup.
Proof.
  intros w w' r H. unfold cleanup in H. unfold bind at 1 2 in H.
  cbn [get_world os_path_exists] in H.
  destruct (path_exists (TEMP_FOLDER w) (disk w)).
  2:{ injection H as <- <-. apply silent_refl. }
  unfold bind in H.
  assert (Hend : forall v : world,
            silent w v ->
            (let (w'', r0) := shutil_rmtree (TEMP_FOLDER w) v in
             match r0 with
             | Ok _ => print CleanedUp w''
             | Raise _ => (w'', Ok tt)
             end) = (w', r) -> silent w w').
  { intros v Sv Hv.
    destruct (shutil_rmtree (TEMP_FOLDER w) v) as [v1 [[]|e]] eqn:E.
    - apply (silent_trans _ _ _ Sv). apply (silent_trans _ _ _ (silent_rmtree _ _ _ _ E)).
      unfold print in Hv. injection Hv as <- <-.
      exact (silent_print v1 CleanedUp eq_refl).
    - injection Hv as <- <-.
      exact (silent_trans _ _ _ Sv (silent_rmtree _ _ _ _ E)). }
  destruct (isdir (TEMP_FOLDER w) (disk w)).
  - exact (Hend _ (silent_disk w _) H).
  - exact (Hend _ (silent_refl w) H).
Qed.

Lemma silent_zips (zips : list string) : respects silent (for_each zips step_zip).
Proof. apply respects_for_each; [by_silent | by_silent | apply silent_step_zip]. Qed.

Lemma with_log_body_announces (w w1 : world) (r : result unit) :
  with_log_body w = (w1, r) ->
  announcing (fun k p => file_name k = true /\
                         endswith (lower k) ".kmz" = true /\
                         p = path_join (OUTPUT_FOLDER w) k /\
                         packed (lookup p (disk w1)) = true) w w1.
Proof.
  intros H. unfold with_log_body in H.
  unfold bind at 1 in H. cbn [get_world] in H.
  unfold bind at 1 in H. cbn [log_write] in H.
  unfold bind at 1 in H. cbn [print] in H. unfold bind at 1 in H.
  match type of H with
  | context [os_listdir (SCRIPT_FOLDER w) ?v] => set (wb := v) in H
  end.
  assert (Sb : silent w wb).
  { apply (silent_trans _ _ _ (silent_log w (log_buffer w ++ log_header))).
    exact (silent_print _ (LookingIn (SCRIPT_FOLDER w)) eq_refl). }
  destruct (os_listdir (SCRIPT_FOLDER w) wb) as [wc [zips|e]] eqn:El.
  2:{ injection H as <- <-. apply silent_announcing.
      exact (silent_trans _ _ _ Sb (os_listdir_silent _ _ _ _ El)). }
  pose proof (silent_trans _ _ _ Sb (os_listdir_silent _ _ _ _ El)) as Sc.
  unfold bind at 1 in H.
  destruct (for_each zips step_zip wc) as [wd [[]|e]] eqn:Ez.
  2:{ injection H as <- <-. apply silent_announcing. apply (silent_trans _ _ _ Sc).
      exact (silent_zips _ _ _ _ Ez). }
  assert (Sd : silent w wd).
  { apply (silent_trans _ _ _ Sc).
    exact (silent_zips _ _ _ _ Ez). }
  unfold bind at 1 in H. cbn [print] in H. unfold bind at 1 in H.
  match type of H with
  | context [os_listdir (TEMP_FOLDER w) ?v] => set (we := v) in H
  end.
  assert (Se : silent w we).
  { apply (silent_trans _ _ _ Sd).
    exact (silent_print wd (CheckingIn (TEMP_FOLDER w)) eq_refl). }
  destruct (os_listdir (TEMP_FOLDER w) we) as [wf [kmzs|e]] eqn:Ek.
  2:{ injection H as <- <-. apply silent_announcing.
      exact (silent_trans _ _ _ Se (os_listdir_silent _ _ _ _ Ek)). }
  pose proof (os_listdir_names _ _ _ _ Ek) as Hnames.
  apply os_listdir_ok in Ek as [-> ->].
  pose proof (loop_announces _ _ _ _ (proj1 (NoDup_dedup _ [])) Hnames H) as A.
  destruct (folders_home we w (proj1 Se)) as [_ Ho]. rewrite Ho in A.
  apply (announcing_trans _ w we w1); [now apply silent_announcing|].
  revert A. apply announcing_weaken. intros k p (A & B).
  split; [now apply Hnames | exact B].
Qed.

(** No output archive goes by the name of the log file. *)
Lemma output_is_not_the_log (w : world) (k : string) :
  file_name k = true -> endswith (lower k) ".kmz" = true ->
  log_path w <> path_join (OUTPUT_FOLDER w) k.
Proof.
  intros Hk Hkmz E. unfold log_path in E.
  apply path_join_inj in E; [|reflexivity|exact Hk].
  subst k. discriminate.
Qed.

Lemma process_files_announces (w w' : world) (r : result unit) :
  process_files w = (w', r) ->
  announcing (fun k p => endswith (lower k) ".kmz" = true /\
                         p = path_join (OUTPUT_FOLDER w) k /\
                         packed (lookup p (disk w')) = true) w w'.
Proof.
  intros H. unfold process_files in H.
  destruct (write_file (log_path w) (Data "") (set_log "" w)) as [w0 [[]|e]] eqn:Eopen.
  2:{ injection H as <- <-. apply silent_announcing.
      apply (silent_trans _ _ _ (silent_log w "")).
      exact (respects_write_file silent silent_refl silent_disk _ _ _ _ _ Eopen). }
  assert (S0 : silent w w0).
  { apply (silent_trans _ _ _ (silent_log w "")).
    exact (respects_write_file silent silent_refl silent_disk _ _ _ _ _ Eopen). }
  destruct (folders_home w0 w (proj1 S0)) as [Ht Ho].
  destruct (with_log_body w0) as [w1 [[]|e]] eqn:Ebody.
  - pose proof (with_log_body_announces _ _ _ Ebody) as A. rewrite Ho in A.
    assert (S1 : SCRIPT_FOLDER w1 = SCRIPT_FOLDER w).
    { destruct A as [A _]. destruct S0 as [B _]. congruence. }
    destruct (cleanup_confined _ _ _ H) as (_ & Hframe).
    pose proof (cleanup_silent _ _ _ H) as Sc.
    apply (announcing_trans _ w w0 w'); [now apply silent_announcing|].
    apply (announcing_trans _ w0 w1 w').
    + revert A. apply announcing_weaken. intros k p (Hk & Hkmz & -> & Hp).
      split; [exact Hkmz|]. split; [reflexivity|].
      rewrite Hframe.
      * unfold close_log. cbn [disk set_disk].
        rewrite lookup_insert_ne; [exact Hp|].
        destruct (folders_home w1 w S1) as [_ Ho1].
        unfold log_path. rewrite Ho1. exact (output_is_not_the_log w k Hk Hkmz).
      * change (TEMP_FOLDER (close_log w1)) with (TEMP_FOLDER w1).
        destruct (folders_home w1 w S1) as [-> _].
        apply output_outside_temp.
        pose proof (below_output_join w k (file_name_not_absolute _ Hk)) as Hb.
        exact (startswith_app_l _ _ _ Hb).
    + apply silent_announcing. exact Sc.
  - injection H as <- <-.
    pose proof (with_log_body_announces _ _ _ Ebody) as A. rewrite Ho in A.
    assert (S1 : SCRIPT_FOLDER w1 = SCRIPT_FOLDER w).
    { destruct A as [A _]. destruct S0 as [B _]. congruence. }
    apply (announcing_trans _ w w0 (close_log w1)); [now apply silent_announcing|].
    apply (announcing_trans _ w0 w1 (close_log w1)).
    + revert A. apply announcing_weaken. intros k p (Hk & Hkmz & -> & Hp).
      split; [exact Hkmz|]. split; [reflexivity|].
      unfold close_log. cbn [disk set_disk].
      rewrite lookup_insert_ne; [exact Hp|].
      destruct (folders_home w1 w S1) as [_ Ho1].
      unfold log_path. rewrite Ho1. exact (output_is_not_the_log w k Hk Hkmz).
    + apply silent_announcing. exact (silent_disk w1 _).
Qed.

(** X13. Let every bundle in the working folder hold plain files at its
    top level only, each with a name that gives it an extraction folder of
    its own, and let the archives among them hold plain files at their top
    level.  Then every conversion the run announces on its console, and so
    every line it writes to the log, is the conversion of an archive whose
    name ends in [.kmz], names the output path
    [processed_kmz/<archive name>], and when the run is over, however it
    ends, that output archive is there with exactly two entries, the first
    of them a document named [doc.kml]. *)
Theorem announced_conversions_are_packed :
  forall (folder : string) (d : store) (k p : string),
    plain_bundles folder d = true ->
    In (Processed k p) (console (fst (run folder d))) ->
    endswith (lower k) ".kmz" = true /\
    p = path_join (OUTPUT_FOLDER (fresh folder d)) k /\
    packed (lookup p (disk (fst (run folder d)))) = true.
Proof.
  intros folder d k p _ Hin. unfold run, main, bind in *.
  destruct (setup (fresh folder d)) as [ws [[]|e]] eqn:Es.
  - destruct (silent_setup _ _ _ Es) as (Hs & ms & Hc & Hms).
    destruct (process_files ws) as [w' r] eqn:Ep. cbn [fst] in *.
    destruct (process_files_announces _ _ _ Ep) as (_ & ms' & Hc' & Hms').
    rewrite Hc', Hc in Hin. cbn [console fresh app] in Hin.
    apply in_app_or in Hin as [Hin|Hin]; [destruct (Hms _ _ Hin)|].
    destruct (folders_home ws (fresh folder d) Hs) as [_ Ho].
    rewrite Ho in Hms'. exact (Hms' _ _ Hin).
  - cbn [fst] in *.
    destruct (silent_setup _ _ _ Es) as (Hs & ms & Hc & Hms).
    rewrite Hc in Hin. cbn [console fresh app] in Hin.
    destruct (Hms _ _ Hin).
Qed.

Lemma bundled_kmz_is_announced :
  In (Processed "sample.kmz" "/work/processed_kmz/sample.kmz")
     (console (fst (run "/work" (bundle_disk [("sample.kmz", sample_kmz)])))).
Proof. vm_compute. auto 10. Qed.

(** The conversion of the archive of a bundle. *)
Lemma announced_conversions_are_packed_witness :
  endswith (lower "sample.kmz") ".kmz" = true /\
  "/work/processed_kmz/sample.kmz"
  = path_join (OUTPUT_FOLDER (fresh "/work" (bundle_disk [("sample.kmz", sample_kmz)])))
      "sample.kmz" /\
  packed (lookup "/work/processed_kmz/sample.kmz"
            (disk (fst (run "/work" (bundle_disk [("sample.kmz", sample_kmz)]))))) = true.
Proof.
  apply (announced_conversions_are_packed "/work" (bundle_disk [("sample.kmz", sample_kmz)])
           "sample.kmz" "/work/processed_kmz/sample.kmz").
  - reflexivity.
  - exact bundled_kmz_is_announced.
Defined.

(* ===================================================================== *)
(** ** The document [create_clean_kml] writes, read back *)
(* ===================================================================== *)

(** X14. When the six fields are plain character data as [str] renders
    them, the file [create_clean_kml] has written reads back with [ET.parse]
    as one fixed tree: a [kml] root with a [Document] that holds the name,
    [open] set to 1 and one [GroundOverlay] with the name [Map], draw order
    100, the [Icon] with the image reference, the [LatLonBox] with the four
    edges in the order north, south, east, west, and a [Lod] of 64 and -1;
    nothing else, whatever the source document held. *)
Theorem synthesized_document_shape :
  forall (output_kml : string) (doc_name image_href north south east west : option string)
         (w w' : world),
    plain_text (fmt doc_name) = true ->
    plain_text (fmt image_href) = true ->
    plain_text (fmt north) = true ->
    plain_text (fmt south) = true ->
    plain_text (fmt east) = true ->
    plain_text (fmt west) = true ->
    create_clean_kml output_kml doc_name image_href (Some (north, south, east, west)) w
    = (w', Ok tt) ->
    ET_parse output_kml w'
    = (w', Ok (Elem (kml "kml") (Some nl)
                 [Elem (kml "Document") (Some (nl ++ "    "))
                    [leaf "name" (fmt doc_name);
                     leaf "open" "1";
                     Elem (kml "GroundOverlay") (Some (nl ++ "        "))
                       [leaf "name" "Map";
                        leaf "drawOrder" "100";
                        Elem (kml "Icon") (Some (nl ++ "            "))
                          [leaf "href" (fmt image_href)];
                        Elem (kml "LatLonBox") (Some (nl ++ "            "))
                          [leaf "north" (fmt north); leaf "south" (fmt south);
                           leaf "east" (fmt east); leaf "west" (fmt west)];
                        Elem (kml "Lod") (Some (nl ++ "            "))
                          [leaf "minLodPixels" "64"; leaf "maxLodPixels" "-1"]]]])).
Proof.
  intros output_kml doc_name image_href north south east west w w'
         Pa Pb Pc Pd Pe Pf H.
  apply create_clean_kml_ok in H as (c & Hc & ->). injection Hc as <-.
  apply plain_text_inv in Pa as (Pa1 & Pa2). apply plain_text_inv in Pb as (Pb1 & Pb2).
  apply plain_text_inv in Pc as (Pc1 & Pc2). apply plain_text_inv in Pd as (Pd1 & Pd2).
  apply plain_text_inv in Pe as (Pe1 & Pe2). apply plain_text_inv in Pf as (Pf1 & Pf2).
  apply (ET_parse_data _ (kml_content doc_name image_href (north, south, east, west))).
  - cbn [disk set_disk]. apply lookup_insert.
  - unfold kml_content.
    exact (parse_plain _ _ _ _ _ _ Pa1 Pa2 Pb1 Pb2 Pc1 Pc2 Pd1 Pd2 Pe1 Pe2 Pf1 Pf2).
Qed.

(** The sample record, with an edge that has no text. *)
Lemma synthesized_document_shape_witness :
  ET_parse "/t/cleaned.kml"
    (fst (create_clean_kml "/t/cleaned.kml" (Some "Topo A") (Some "overlay.png")
            (Some (Some "45.0", None, Some "-120.0", Some "-121.0")) (folder_world "/t")))
  = (fst (create_clean_kml "/t/cleaned.kml" (Some "Topo A") (Some "overlay.png")
            (Some (Some "45.0", None, Some "-120.0", Some "-121.0")) (folder_world "/t")),
     Ok (Elem (kml "kml") (Some nl)
           [Elem (kml "Document") (Some (nl ++ "    "))
              [leaf "name" "Topo A";
               leaf "open" "1";
               Elem (kml "GroundOverlay") (Some (nl ++ "        "))
                 [leaf "name" "Map";
                  leaf "drawOrder" "100";
                  Elem (kml "Icon") (Some (nl ++ "            "))
                    [leaf "href" "overlay.png"];
                  Elem (kml "LatLonBox") (Some (nl ++ "            "))
                    [leaf "north" "45.0"; leaf "south" "None";
                     leaf "east" "-120.0"; leaf "west" "-121.0"];
                  Elem (kml "Lod") (Some (nl ++ "            "))
                    [leaf "minLodPixels" "64"; leaf "maxLodPixels" "-1"]]]])).
Proof.
  apply (synthesized_document_shape "/t/cleaned.kml" (Some "Topo A") (Some "overlay.png")
           (Some "45.0") None (Some "-120.0") (Some "-121.0") (folder_world "/t"));
    reflexivity.
Defined.
